(** * Map deploy tool and combat-systems validator

    A shallow embedding of the two scripts of the repository,

      - [server/scripts/map_deploy.py]   (module [MapDeploy]),
      - [validate_combat_systems.py]     (module [Validator]),

    together with the parts of the Python runtime they rely on: string
    primitives (module [Py]), the regular expressions handed to
    [re.search] (module [Regex]) and [json.dumps] (module [Json]).

    Text is modelled as a list of characters, a character being a code
    point below 256 ([ascii]); this is the range in which [str.isspace],
    [int] and [json.dumps] are described here. *)

From Stdlib Require Import Ascii String DecimalString.
From Stdlib Require Import ZArith Lia Bool Arith List.
From Stdlib Require Import Floats Uint63.
From Stdlib Require QArith.
From Stdlib Require DecimalPos.
Import ListNotations.

Local Open Scope list_scope.
Local Open Scope char_scope.

(** Python [str] values. *)
Definition str := list ascii.

(** A literal. *)
Definition lit (s : string) : str := list_ascii_of_string s.

(* ===================================================================== *)
(** ** Python string primitives *)
(* ===================================================================== *)

Module Py.

Definition code (c : ascii) : nat := nat_of_ascii c.

(** [str.isspace] on one character: TAB, LF, VT, FF, CR, the four
    separators 0x1C-0x1F, SPACE, NEL (0x85) and NBSP (0xA0).  It is the
    class stripped by [str.strip()] and the class [\s] of a [str]
    pattern. *)
Definition is_space (c : ascii) : bool :=
  let n := code c in
  (((9 <=? n) && (n <=? 13)) || ((28 <=? n) && (n <=? 32))
   || (n =? 133) || (n =? 160))%nat.

Definition LF : ascii := ascii_of_nat 10.
Definition CR : ascii := ascii_of_nat 13.

Fixpoint lstrip (s : str) : str :=
  match s with
  | [] => []
  | c :: r => if is_space c then lstrip r else s
  end.

Definition rstrip (s : str) : str := rev (lstrip (rev s)).

(** [s.strip()] *)
Definition strip (s : str) : str := rstrip (lstrip s).

(** Truth value of a [str]: non-empty. *)
Definition truthy (s : str) : bool :=
  match s with [] => false | _ :: _ => true end.

(** [s.split(sep)] for a one-character separator: always at least one
    field. *)
Fixpoint split (sep : ascii) (s : str) : list str :=
  match s with
  | [] => [[]]
  | c :: r =>
      if Ascii.eqb c sep then [] :: split sep r
      else match split sep r with
           | [] => [[c]]
           | t :: ts => (c :: t) :: ts
           end
  end.

(** [f.readlines()] on a file opened in text mode with the default
    [newline=None]: LF, CR and CR LF all end a line and are read as LF;
    every line but possibly the last keeps its terminator. *)
Fixpoint readlines (s : str) : list str :=
  match s with
  | [] => []
  | c :: r =>
      if Ascii.eqb c LF then [LF] :: readlines r
      else if Ascii.eqb c CR then
        match r with
        | c' :: r' =>
            if Ascii.eqb c' LF then [LF] :: readlines r'
            else [LF] :: readlines r
        | [] => [[LF]]
        end
      else match readlines r with
           | [] => [[c]]
           | l :: ls => (c :: l) :: ls
           end
  end.

(** [s.endswith(suffix)] *)
Fixpoint startswith (s p : str) : bool :=
  match p, s with
  | [], _ => true
  | a :: p', b :: s' => Ascii.eqb a b && startswith s' p'
  | _ :: _, [] => false
  end.

Definition endswith (s suffix : str) : bool :=
  startswith (rev s) (rev suffix).

(** [name.replace(".csv", "")]: every occurrence, scanning left to
    right without overlap, is dropped. *)
Fixpoint remove_csv (s : str) : str :=
  match s with
  | [] => []
  | c1 :: r1 =>
      match r1 with
      | c2 :: c3 :: c4 :: r4 =>
          if Ascii.eqb c1 "." && Ascii.eqb c2 "c"
             && Ascii.eqb c3 "s" && Ascii.eqb c4 "v"
          then remove_csv r4
          else c1 :: remove_csv r1
      | _ => c1 :: remove_csv r1
      end
  end.

Definition digit_val (c : ascii) : option Z :=
  let n := code c in
  if ((48 <=? n) && (n <=? 57))%nat then Some (Z.of_nat (n - 48)) else None.

(** The digits of a decimal literal: digits, with single underscores
    allowed between two digits.  [after_digit] tells whether the
    previous character was a digit. *)
Fixpoint digits (acc : Z) (after_digit : bool) (s : str) : option Z :=
  match s with
  | [] => if after_digit then Some acc else None
  | c :: r =>
      if Ascii.eqb c "_" then
        if after_digit then digits acc false r else None
      else match digit_val c with
           | Some d => digits (10 * acc + d) true r
           | None => None
           end
  end.

(** The white space [int] skips around a literal: TAB, LF, VT, FF, CR,
    SPACE, NEL and NBSP.  The separators 0x1C-0x1F, which [str.strip]
    removes, are not among them. *)
Definition int_space (c : ascii) : bool :=
  let n := code c in
  (((9 <=? n) && (n <=? 13)) || (n =? 32) || (n =? 133) || (n =? 160))%nat.

Fixpoint int_lstrip (s : str) : str :=
  match s with
  | [] => []
  | c :: r => if int_space c then int_lstrip r else s
  end.

Definition int_trim (s : str) : str := rev (int_lstrip (rev (int_lstrip s))).

(** The interpreter's default limit on the number of digits of a
    decimal literal ([sys.int_max_str_digits], CPython 3.11 and
    later), and the number of digits of a text: underscores and the
    sign do not count, leading zeros do. *)
Definition MAX_STR_DIGITS : nat := 4300.

Definition digit_count (s : str) : nat :=
  List.length (filter (fun c => match digit_val c with
                                | Some _ => true
                                | None => false
                                end) s).

(** The digits of a literal, once the sign is taken off: at most
    [MAX_STR_DIGITS] of them. *)
Definition literal (body : str) : option Z :=
  if (digit_count body <=? MAX_STR_DIGITS)%nat then digits 0 false body
  else None.

(** [int(s)] in base ten: surrounding white space, an optional sign,
    digits.  [None] stands for [ValueError]. *)
Definition int (s : str) : option Z :=
  match int_trim s with
  | c :: r =>
      if Ascii.eqb c "-" then option_map Z.opp (literal r)
      else if Ascii.eqb c "+" then literal r
      else literal (c :: r)
  | [] => None
  end.

(** [str(n)] / [repr(n)] of an integer, as it is for the integers of at
    most [MAX_STR_DIGITS] digits; the script writes no other, its
    integers being lengths and what [int] has read. *)
Definition str_of_int (z : Z) : str :=
  lit (NilZero.string_of_int (Z.to_int z)).

End Py.

(* ===================================================================== *)
(** ** Regular expressions of [re.search] *)
(* ===================================================================== *)

Module Regex.

(** The two character classes the patterns use: [\s] and [.] (any
    character but a line feed, as [re.DOTALL] is not set). *)
Inductive cls := Space | Dot.

Definition in_cls (k : cls) (c : ascii) : bool :=
  match k with
  | Space => Py.is_space c
  | Dot => negb (Ascii.eqb c Py.LF)
  end.

(** The fragment of the pattern language the validator's patterns are
    written in: literal text, [k+] and [k*] over a class, sequence,
    alternation [a|b] and the optional group [(?:a)?]. *)
Inductive regex :=
| Lit (s : str)
| Plus (k : cls)
| Star (k : cls)
| Seq (a b : regex)
| Alt (a b : regex)
| Opt (a : regex).

(** [strip_prefix p s]: what is left of [s] after the literal [p]. *)
Fixpoint strip_prefix (p s : str) : option str :=
  match p, s with
  | [], _ => Some s
  | a :: p', b :: s' => if Ascii.eqb a b then strip_prefix p' s' else None
  | _ :: _, [] => None
  end.

(** Every way of reading zero or more characters of class [k] at the
    head of [s]: the list of what is left. *)
Fixpoint star_rests (k : cls) (s : str) : list str :=
  s :: match s with
       | c :: r => if in_cls k c then star_rests k r else []
       | [] => []
       end.

(** The matcher: every way of matching [r] at the head of [s], as the
    list of what is left of [s] after the match.  A backtracking
    matcher finds a match exactly when this list is not empty. *)
Fixpoint rests (r : regex) (s : str) : list str :=
  match r with
  | Lit p => match strip_prefix p s with Some t => [t] | None => [] end
  | Plus k => match s with
              | c :: t => if in_cls k c then star_rests k t else []
              | [] => []
              end
  | Star k => star_rests k s
  | Seq a b => flat_map (rests b) (rests a s)
  | Alt a b => rests a s ++ rests b s
  | Opt a => rests a s ++ [s]
  end.

Definition match_at (r : regex) (s : str) : bool :=
  match rests r s with [] => false | _ :: _ => true end.

(** [re.search(r, s)] as a truth value: a match starting at some
    position of [s], the end of [s] included. *)
Fixpoint search (r : regex) (s : str) : bool :=
  match_at r s ||
  match s with
  | [] => false
  | _ :: t => search r t
  end.

(** The language of a pattern, for the statements about [search]. *)
Inductive matches : regex -> str -> Prop :=
| MLit p : matches (Lit p) p
| MPlus k c w : in_cls k c = true -> forallb (in_cls k) w = true ->
                matches (Plus k) (c :: w)
| MStar k w : forallb (in_cls k) w = true -> matches (Star k) w
| MSeq a b u v : matches a u -> matches b v -> matches (Seq a b) (u ++ v)
| MAltL a b u : matches a u -> matches (Alt a b) u
| MAltR a b u : matches b u -> matches (Alt a b) u
| MOptSome a u : matches a u -> matches (Opt a) u
| MOptNone a : matches (Opt a) [].

End Regex.

(* ===================================================================== *)
(** ** [json.dumps] *)
(* ===================================================================== *)

Module Json.

(** The values the deploy script serialises. *)
#[warnings="-register-all"] Inductive value :=
| Int (z : Z)
| Str (s : str)
| Arr (items : list value)
| Obj (members : list (str * value)).

Definition QUOTE : ascii := ascii_of_nat 34.
Definition BACKSLASH : ascii := ascii_of_nat 92.

(** A two-character escape: a backslash and [c]. *)
Definition short_escape (c : ascii) : str := [BACKSLASH; c].

Definition hex_digit (n : nat) : ascii :=
  ascii_of_nat (if (n <? 10)%nat then 48 + n else 87 + n).

(** One character of a string under the default [ensure_ascii=True]:
    the quote and the backslash are escaped, the printable ASCII
    characters stand for themselves, \b \f \n \r \t have a short
    escape and everything else is written \u00xx. *)
Definition escape_char (c : ascii) : str :=
  let n := Py.code c in
  if Ascii.eqb c QUOTE then short_escape QUOTE
  else if Ascii.eqb c BACKSLASH then short_escape BACKSLASH
  else if ((32 <=? n) && (n <=? 126))%nat then [c]
  else if (n =? 8)%nat then short_escape "b"
  else if (n =? 12)%nat then short_escape "f"
  else if (n =? 10)%nat then short_escape "n"
  else if (n =? 13)%nat then short_escape "r"
  else if (n =? 9)%nat then short_escape "t"
  else short_escape "u" ++ lit "00" ++ [hex_digit (n / 16); hex_digit (n mod 16)].

Definition encode_string (s : str) : str :=
  QUOTE :: flat_map escape_char s ++ [QUOTE].

(** [json.dumps(v)] with the default separators [", "] and [": "]. *)
Fixpoint dumps (v : value) : str :=
  match v with
  | Int z => Py.str_of_int z
  | Str s => encode_string s
  | Arr items =>
      "[" :: (fix go (l : list value) : str :=
                match l with
                | [] => []
                | x :: r =>
                    match r with
                    | [] => dumps x
                    | _ :: _ => dumps x ++ lit ", " ++ go r
                    end
                end) items ++ ["]"]
  | Obj members =>
      "{" :: (fix go (l : list (str * value)) : str :=
                match l with
                | [] => []
                | (k, x) :: r =>
                    match r with
                    | [] => encode_string k ++ lit ": " ++ dumps x
                    | _ :: _ =>
                        encode_string k ++ lit ": " ++ dumps x ++ lit ", " ++ go r
                    end
                end) members ++ ["}"]
  end.

End Json.

(* ===================================================================== *)
(** ** [server/scripts/map_deploy.py] *)
(* ===================================================================== *)

Module MapDeploy.

Definition SERVER_URL : str := lit "http://localhost:7734".
Definition MAPS_DIR : str := lit "src/maps".
Definition DB_IDENTITY : str := lit "guildmaster".

(** The dictionary appended to [all_templates]. *)
Record template := Template {
  name : str;
  width : nat;
  height : nat;
  tile_data : list Z
}.

(** The exceptions that can leave [run_deploy]: [ValueError] from
    [int] or from the decoding of a file, [OSError] from [os.listdir],
    [open] or [subprocess.run]. *)
Inductive exn := ValueError | OSError.

Definition result (A : Type) : Type := (exn + A)%type.
Definition ret {A} (a : A) : result A := inr a.
Definition raise {A} (e : exn) : result A := inl e.
Definition bind {A B} (m : result A) (f : A -> result B) : result B :=
  match m with
  | inl e => inl e
  | inr a => f a
  end.

Declare Scope deploy_scope.
Delimit Scope deploy_scope with deploy.
Notation "x <- m ;; k" := (bind m (fun x => k))
  (at level 61, m at next level, right associativity) : deploy_scope.
Local Open Scope deploy_scope.

(** What an entry of the directory holds: a text (the characters of
    the file as decoded, line ends not yet translated), something on
    which [open] or [readlines] fails with an [OSError] ([Unopenable]: a
    directory, a file without read permission), or bytes that are not
    text in the default encoding ([Undecodable]: [readlines] raises
    [UnicodeDecodeError], which is a [ValueError]). *)
Inductive node := Text (content : str) | Unopenable | Undecodable.

(** The result of [os.listdir(MAPS_DIR)], in its order, each name with
    what [os.path.join(MAPS_DIR, name)] holds. *)
Definition listing := list (str * node).

(** [lines = [l.strip() for l in f.readlines() if l.strip()]] *)
Definition lines_of (content : str) : list str :=
  map Py.strip
      (filter (fun l => Py.truthy (Py.strip l)) (Py.readlines content)).

Fixpoint ints (tokens : list str) : result (list Z) :=
  match tokens with
  | [] => ret []
  | t :: r =>
      match Py.int (Py.strip t) with
      | None => raise ValueError
      | Some z => zs <- ints r ;; ret (z :: zs)
      end
  end.

(** [[int(t.strip()) for t in line.split(',') if t.strip()]] *)
Definition row_tiles (line : str) : result (list Z) :=
  ints (filter (fun t => Py.truthy (Py.strip t)) (Py.split "," line)).

(** The loop [for line in lines: tile_data.extend(...)]. *)
Fixpoint flatten (lines : list str) (tile_data : list Z) : result (list Z) :=
  match lines with
  | [] => ret tile_data
  | line :: rest =>
      row <- row_tiles line ;;
      flatten rest (tile_data ++ row)
  end.

(** The body of the [with open(path, 'r') as f] block: [None] is the
    [continue] taken when the file has no line left. *)
Definition build (template_name content : str) : result (option template) :=
  let lines := lines_of content in
  match lines with
  | [] => ret None
  | first :: _ =>
      let height := length lines in
      let width := length (Py.split "," first) in
      tile_data <- flatten lines [] ;;
      ret (Some {| name := template_name; width := width;
                   height := height; tile_data := tile_data |})
  end.

(** One turn of [for filename in os.listdir(MAPS_DIR)]. *)
Definition visit (all_templates : list template) (entry : str * node)
  : result (list template) :=
  let (filename, file) := entry in
  if Py.endswith filename (lit ".csv") then
    let template_name := Py.remove_csv filename in
    match file with
    | Unopenable => raise OSError
    | Undecodable => raise ValueError
    | Text content =>
        made <- build template_name content ;;
        match made with
        | None => ret all_templates
        | Some t => ret (all_templates ++ [t])
        end
    end
  else ret all_templates.

Fixpoint scan (entries : listing) (all_templates : list template)
  : result (list template) :=
  match entries with
  | [] => ret all_templates
  | entry :: rest =>
      all_templates' <- visit all_templates entry ;;
      scan rest all_templates'
  end.

Definition template_json (t : template) : Json.value :=
  Json.Obj [ (lit "name", Json.Str (name t));
             (lit "width", Json.Int (Z.of_nat (width t)));
             (lit "height", Json.Int (Z.of_nat (height t)));
             (lit "tile_data", Json.Arr (map Json.Int (tile_data t))) ].

(** [args = [all_templates]] *)
Definition args_json (all_templates : list template) : Json.value :=
  Json.Arr [Json.Arr (map template_json all_templates)].

Definition command (all_templates : list template) : list str :=
  [ lit "spacetime"; lit "call"; lit "-s"; SERVER_URL; DB_IDENTITY;
    lit "replace_all_templates"; Json.dumps (args_json all_templates) ].

(** [subprocess.CompletedProcess] *)
Record completed := Completed {
  returncode : Z;
  stdout : str;
  stderr : str
}.

(** The lines [run_deploy] prints: the warning that no map was found,
    the announcement of the number of maps sent, the success line and
    the failure line, which carries [result.stderr]. *)
Inductive message :=
| NoMapFound
| Sending (count : nat)
| DeployDone
| DeployFailed (client_stderr : str).

(** What a run does that can be seen from outside, in order. *)
Inductive event :=
| Print (m : message)
| Spawn (cmd : list str).

(** The surroundings of a run: the directory ([None] when
    [os.listdir] fails) and the external client, which answers a
    command with a completed process, or cannot be started. *)
Record world := World {
  maps_dir : option listing;
  client : list str -> option completed
}.

Definition run_deploy (w : world) : list event * result unit :=
  match maps_dir w with
  | None => ([], raise OSError)
  | Some entries =>
      match scan entries [] with
      | inl e => ([], raise e)
      | inr [] => ([Print NoMapFound], ret tt)
      | inr all_templates =>
          let cmd := command all_templates in
          let before := [Print (Sending (length all_templates)); Spawn cmd] in
          match client w cmd with
          | None => (before, raise OSError)
          | Some result =>
              if (returncode result =? 0)%Z
              then (before ++ [Print DeployDone], ret tt)
              else (before ++ [Print (DeployFailed (stderr result))], ret tt)
          end
      end
  end.

End MapDeploy.

(* ===================================================================== *)
(** ** [validate_combat_systems.py] *)
(* ===================================================================== *)

Module Validator.

(** What a path of the checklist holds: nothing, something that exists
    but cannot be opened or read as text ([open] or [read] raises), or a
    text, given as [f.read()] returns it. *)
Inductive file := Missing | Unreadable | Readable (content : str).

Definition filesystem := str -> file.

(** [os.path.exists] *)
Definition path_exists (fs : filesystem) (filepath : str) : bool :=
  match fs filepath with
  | Missing => false
  | Unreadable | Readable _ => true
  end.

Inductive heading :=
| CoreFiles | TestFiles | DataFiles | NetworkFiles
| CombatMethods | ProjectileMethods | Summary.

Inductive kind := Class | Interface | Struct.

(** The lines the validator prints.  [Overall p t] is the line that
    shows [p]/[t] and the percentage [p / t * 100] with one decimal. *)
Inductive line :=
| Banner
| Title (h : heading)
| FileExists (filepath : str)
| FileMissing (filepath : str)
| Found (k : kind) (class_name filepath : str)
| NotFound (class_name filepath : str)
| MethodFound (method_name filepath : str)
| MethodNotFound (method_name filepath : str)
| ErrorReading (filepath : str)
| Tally (h : heading) (passed total : nat)
| Overall (passed total : nat)
| ValidationPassed
| ValidationFailed.

(** Printing, as a writer: the lines printed so far and a value. *)
Definition io (A : Type) : Type := (list line * A)%type.
Definition ret {A} (a : A) : io A := ([], a).
Definition bind {A B} (m : io A) (f : A -> io B) : io B :=
  let (out, a) := m in
  let (out', b) := f a in
  (out ++ out', b).
Definition print (l : line) : io unit := ([l], tt).

Declare Scope io_scope.
Delimit Scope io_scope with io.
Notation "x <- m ;; k" := (bind m (fun x => k))
  (at level 61, m at next level, right associativity) : io_scope.
Notation "m ;; k" := (bind m (fun _ => k))
  (at level 61, right associativity) : io_scope.
Local Open Scope io_scope.

Definition check_file_exists (fs : filesystem) (filepath : str) : io bool :=
  if path_exists fs filepath then
    print (FileExists filepath) ;; ret true
  else
    print (FileMissing filepath) ;; ret false.

Import Regex.

(** The three patterns of [check_class_definition].  The name is spliced
    into the pattern text; for a name made of letters, digits and
    underscores, as all the names of the checklist are, it stands for
    itself. *)
Definition class_pattern (class_name : str) : regex :=
  Seq (Lit (lit "public"))
      (Seq (Plus Space)
           (Seq (Opt (Seq (Lit (lit "partial")) (Plus Space)))
                (Seq (Lit (lit "class"))
                     (Seq (Plus Space) (Lit class_name))))).

Definition interface_pattern (class_name : str) : regex :=
  Seq (Lit (lit "public"))
      (Seq (Plus Space)
           (Seq (Lit (lit "interface"))
                (Seq (Plus Space) (Lit class_name)))).

Definition struct_pattern (class_name : str) : regex :=
  Seq (Lit (lit "public"))
      (Seq (Plus Space)
           (Seq (Lit (lit "struct"))
                (Seq (Plus Space) (Lit class_name)))).

Definition check_class_definition (fs : filesystem) (filepath class_name : str)
  : io bool :=
  if negb (path_exists fs filepath) then ret false
  else
    match fs filepath with
    | Readable content =>
        if search (class_pattern class_name) content then
          print (Found Class class_name filepath) ;; ret true
        else if search (interface_pattern class_name) content then
          print (Found Interface class_name filepath) ;; ret true
        else if search (struct_pattern class_name) content then
          print (Found Struct class_name filepath) ;; ret true
        else
          print (NotFound class_name filepath) ;; ret false
    | _ =>
        print (ErrorReading filepath) ;; ret false
    end.

(** [(?:public|private|protected)\s+.*\s+NAME\s*\(] *)
Definition method_pattern (method_name : str) : regex :=
  Seq (Alt (Lit (lit "public")) (Alt (Lit (lit "private")) (Lit (lit "protected"))))
      (Seq (Plus Space)
           (Seq (Star Dot)
                (Seq (Plus Space)
                     (Seq (Lit method_name)
                          (Seq (Star Space) (Lit (lit "("))))))).

Definition check_method_exists (fs : filesystem) (filepath method_name : str)
  : io bool :=
  if negb (path_exists fs filepath) then ret false
  else
    match fs filepath with
    | Readable content =>
        if search (method_pattern method_name) content then
          print (MethodFound method_name filepath) ;; ret true
        else
          print (MethodNotFound method_name filepath) ;; ret false
    | _ =>
        print (ErrorReading filepath) ;; ret false
    end.

Definition core_files : list (str * str) :=
  [ (lit "Scripts/Core/CombatSystem.cs", lit "CombatSystem");
    (lit "Scripts/Core/ICombatSystem.cs", lit "ICombatSystem");
    (lit "Scripts/Core/ProjectileManager.cs", lit "ProjectileManager");
    (lit "Scripts/Core/InventorySystem.cs", lit "InventorySystem");
    (lit "Scripts/Core/IInventorySystem.cs", lit "IInventorySystem");
    (lit "Scripts/Core/MovementSystem.cs", lit "MovementSystem");
    (lit "Scripts/Core/IMovementSystem.cs", lit "IMovementSystem");
    (lit "Scripts/Core/InputManager.cs", lit "InputManager");
    (lit "Scripts/Core/IInputManager.cs", lit "IInputManager");
    (lit "Scripts/Core/MapSystem.cs", lit "MapSystem");
    (lit "Scripts/Core/IMapSystem.cs", lit "IMapSystem") ].

Definition test_files : list (str * str) :=
  [ (lit "Scripts/Test/CombatSystemTest.cs", lit "CombatSystemTest");
    (lit "Scripts/Test/ProjectileSystemTest.cs", lit "ProjectileSystemTest");
    (lit "Scripts/Test/MovementSystemTest.cs", lit "MovementSystemTest");
    (lit "Scripts/Test/InputManagerTest.cs", lit "InputManagerTest");
    (lit "Scripts/Test/MapSystemTest.cs", lit "MapSystemTest") ].

Definition data_files : list (str * str) :=
  [ (lit "Scripts/Data/PlayerData.cs", lit "PlayerData");
    (lit "Scripts/Data/CombatData.cs", lit "WeaponData");
    (lit "Scripts/Data/MapData.cs", lit "MapData");
    (lit "Scripts/Data/EnemyData.cs", lit "EnemyData") ].

Definition network_files : list (str * str) :=
  [ (lit "Scripts/Network/SpacetimeDBClient.cs", lit "SpacetimeDBClient");
    (lit "Scripts/GameManager.cs", lit "GameManager") ].

Definition combat_methods : list str :=
  [ lit "ExecuteAttack"; lit "ProcessHit"; lit "CreateProjectile";
    lit "IsPlayerAttacking"; lit "GetEquippedWeapon" ].

Definition projectile_methods : list str :=
  [ lit "CreateProjectile"; lit "GetActiveProjectiles"; lit "GetProjectileConfig" ].

Definition combat_system_path : str := lit "Scripts/Core/CombatSystem.cs".
Definition projectile_manager_path : str := lit "Scripts/Core/ProjectileManager.cs".

(** The loop
    [for filepath, class_name in files:
       if check_file_exists(filepath) and check_class_definition(filepath, class_name):
         passed += 1]
    with the short circuit of [and]. *)
Fixpoint check_files (fs : filesystem) (files : list (str * str)) (passed : nat)
  : io nat :=
  match files with
  | [] => ret passed
  | (filepath, class_name) :: rest =>
      there <- check_file_exists fs filepath ;;
      ok <- (if there then check_class_definition fs filepath class_name
             else ret false) ;;
      check_files fs rest (if ok then passed + 1 else passed)
  end.

(** The loop
    [for method in methods:
       if check_method_exists(filepath, method): passed += 1] *)
Fixpoint check_methods (fs : filesystem) (filepath : str) (methods : list str)
  (passed : nat) : io nat :=
  match methods with
  | [] => ret passed
  | method :: rest =>
      ok <- check_method_exists fs filepath method ;;
      check_methods fs filepath rest (if ok then passed + 1 else passed)
  end.

(** [float(n)] for a count; exact, the counts being far below 2^53. *)
Definition float_of_count (n : nat) : float :=
  PrimFloat.of_uint63 (Uint63.of_Z (Z.of_nat n)).

(** The literal [0.8]: the binary64 number nearest to 8/10. *)
Definition point_eight : float := 0x1.999999999999ap-1%float.

(** [n >= x] for an integer [n] and a float [x]: Python compares the
    two exactly, without rounding [n]. *)
Definition int_ge_float (n : Z) (x : float) : bool :=
  match Prim2SF x with
  | S754_zero _ => (0 <=? n)%Z
  | S754_infinity negative => negative
  | S754_nan => false
  | S754_finite negative m e =>
      let v := if negative then Z.neg m else Z.pos m in
      if (0 <=? e)%Z then (v * 2 ^ e <=? n)%Z
      else (v <=? n * 2 ^ (- e))%Z
  end.

Definition total_checks : nat :=
  length core_files + length test_files + length data_files
  + length network_files + length combat_methods + length projectile_methods.

(** [main()]: the lines printed and the value returned. *)
Definition main (fs : filesystem) : io bool :=
  print Banner ;;
  print (Title CoreFiles) ;;
  core_passed <- check_files fs core_files 0 ;;
  print (Title TestFiles) ;;
  test_passed <- check_files fs test_files 0 ;;
  print (Title DataFiles) ;;
  data_passed <- check_files fs data_files 0 ;;
  print (Title NetworkFiles) ;;
  network_passed <- check_files fs network_files 0 ;;
  print (Title CombatMethods) ;;
  combat_methods_passed <- check_methods fs combat_system_path combat_methods 0 ;;
  print (Title ProjectileMethods) ;;
  projectile_methods_passed <-
    check_methods fs projectile_manager_path projectile_methods 0 ;;
  print (Title Summary) ;;
  print (Tally CoreFiles core_passed (length core_files)) ;;
  print (Tally TestFiles test_passed (length test_files)) ;;
  print (Tally DataFiles data_passed (length data_files)) ;;
  print (Tally NetworkFiles network_passed (length network_files)) ;;
  print (Tally CombatMethods combat_methods_passed (length combat_methods)) ;;
  print (Tally ProjectileMethods projectile_methods_passed (length projectile_methods)) ;;
  let total_passed := core_passed + test_passed + data_passed + network_passed
                      + combat_methods_passed + projectile_methods_passed in
  print (Overall total_passed total_checks) ;;
  if int_ge_float (Z.of_nat total_passed)
       (PrimFloat.mul (float_of_count total_checks) point_eight)
  then print ValidationPassed ;; ret true
  else print ValidationFailed ;; ret false.

(** [success = main(); exit(0 if success else 1)] *)
Definition exit_code (fs : filesystem) : Z :=
  if snd (main fs) then 0%Z else 1%Z.

(** The number of checks that passed in a run, as [main] totals it. *)
Definition total_passed (fs : filesystem) : nat :=
  snd (check_files fs core_files 0) + snd (check_files fs test_files 0)
  + snd (check_files fs data_files 0) + snd (check_files fs network_files 0)
  + snd (check_methods fs combat_system_path combat_methods 0)
  + snd (check_methods fs projectile_manager_path projectile_methods 0).

End Validator.

(* ===================================================================== *)
(** * Vocabulary of the statements *)
(* ===================================================================== *)

Module Terms.
Import Validator.

(** The share of passed checks, [total_passed / total_checks], as a
    rational number. *)
Definition pass_ratio (fs : filesystem) : QArith_base.Q :=
  QArith_base.Qdiv (QArith_base.inject_Z (Z.of_nat (total_passed fs)))
                   (QArith_base.inject_Z (Z.of_nat total_checks)).

(** A text in which every class of the checklist is declared and every
    method defined. *)
Definition full_source : str :=
  flat_map (fun entry => lit "public class " ++ snd entry ++ lit " ")
           (core_files ++ test_files ++ data_files ++ network_files)
  ++ flat_map (fun m => lit "public void " ++ m ++ lit "(")
              (combat_methods ++ projectile_methods).

Definition same_path (a b : str) : bool :=
  if list_eq_dec ascii_dec a b then true else false.

(** Every path but those of [absent] holds [full_source]. *)
Definition all_but (absent : list str) : filesystem :=
  fun filepath =>
    if existsb (same_path filepath) absent then Missing
    else Readable full_source.

Import MapDeploy.

(** The rows of a CSV text: its lines without the white space around
    them, the blank ones left out. *)
Definition csv_rows (content : str) : list str :=
  filter Py.truthy (map Py.strip (Py.readlines content)).

(** The tokens of [line], split at its commas, are as many as the
    integers of [row], and each reads as the integer at its place. *)
Definition row_holds (line : str) (row : list Z) : Prop :=
  Forall2 (fun token z => Py.int token = Some z) (Py.split "," line) row.

(** The rows of the text hold the rows of [grid], in order. *)
Definition csv_holds (content : str) (grid : list (list Z)) : Prop :=
  Forall2 row_holds (csv_rows content) grid.

(** White space only: no line of the text has a character that is not
    white space (the line ends are white space themselves). *)
Definition blank (content : str) : Prop :=
  forallb Py.is_space content = true.

(** An entry of the directory that is passed over without error and
    without template: its name does not end in [.csv], or it is a text
    without any non-blank row. *)
Definition passed_over (entry : str * node) : Prop :=
  Py.endswith (fst entry) (lit ".csv") = false
  \/ exists content, snd entry = Text content /\ csv_rows content = [].

(** The entry yields the template [t] in its turn of the loop. *)
Definition yields (entry : str * node) (t : template) : Prop :=
  forall all_templates, visit all_templates entry = inr (all_templates ++ [t]).

(** A run on the directory [entries] with the client [cl]. *)
Definition run (entries : listing) (cl : list str -> option completed)
  : list event * result unit :=
  run_deploy {| maps_dir := Some entries; client := cl |}.

(** Some row of the text has a token that is not blank and that, once
    stripped as the script strips it, [int] does not read. *)
Definition bad_token (content : str) : Prop :=
  exists line token,
    In line (csv_rows content) /\ In token (Py.split "," line)
    /\ Py.strip token <> [] /\ Py.int (Py.strip token) = None.

(** All the rows of the text split into the same number of tokens, none
    of them blank. *)
Definition rectangular (content : str) : Prop :=
  exists W,
    Forall (fun line =>
              List.length (Py.split "," line) = W
              /\ Forall (fun token => Py.strip token <> []) (Py.split "," line))
           (csv_rows content).

(** Width times height is the number of tiles. *)
Definition well_sized (t : template) : Prop :=
  width t * height t = List.length (tile_data t).

(** The commands with which the external client was started during a
    run, in order, and their number. *)
Definition calls (trace : list event) : list (list str) :=
  flat_map (fun e => match e with Spawn cmd => [cmd] | Print _ => [] end) trace.

Definition spawns (trace : list event) : nat := List.length (calls trace).

(** [p] occurs in [s]. *)
Definition occurs (p s : str) : Prop := exists before after, s = before ++ p ++ after.

(** A run of white space, at least one character long. *)
Definition white (w : str) : Prop :=
  w <> [] /\ forallb Py.is_space w = true.

(** The declarations of [class_name] with the [public] modifier that the
    symbol check knows: a class, a partial class, an interface, a
    struct, the words separated by white space. *)
Inductive public_declaration (class_name : str) : str -> Prop :=
| PublicClass w1 w2 :
    white w1 -> white w2 ->
    public_declaration class_name
      (lit "public" ++ w1 ++ lit "class" ++ w2 ++ class_name)
| PublicPartialClass w1 w2 w3 :
    white w1 -> white w2 -> white w3 ->
    public_declaration class_name
      (lit "public" ++ w1 ++ lit "partial" ++ w2 ++ lit "class" ++ w3 ++ class_name)
| PublicInterface w1 w2 :
    white w1 -> white w2 ->
    public_declaration class_name
      (lit "public" ++ w1 ++ lit "interface" ++ w2 ++ class_name)
| PublicStruct w1 w2 :
    white w1 -> white w2 ->
    public_declaration class_name
      (lit "public" ++ w1 ++ lit "struct" ++ w2 ++ class_name).

(** A name made of letters, digits and underscores: in a pattern it
    stands for itself. *)
Definition word_char (c : ascii) : bool :=
  let n := Py.code c in
  (((48 <=? n) && (n <=? 57)) || ((65 <=? n) && (n <=? 90))
   || ((97 <=? n) && (n <=? 122)) || (n =? 95))%nat.

Definition identifier (name : str) : Prop :=
  name <> [] /\ forallb word_char name = true.

(** A text between double quotes. *)
Definition quoted (s : string) : str := Json.QUOTE :: lit s ++ [Json.QUOTE].

End Terms.

(** ** Further vocabulary *)

Module Notions.
Import MapDeploy Validator Terms.

(** The paths the validator looks at: those of the four lists of files
    and the two files searched for methods. *)
Definition checklist_paths : list str :=
  map fst (core_files ++ test_files ++ data_files ++ network_files)
  ++ [combat_system_path; projectile_manager_path].

(** Two states of the files that hold the same thing at every path of
    [paths]. *)
Definition agree_on (paths : list str) (fs1 fs2 : filesystem) : Prop :=
  forall filepath, In filepath paths -> fs1 filepath = fs2 filepath.

(** The number of entries of [files] whose path exists. *)
Definition existing (fs : filesystem) (files : list (str * str)) : nat :=
  List.length (filter (fun entry => path_exists fs (fst entry)) files).

(** The texts of the method pattern: an access modifier, white space,
    anything that stays on the line, white space, the name, optional
    white space and an opening parenthesis. *)
Inductive method_definition (method_name : str) : str -> Prop :=
| MethodDefinition modifier w1 middle w2 w3 :
    In modifier [lit "public"; lit "private"; lit "protected"] ->
    white w1 ->
    forallb (fun c => negb (Ascii.eqb c Py.LF)) middle = true ->
    white w2 ->
    forallb Py.is_space w3 = true ->
    method_definition method_name
      (modifier ++ w1 ++ middle ++ w2 ++ method_name ++ w3 ++ lit "(").

(** [total_passed/total_checks*100], the percentage of the overall
    line, in floating point. *)
Definition percentage (passed total : nat) : float :=
  PrimFloat.mul (PrimFloat.div (float_of_count passed) (float_of_count total))
                (float_of_count 100).

(** An entry that makes a template: a [.csv] name and a text with at
    least one non-blank row. *)
Definition is_map (entry : str * node) : bool :=
  Py.endswith (fst entry) (lit ".csv")
  && match snd entry with
     | Text content => match csv_rows content with [] => false | _ :: _ => true end
     | Unopenable | Undecodable => false
     end.

(** The number of commas of a line. *)
Definition commas (line : str) : nat := count_occ ascii_dec line ",".

(** The number of tokens of a line that are not blank. *)
Definition nonblank_tokens (line : str) : nat :=
  List.length (filter (fun t => Py.truthy (Py.strip t)) (Py.split "," line)).

(** [sep.join(parts)] *)
Fixpoint join (sep : str) (parts : list str) : str :=
  match parts with
  | [] => []
  | p :: rest =>
      match rest with
      | [] => p
      | _ :: _ => p ++ sep ++ join sep rest
      end
  end.

(** A grid written as CSV text: the integers of a row in decimal,
    separated by commas, each row ended by a line feed. *)
Definition render_row (row : list Z) : str :=
  join [","] (map Py.str_of_int row).

Definition render (grid : list (list Z)) : str :=
  flat_map (fun row => render_row row ++ [Py.LF]) grid.

(** A text made of the lines [rows], each followed by the line end
    [eol]. *)
Definition text_of (eol : str) (rows : list str) : str :=
  flat_map (fun row => row ++ eol) rows.

(** A character that does not end a line. *)
Definition inline (c : ascii) : bool :=
  negb (Ascii.eqb c Py.LF) && negb (Ascii.eqb c Py.CR).

(** A printable ASCII character, space included. *)
Definition printable (c : ascii) : bool :=
  ((32 <=? Py.code c) && (Py.code c <=? 126))%nat.

(** A decimal digit; a character of the decimal writing of an integer,
    that is a digit or the minus sign. *)
Definition decimal_digit (c : ascii) : bool :=
  ((48 <=? Py.code c) && (Py.code c <=? 57))%nat.

Definition numeric (c : ascii) : bool :=
  decimal_digit c || Ascii.eqb c "-".

(** The value of a sequence of decimal digits read after [acc]. *)
Fixpoint uint_value (acc : Z) (d : Decimal.uint) : Z :=
  match d with
  | Decimal.Nil => acc
  | Decimal.D0 l => uint_value (10 * acc + 0) l
  | Decimal.D1 l => uint_value (10 * acc + 1) l
  | Decimal.D2 l => uint_value (10 * acc + 2) l
  | Decimal.D3 l => uint_value (10 * acc + 3) l
  | Decimal.D4 l => uint_value (10 * acc + 4) l
  | Decimal.D5 l => uint_value (10 * acc + 5) l
  | Decimal.D6 l => uint_value (10 * acc + 6) l
  | Decimal.D7 l => uint_value (10 * acc + 7) l
  | Decimal.D8 l => uint_value (10 * acc + 8) l
  | Decimal.D9 l => uint_value (10 * acc + 9) l
  end.

(** The check of a file entry as [main] tallies it: the file exists and
    the symbol check, made only then, succeeds; and the lines its turn
    of the loop prints. *)
Definition file_passes (fs : filesystem) (entry : str * str) : bool :=
  path_exists fs (fst entry)
  && snd (check_class_definition fs (fst entry) (snd entry)).

Definition file_lines (fs : filesystem) (entry : str * str) : list line :=
  fst (check_file_exists fs (fst entry))
  ++ (if path_exists fs (fst entry)
      then fst (check_class_definition fs (fst entry) (snd entry))
      else []).

(** All the file entries of the checklist, in the order of the run. *)
Definition all_files : list (str * str) :=
  core_files ++ test_files ++ data_files ++ network_files.

(** The number of the 30 checks that fail in a run. *)
Definition total_failed (fs : filesystem) : nat :=
  List.length (filter (fun entry => negb (file_passes fs entry)) all_files)
  + List.length
      (filter (fun m => negb (snd (check_method_exists fs combat_system_path m)))
              combat_methods)
  + List.length
      (filter (fun m => negb (snd (check_method_exists fs projectile_manager_path m)))
              projectile_methods).

(** The calls of the three check functions that a run makes.  In the
    loop over files, [check_file_exists(filepath) and
    check_class_definition(filepath, class_name)] calls the second only
    when the first has answered true; the loop over methods calls
    [check_method_exists] for every method. *)
Inductive check_call :=
| ExistenceCheck (filepath : str)
| SymbolCheck (filepath class_name : str)
| MethodCheck (filepath method_name : str).

Definition answer (fs : filesystem) (c : check_call) : io bool :=
  match c with
  | ExistenceCheck filepath => check_file_exists fs filepath
  | SymbolCheck filepath class_name =>
      check_class_definition fs filepath class_name
  | MethodCheck filepath method_name =>
      check_method_exists fs filepath method_name
  end.

Fixpoint file_calls (fs : filesystem) (files : list (str * str))
  : list check_call :=
  match files with
  | [] => []
  | (filepath, class_name) :: rest =>
      ExistenceCheck filepath
      :: (if snd (check_file_exists fs filepath)
          then [SymbolCheck filepath class_name] else [])
      ++ file_calls fs rest
  end.

Definition method_calls (filepath : str) (methods : list str)
  : list check_call :=
  map (MethodCheck filepath) methods.

(** The calls of a whole run, in order. *)
Definition performed (fs : filesystem) : list check_call :=
  file_calls fs core_files ++ file_calls fs test_files
  ++ file_calls fs data_files ++ file_calls fs network_files
  ++ method_calls combat_system_path combat_methods
  ++ method_calls projectile_manager_path projectile_methods.

(** The text contains a public declaration of exactly [class_name]: the
    name is not followed by a further character of a name. *)
Definition declares_public (class_name content : str) : Prop :=
  exists before declaration after,
    content = before ++ declaration ++ after
    /\ public_declaration class_name declaration
    /\ match after with
       | [] => True
       | c :: _ => word_char c = false
       end.

(** The same, as a search: one of the three patterns is matched
    somewhere and what follows the match does not go on with the name. *)
Definition name_ends (after : str) : bool :=
  match after with
  | [] => true
  | c :: _ => negb (word_char c)
  end.

Definition exact_at (class_name s : str) : bool :=
  existsb name_ends
    (Regex.rests (class_pattern class_name) s
     ++ Regex.rests (interface_pattern class_name) s
     ++ Regex.rests (struct_pattern class_name) s).

Fixpoint exact_search (class_name s : str) : bool :=
  exact_at class_name s ||
  match s with
  | [] => false
  | _ :: t => exact_search class_name t
  end.

(** The text of the payload for a list of templates, written out: each
    template as the object of its four members, the templates in a list,
    the list in the list of arguments. *)
Definition template_text (t : template) : str :=
  lit "{" ++ quoted "name" ++ lit ": " ++ Json.encode_string (name t)
  ++ lit ", " ++ quoted "width" ++ lit ": " ++ Py.str_of_int (Z.of_nat (width t))
  ++ lit ", " ++ quoted "height" ++ lit ": "
  ++ Py.str_of_int (Z.of_nat (height t))
  ++ lit ", " ++ quoted "tile_data" ++ lit ": ["
  ++ join (lit ", ") (map Py.str_of_int (tile_data t)) ++ lit "]}".

Definition payload_of (all_templates : list template) : str :=
  lit "[[" ++ join (lit ", ") (map template_text all_templates) ++ lit "]]".

(** A text that [json.dumps] writes as it is, between quotes: printable
    ASCII without quote or backslash. *)
Definition plain (s : str) : bool :=
  forallb (fun c => printable c && negb (Ascii.eqb c Json.QUOTE)
                    && negb (Ascii.eqb c Json.BACKSLASH)) s.

(** The number of digits of the decimal writing of an integer. *)
Definition decimal_size (z : Z) : nat := Py.digit_count (Py.str_of_int z).

End Notions.

(* ===================================================================== *)
(** * Properties *)
(* ===================================================================== *)

(** ** The primitives on small inputs *)

Section Primitives.

Example strip_example :
  Py.strip (lit " 12 " ++ [Py.LF]) = lit "12" /\ Py.strip (lit "   ") = [].
Proof. split; reflexivity. Qed.

Example split_example :
  Py.split "," (lit "1,,2,") = [lit "1"; []; lit "2"; []]
  /\ Py.split "," [] = [[]].
Proof. split; reflexivity. Qed.

Example readlines_example :
  Py.readlines (lit "a" ++ [Py.CR; Py.LF] ++ lit "b" ++ [Py.CR; Py.CR] ++ lit "c")
  = [lit "a" ++ [Py.LF]; lit "b" ++ [Py.LF]; [Py.LF]; lit "c"].
Proof. reflexivity. Qed.

Example int_example :
  Py.int (lit " -1_000") = Some (-1000)%Z
  /\ Py.int (lit "007") = Some 7%Z
  /\ Py.int (lit "+5") = Some 5%Z
  /\ Py.int (lit "1__0") = None
  /\ Py.int (lit "x") = None
  /\ Py.int (lit "+ 1") = None
  /\ Py.int (lit "1.5") = None
  /\ Py.int [] = None
  /\ Py.int (ascii_of_nat 28 :: lit "5") = None
  /\ Py.int (Py.strip (ascii_of_nat 28 :: lit "5")) = Some 5%Z
  /\ Py.int (ascii_of_nat 160 :: lit "5") = Some 5%Z.
Proof. repeat split. Qed.

(** [int] takes 4300 digits and no more, leading zeros counted, the
    sign and the white space around not. *)
Example int_digit_limit :
  match Py.int ("-" :: repeat "1" 4300 ++ lit " ") with
  | Some _ => true
  | None => false
  end = true
  /\ Py.int (repeat "1" 4301) = None
  /\ Py.int (repeat "0" 4301) = None.
Proof. split; [|split]; vm_compute; reflexivity. Qed.

Example remove_csv_example :
  Py.remove_csv (lit "cave.csv") = lit "cave"
  /\ Py.remove_csv (lit "a.csv.b.csv") = lit "a.b".
Proof. split; reflexivity. Qed.

Example endswith_example :
  Py.endswith (lit "cave.csv") (lit ".csv") = true
  /\ Py.endswith (lit "cave.csv.bak") (lit ".csv") = false
  /\ Py.endswith (lit "csv") (lit ".csv") = false.
Proof. repeat split. Qed.

Example search_example :
  Regex.search (Validator.method_pattern (lit "ProcessHit"))
    (lit "  public void ProcessHit (int damage)") = true
  /\ Regex.search (Validator.method_pattern (lit "ProcessHit"))
       (lit "  void ProcessHit(int damage)") = false.
Proof. split; reflexivity. Qed.

End Primitives.

(** ** The validator: counting and the exit code *)

Section ValidatorRun.
Import Validator.
Local Open Scope io_scope.

Lemma snd_bind {A B} (m : io A) (f : A -> io B) :
  snd (bind m f) = snd (f (snd m)).
Proof.
  unfold bind. destruct m as [out a]; simpl.
  destruct (f a); reflexivity.
Qed.

Lemma fst_bind {A B} (m : io A) (f : A -> io B) :
  fst (bind m f) = fst m ++ fst (f (snd m)).
Proof.
  unfold bind. destruct m as [out a]; simpl.
  destruct (f a); reflexivity.
Qed.

(** The threshold [total_checks * 0.8] is the float 24.0, with no
    rounding error. *)
Lemma threshold_value :
  Prim2SF (PrimFloat.mul (float_of_count total_checks) point_eight)
  = S754_finite false 6755399441055744 (-48).
Proof. vm_compute. reflexivity. Qed.

Lemma threshold_test (n : nat) :
  int_ge_float (Z.of_nat n)
    (PrimFloat.mul (float_of_count total_checks) point_eight) = true
  <-> 24 <= n.
Proof.
  unfold int_ge_float. rewrite threshold_value.
  cbv beta iota.
  replace (0 <=? -48)%Z with false by reflexivity.
  replace (- (-48))%Z with 48%Z by reflexivity.
  rewrite Z.leb_le.
  change (Z.pos 6755399441055744) with (24 * 2 ^ 48)%Z.
  split; intros H.
  - apply Z.mul_le_mono_pos_r in H; [lia | reflexivity].
  - apply Z.mul_le_mono_nonneg_r; [apply Z.pow_nonneg|]; lia.
Qed.

(** The value [main] returns is the threshold test on the total that
    [total_passed] names. *)
Lemma main_returns (fs : filesystem) :
  snd (main fs)
  = int_ge_float (Z.of_nat (total_passed fs))
      (PrimFloat.mul (float_of_count total_checks) point_eight).
Proof.
  unfold main, total_passed.
  repeat rewrite snd_bind.
  destruct (int_ge_float _ _); reflexivity.
Qed.

End ValidatorRun.

Section ExitCode.
Import Validator Terms.
Import QArith.
Local Open Scope Q_scope.

(** C1.  For every state of the files, the exit code of the validator is
    0 exactly when the number of passed checks divided by the total
    number of checks is at least 8/10, and it is 1 otherwise. *)
Theorem exit_code_threshold (fs : filesystem) :
  (exit_code fs = 0%Z <-> 8 # 10 <= pass_ratio fs)
  /\ (exit_code fs = 1%Z <-> ~ 8 # 10 <= pass_ratio fs).
Proof.
  assert (R : 8 # 10 <= pass_ratio fs <-> (24 <= total_passed fs)%nat).
  { unfold pass_ratio.
    change (Z.of_nat total_checks) with 30%Z.
    unfold Qle, Qdiv, Qmult, Qinv, inject_Z; simpl. lia. }
  unfold exit_code. rewrite main_returns.
  pose proof (threshold_test (total_passed fs)) as T.
  destruct (int_ge_float _ _).
  - split; split; intros H; try reflexivity; try discriminate.
    + apply R, T; reflexivity.
    + exfalso. apply H, R, T. reflexivity.
  - split; split; intros H; try reflexivity; try discriminate.
    + apply R, T in H. discriminate.
    + intros H'. apply R, T in H'. discriminate.
Qed.

End ExitCode.

Section Boundary.
Import Validator Terms.

(** The test files and the game manager are missing: 24 checks of 30
    pass, which is exactly 8/10, and the exit code is 0.  With one more
    file missing, 23 pass and the exit code is 1. *)
Example exit_code_at_boundary :
  let fs := all_but (lit "Scripts/GameManager.cs" :: map fst test_files) in
  total_passed fs = 24 /\ exit_code fs = 0%Z.
Proof. vm_compute. split; reflexivity. Qed.

Example exit_code_below_boundary :
  let fs := all_but (lit "Scripts/GameManager.cs" :: lit "Scripts/Data/MapData.cs"
                     :: map fst test_files) in
  total_passed fs = 23 /\ exit_code fs = 1%Z.
Proof. vm_compute. split; reflexivity. Qed.

(** The same test on the quotient the summary line shows: for every
    possible count, [passed >= total_checks * 0.8] and
    [passed / total_checks >= 0.8] computed in floating point agree. *)
Lemma threshold_agrees_with_float_ratio (n : nat) :
  n <= total_checks ->
  int_ge_float (Z.of_nat n)
    (PrimFloat.mul (float_of_count total_checks) point_eight)
  = PrimFloat.leb point_eight
      (PrimFloat.div (float_of_count n) (float_of_count total_checks)).
Proof.
  change total_checks with 30. intros H.
  do 31 (destruct n as [|n]; [vm_compute; reflexivity|]).
  lia.
Qed.

End Boundary.

(** ** The validator: missing files *)

Section MissingFiles.
Import Validator Terms.
Local Open Scope io_scope.

Variable fs : filesystem.

Lemma check_file_exists_line (filepath : str) :
  fst (check_file_exists fs filepath)
  = [if path_exists fs filepath then FileExists filepath else FileMissing filepath].
Proof.
  unfold check_file_exists. destruct (path_exists fs filepath); reflexivity.
Qed.

(** Every entry of a list handed to [check_files] gets its line of the
    existence check, whatever the other entries are. *)
Lemma check_files_visits_all (files : list (str * str)) :
  forall passed entry, In entry files ->
    In (FileExists (fst entry)) (fst (check_files fs files passed))
    \/ In (FileMissing (fst entry)) (fst (check_files fs files passed)).
Proof.
  induction files as [|[filepath class_name] rest IH]; intros passed entry HIn.
  - contradiction.
  - simpl check_files. rewrite fst_bind, fst_bind, check_file_exists_line.
    destruct HIn as [<-|HIn].
    + simpl fst at 1 3. destruct (path_exists fs filepath).
      * left. left. reflexivity.
      * right. left. reflexivity.
    + destruct (IH (if snd (if snd (check_file_exists fs filepath)
                            then check_class_definition fs filepath class_name
                            else ret false)
                    then passed + 1 else passed) entry HIn) as [H|H].
      * left. apply in_or_app. right. apply in_or_app. right. exact H.
      * right. apply in_or_app. right. apply in_or_app. right. exact H.
Qed.

Lemma main_trace :
  exists tail,
    fst (main fs)
    = [Banner; Title CoreFiles] ++ fst (check_files fs core_files 0)
      ++ [Title TestFiles] ++ fst (check_files fs test_files 0)
      ++ [Title DataFiles] ++ fst (check_files fs data_files 0)
      ++ [Title NetworkFiles] ++ fst (check_files fs network_files 0)
      ++ [Title CombatMethods]
      ++ fst (check_methods fs combat_system_path combat_methods 0)
      ++ [Title ProjectileMethods]
      ++ fst (check_methods fs projectile_manager_path projectile_methods 0)
      ++ [Title Summary;
          Tally CoreFiles (snd (check_files fs core_files 0)) 11;
          Tally TestFiles (snd (check_files fs test_files 0)) 5;
          Tally DataFiles (snd (check_files fs data_files 0)) 4;
          Tally NetworkFiles (snd (check_files fs network_files 0)) 2;
          Tally CombatMethods
            (snd (check_methods fs combat_system_path combat_methods 0)) 5;
          Tally ProjectileMethods
            (snd (check_methods fs projectile_manager_path projectile_methods 0)) 3;
          Overall (total_passed fs) 30 ]
      ++ [tail]
    /\ (tail = ValidationPassed \/ tail = ValidationFailed).
Proof.
  unfold main, total_passed.
  repeat rewrite fst_bind. repeat rewrite snd_bind.
  destruct (int_ge_float _ _).
  - exists ValidationPassed. split; [|left; reflexivity].
    simpl. repeat rewrite <- app_assoc. reflexivity.
  - exists ValidationFailed. split; [|right; reflexivity].
    simpl. repeat rewrite <- app_assoc. reflexivity.
Qed.

End MissingFiles.

Section MissingFileRun.
Import Validator Terms Notions.
Local Open Scope io_scope.

Variable fs : filesystem.

Lemma io_pair {A} (m : io A) : m = (fst m, snd m).
Proof. destruct m; reflexivity. Qed.

(** The loop over a list of files, entry by entry: the lines of every
    entry, in order, and one more passed check for every entry whose
    file exists and holds the symbol. *)
Lemma check_files_run (files : list (str * str)) :
  forall passed,
    check_files fs files passed
    = (flat_map (file_lines fs) files,
       passed + List.length (filter (file_passes fs) files)).
Proof.
  induction files as [|[filepath class_name] rest IH]; intros passed.
  - simpl. unfold ret. f_equal. lia.
  - rewrite (io_pair (check_files _ _ _)).
    cbn [check_files]. rewrite !fst_bind, !snd_bind, IH.
    cbn [fst snd flat_map filter]. unfold file_lines, file_passes.
    cbn [fst snd]. unfold check_file_exists.
    destruct (path_exists fs filepath); cbn [fst snd bind print ret app andb].
    + destruct (snd (check_class_definition fs filepath class_name));
        cbn [List.length]; f_equal; lia.
    + f_equal.
Qed.

(** The loop over a list of methods, method by method. *)
Lemma check_methods_run (filepath : str) (methods : list str) :
  forall passed,
    check_methods fs filepath methods passed
    = (flat_map (fun m => fst (check_method_exists fs filepath m)) methods,
       passed
       + List.length
           (filter (fun m => snd (check_method_exists fs filepath m)) methods)).
Proof.
  induction methods as [|method_name rest IH]; intros passed.
  - simpl. unfold ret. f_equal. lia.
  - rewrite (io_pair (check_methods _ _ _ _)).
    cbn [check_methods]. rewrite !fst_bind, !snd_bind, IH.
    cbn [fst snd flat_map filter].
    destruct (snd (check_method_exists fs filepath method_name));
      cbn [List.length]; f_equal; lia.
Qed.

Lemma filter_partition {A} (p : A -> bool) (l : list A) :
  List.length (filter p l) + List.length (filter (fun x => negb (p x)) l)
  = List.length l.
Proof.
  induction l as [|x l IH]; simpl; [reflexivity|].
  destruct (p x); simpl; lia.
Qed.

(** Each of the 30 checks of the list is decided in every run: it
    passes or it fails. *)
Lemma passed_and_failed : total_passed fs + total_failed fs = total_checks.
Proof.
  unfold total_passed, total_failed, total_checks, all_files.
  rewrite !check_files_run, !check_methods_run. cbn [snd].
  rewrite !filter_app, !length_app.
  pose proof (filter_partition (file_passes fs) core_files).
  pose proof (filter_partition (file_passes fs) test_files).
  pose proof (filter_partition (file_passes fs) data_files).
  pose proof (filter_partition (file_passes fs) network_files).
  pose proof (filter_partition
                (fun m => snd (check_method_exists fs combat_system_path m))
                combat_methods).
  pose proof (filter_partition
                (fun m => snd (check_method_exists fs projectile_manager_path m))
                projectile_methods).
  lia.
Qed.

(** The lines of a run, in order. *)
Lemma main_lines :
  fst (main fs)
  = [Banner; Title CoreFiles] ++ fst (check_files fs core_files 0)
    ++ [Title TestFiles] ++ fst (check_files fs test_files 0)
    ++ [Title DataFiles] ++ fst (check_files fs data_files 0)
    ++ [Title NetworkFiles] ++ fst (check_files fs network_files 0)
    ++ [Title CombatMethods]
    ++ fst (check_methods fs combat_system_path combat_methods 0)
    ++ [Title ProjectileMethods]
    ++ fst (check_methods fs projectile_manager_path projectile_methods 0)
    ++ [Title Summary;
        Tally CoreFiles (snd (check_files fs core_files 0)) 11;
        Tally TestFiles (snd (check_files fs test_files 0)) 5;
        Tally DataFiles (snd (check_files fs data_files 0)) 4;
        Tally NetworkFiles (snd (check_files fs network_files 0)) 2;
        Tally CombatMethods
          (snd (check_methods fs combat_system_path combat_methods 0)) 5;
        Tally ProjectileMethods
          (snd (check_methods fs projectile_manager_path projectile_methods 0)) 3;
        Overall (total_passed fs) 30;
        if snd (main fs) then ValidationPassed else ValidationFailed ].
Proof.
  rewrite main_returns.
  unfold main, total_passed.
  repeat rewrite fst_bind. repeat rewrite snd_bind.
  destruct (int_ge_float _ _);
    simpl; repeat rewrite <- app_assoc; reflexivity.
Qed.

Lemma check_file_exists_answer (filepath : str) :
  snd (check_file_exists fs filepath) = path_exists fs filepath.
Proof.
  unfold check_file_exists. destruct (path_exists fs filepath); reflexivity.
Qed.

(** What a loop prints is what the calls it makes print, in order. *)
Lemma file_calls_lines (files : list (str * str)) (passed : nat) :
  fst (check_files fs files passed)
  = flat_map (fun c => fst (answer fs c)) (file_calls fs files).
Proof.
  rewrite check_files_run. cbn [fst].
  induction files as [|[filepath class_name] rest IH]; [reflexivity|].
  cbn [flat_map file_calls answer]. rewrite IH, flat_map_app.
  unfold file_lines. cbn [fst snd]. rewrite check_file_exists_answer.
  rewrite <- app_assoc. f_equal. f_equal.
  destruct (path_exists fs filepath); cbn [flat_map answer];
    [rewrite app_nil_r|]; reflexivity.
Qed.

Lemma method_calls_lines (filepath : str) (methods : list str) (passed : nat) :
  fst (check_methods fs filepath methods passed)
  = flat_map (fun c => fst (answer fs c)) (method_calls filepath methods).
Proof.
  rewrite check_methods_run. cbn [fst]. unfold method_calls.
  induction methods as [|m rest IH]; [reflexivity|].
  cbn [flat_map map answer]. rewrite IH. reflexivity.
Qed.

(** One call for every entry, and one more for every entry whose file
    exists. *)
Lemma file_calls_length (files : list (str * str)) :
  List.length (file_calls fs files) = List.length files + existing fs files.
Proof.
  unfold existing.
  induction files as [|[filepath class_name] rest IH]; [reflexivity|].
  cbn [file_calls filter fst List.length]. rewrite length_app, IH.
  rewrite check_file_exists_answer.
  destruct (path_exists fs filepath); cbn [List.length]; lia.
Qed.

Lemma existing_app (a b : list (str * str)) :
  existing fs (a ++ b) = existing fs a + existing fs b.
Proof. unfold existing. rewrite filter_app, length_app. reflexivity. Qed.

Lemma performed_length :
  List.length (performed fs) = total_checks + existing fs all_files.
Proof.
  unfold performed, method_calls, all_files, total_checks.
  rewrite !length_app, !file_calls_length, !length_map, !existing_app. lia.
Qed.

(** The symbol check of a file entry is called only on a file that
    exists. *)
Lemma symbol_call_needs_file (files : list (str * str))
    (filepath class_name : str) :
  In (SymbolCheck filepath class_name) (file_calls fs files) ->
  path_exists fs filepath = true.
Proof.
  induction files as [|[fp cn] rest IH]; [contradiction|].
  cbn [file_calls]. rewrite check_file_exists_answer.
  intros [H|H]; [discriminate|].
  apply in_app_or in H. destruct H as [H|H]; [|exact (IH H)].
  destruct (path_exists fs fp) eqn:E; [|contradiction].
  destruct H as [H|[]]. injection H as <- _. exact E.
Qed.

End MissingFileRun.

Section MissingFileClaim.
Import Validator Terms Notions.
Local Open Scope io_scope.

(** C6, as stated, fails for the number of checks performed: it
    depends on which files exist.  For a file entry whose file is
    missing the symbol check is not performed at all.  With every file
    missing a run makes 30 calls of the check functions, none of them
    of the symbol check of a file entry; with every file in place it
    makes 52. *)
Lemma checks_performed_depend_on_files :
  let none : filesystem := fun _ => Missing in
  let full : filesystem := all_but [] in
  List.length (performed none) = 30
  /\ List.length (performed full) = 52
  /\ (exists rest,
        performed none
        = ExistenceCheck (lit "Scripts/Core/CombatSystem.cs")
          :: ExistenceCheck (lit "Scripts/Core/ICombatSystem.cs") :: rest)
  /\ (exists rest,
        performed full
        = ExistenceCheck (lit "Scripts/Core/CombatSystem.cs")
          :: SymbolCheck (lit "Scripts/Core/CombatSystem.cs") (lit "CombatSystem")
          :: ExistenceCheck (lit "Scripts/Core/ICombatSystem.cs") :: rest).
Proof.
  intros none full. split; [reflexivity|]. split; [reflexivity|].
  split; eexists; reflexivity.
Qed.

(** C6, amended.  When the file of a checklist entry is missing, the
    existence check prints that the file is missing and fails, and the
    symbol check (class, interface or struct, or method) fails for it,
    without printing anything, whenever it is called; in the loop over
    files it is not called for such an entry: the entry prints its one
    line, adds nothing to the tally, and the loop goes on with the
    remaining entries, and so does the loop over methods.  In every
    run, whatever files exist, each loop goes through all its entries,
    the run prints the lines of the 22 file entries and of the 8 method
    checks in the order of the lists, then the tallies and the overall
    line with the total 30, then the verdict; each of the 30 entries
    counted has passed or failed.  The calls of the check functions
    made in a run are 30 and one more for every file entry whose file
    exists, and what a loop prints is what these calls print. *)
Theorem missing_file_fails_without_abort (fs : filesystem) (filepath : str) :
  fs filepath = Missing ->
  (check_file_exists fs filepath = ([FileMissing filepath], false)
   /\ (forall class_name,
         check_class_definition fs filepath class_name = ([], false))
   /\ (forall method_name,
         check_method_exists fs filepath method_name = ([], false)))
  /\ (forall class_name rest passed,
        check_files fs ((filepath, class_name) :: rest) passed
        = (FileMissing filepath :: fst (check_files fs rest passed),
           snd (check_files fs rest passed)))
  /\ (forall method_name rest passed,
        check_methods fs filepath (method_name :: rest) passed
        = check_methods fs filepath rest passed)
  /\ (forall files passed,
        check_files fs files passed
        = (flat_map (file_lines fs) files,
           passed + List.length (filter (file_passes fs) files)))
  /\ (forall path methods passed,
        check_methods fs path methods passed
        = (flat_map (fun m => fst (check_method_exists fs path m)) methods,
           passed
           + List.length
               (filter (fun m => snd (check_method_exists fs path m)) methods)))
  /\ fst (main fs)
     = [Banner; Title CoreFiles] ++ flat_map (file_lines fs) core_files
       ++ [Title TestFiles] ++ flat_map (file_lines fs) test_files
       ++ [Title DataFiles] ++ flat_map (file_lines fs) data_files
       ++ [Title NetworkFiles] ++ flat_map (file_lines fs) network_files
       ++ [Title CombatMethods]
       ++ flat_map (fun m => fst (check_method_exists fs combat_system_path m))
                   combat_methods
       ++ [Title ProjectileMethods]
       ++ flat_map (fun m => fst (check_method_exists fs projectile_manager_path m))
                   projectile_methods
       ++ [Title Summary;
           Tally CoreFiles
             (List.length (filter (file_passes fs) core_files)) 11;
           Tally TestFiles
             (List.length (filter (file_passes fs) test_files)) 5;
           Tally DataFiles
             (List.length (filter (file_passes fs) data_files)) 4;
           Tally NetworkFiles
             (List.length (filter (file_passes fs) network_files)) 2;
           Tally CombatMethods
             (List.length
                (filter (fun m => snd (check_method_exists fs combat_system_path m))
                        combat_methods)) 5;
           Tally ProjectileMethods
             (List.length
                (filter (fun m => snd (check_method_exists fs projectile_manager_path m))
                        projectile_methods)) 3;
           Overall (total_passed fs) 30;
           if snd (main fs) then ValidationPassed else ValidationFailed ]
  /\ total_passed fs + total_failed fs = total_checks
  /\ List.length (performed fs) = total_checks + existing fs all_files
  /\ (forall class_name, ~ In (SymbolCheck filepath class_name) (performed fs))
  /\ (forall files passed,
        fst (check_files fs files passed)
        = flat_map (fun c => fst (answer fs c)) (file_calls fs files))
  /\ (forall path methods passed,
        fst (check_methods fs path methods passed)
        = flat_map (fun c => fst (answer fs c)) (method_calls path methods))
  /\ (forall entry,
        In entry (core_files ++ test_files ++ data_files ++ network_files) ->
        In (FileExists (fst entry)) (fst (main fs))
        \/ In (FileMissing (fst entry)) (fst (main fs)))
  /\ In (Overall (total_passed fs) 30) (fst (main fs))
  /\ total_checks = 30.
Proof.
  intros Hmiss.
  assert (E : path_exists fs filepath = false)
    by (unfold path_exists; rewrite Hmiss; reflexivity).
  assert (F : check_file_exists fs filepath = ([FileMissing filepath], false))
    by (unfold check_file_exists; rewrite E; reflexivity).
  assert (C : forall class_name,
             check_class_definition fs filepath class_name = ([], false))
    by (intros; unfold check_class_definition; rewrite E; reflexivity).
  assert (M : forall method_name,
             check_method_exists fs filepath method_name = ([], false))
    by (intros; unfold check_method_exists; rewrite E; reflexivity).
  split; [split; [exact F|split; [exact C|exact M]]|].
  split.
  { intros. simpl check_files. rewrite F. simpl.
    destruct (check_files fs rest passed). reflexivity. }
  split.
  { intros. simpl check_methods. rewrite M. simpl.
    destruct (check_methods fs filepath rest passed). reflexivity. }
  split; [exact (fun files => check_files_run fs files)|].
  split; [exact (fun path methods => check_methods_run fs path methods)|].
  split.
  { rewrite (main_lines fs), !check_files_run, !check_methods_run.
    reflexivity. }
  split; [exact (passed_and_failed fs)|].
  split; [exact (performed_length fs)|].
  split.
  { intros class_name HIn. unfold performed in HIn.
    repeat (apply in_app_or in HIn; destruct HIn as [HIn|HIn]);
      try (apply symbol_call_needs_file in HIn; congruence);
      unfold method_calls in HIn; apply in_map_iff in HIn;
      destruct HIn as [m [Hm _]]; discriminate Hm. }
  split; [exact (file_calls_lines fs)|].
  split; [exact (fun path => method_calls_lines fs path)|].
  split.
  { intros entry HIn.
    destruct (main_trace fs) as [tail [-> _]].
    repeat rewrite in_app_iff in HIn.
    destruct HIn as [H|[H|[H|H]]];
      apply (check_files_visits_all fs _ 0) in H;
      destruct H as [H|H]; [left|right|left|right|left|right|left|right];
      repeat rewrite in_app_iff; tauto. }
  split; [|reflexivity].
  destruct (main_trace fs) as [tail [-> _]].
  repeat rewrite in_app_iff. simpl. tauto.
Qed.

(** C6 amended, on a tree in which only [CombatSystem.cs] is missing:
    the check of the file and the five checks of its methods fail, the
    other 24 pass, 51 calls are made and the run goes to its verdict. *)
Lemma missing_file_fails_without_abort_witness :
  let fs := all_but [combat_system_path] in
  check_file_exists fs combat_system_path
  = ([FileMissing combat_system_path], false)
  /\ total_passed fs + total_failed fs = total_checks
  /\ List.length (performed fs) = total_checks + existing fs all_files
  /\ In (Overall (total_passed fs) 30) (fst (main fs)).
Proof.
  intros fs.
  destruct (missing_file_fails_without_abort fs combat_system_path eq_refl)
    as [[H1 _] [_ [_ [_ [_ [_ [H2 [H3 [_ [_ [_ [_ [H4 _]]]]]]]]]]]]].
  split; [exact H1|split; [exact H2|split; [exact H3|exact H4]]].
Defined.

End MissingFileClaim.

(** ** Python strings: stripping, lines and integers *)

Section StringFacts.

Lemma lstrip_blank (s : str) :
  forallb Py.is_space s = true -> Py.lstrip s = [].
Proof.
  induction s as [|c r IH]; simpl; [reflexivity|].
  intros H. apply andb_true_iff in H. destruct H as [Hc Hr].
  rewrite Hc. auto.
Qed.

Lemma lstrip_idem (s : str) : Py.lstrip (Py.lstrip s) = Py.lstrip s.
Proof.
  induction s as [|c r IH]; simpl; [reflexivity|].
  destruct (Py.is_space c) eqn:Hc; [exact IH|].
  simpl. rewrite Hc. reflexivity.
Qed.

(** A text that keeps its head under [lstrip] still does so with more
    text after it. *)
Lemma lstrip_app_keep (s t : str) :
  Py.lstrip s <> [] -> Py.lstrip (s ++ t) = Py.lstrip s ++ t.
Proof.
  induction s as [|c r IH]; simpl; [congruence|].
  destruct (Py.is_space c); auto.
Qed.

Lemma lstrip_app_blank (s t : str) :
  Py.lstrip s = [] -> Py.lstrip (s ++ t) = Py.lstrip t.
Proof.
  induction s as [|c r IH]; simpl; [reflexivity|].
  destruct (Py.is_space c); [auto|discriminate].
Qed.

Lemma rstrip_idem (s : str) : Py.rstrip (Py.rstrip s) = Py.rstrip s.
Proof.
  unfold Py.rstrip. rewrite rev_involutive, lstrip_idem. reflexivity.
Qed.

(** [rstrip] leaves a text alone when it does not end in white space,
    stated on the head of a stripped text. *)
Lemma lstrip_rstrip (s : str) :
  Py.lstrip s = s -> Py.lstrip (Py.rstrip s) = Py.rstrip s.
Proof.
  destruct s as [|c r]; [reflexivity|].
  simpl. destruct (Py.is_space c) eqn:Hc.
  - intros H. exfalso.
    assert (L : List.length (Py.lstrip r) <= List.length r).
    { clear. induction r as [|a r IH]; simpl; [lia|].
      destruct (Py.is_space a); simpl; lia. }
    rewrite H in L. simpl in L. lia.
  - intros _. unfold Py.rstrip. simpl rev.
    destruct (Py.lstrip (rev r)) eqn:E.
    + rewrite lstrip_app_blank by exact E. simpl. rewrite Hc. simpl.
      rewrite Hc. reflexivity.
    + rewrite lstrip_app_keep by congruence. rewrite E.
      rewrite rev_app_distr. simpl. rewrite Hc. reflexivity.
Qed.

Lemma strip_idem (s : str) : Py.strip (Py.strip s) = Py.strip s.
Proof.
  unfold Py.strip.
  rewrite (lstrip_rstrip (Py.lstrip s)) by apply lstrip_idem.
  apply rstrip_idem.
Qed.

Lemma strip_blank (s : str) : forallb Py.is_space s = true -> Py.strip s = [].
Proof.
  intros H. unfold Py.strip. rewrite lstrip_blank by exact H. reflexivity.
Qed.

Lemma forallb_weaken {A} (p q : A -> bool) (l : list A) :
  (forall x, p x = true -> q x = true) ->
  forallb p l = true -> forallb q l = true.
Proof.
  intros H. induction l as [|x l IH]; simpl; [reflexivity|].
  intros E. apply andb_true_iff in E. destruct E as [Ex El].
  rewrite (H x Ex), (IH El). reflexivity.
Qed.
(** [int] and [str.strip] *)

Lemma int_space_is_space (c : ascii) :
  Py.int_space c = true -> Py.is_space c = true.
Proof.
  destruct c as [[] [] [] [] [] [] [] []]; vm_compute; intros H;
    try reflexivity; discriminate H.
Qed.

Lemma digit_not_space (c : ascii) (d : Z) :
  Py.digit_val c = Some d -> Py.is_space c = false.
Proof.
  destruct c as [[] [] [] [] [] [] [] []]; vm_compute; intros H;
    try reflexivity; discriminate H.
Qed.

(** What [int_lstrip] takes off is white space of [int], and what is
    left does not start with such white space. *)
Lemma int_lstrip_split (s : str) :
  exists a, s = a ++ Py.int_lstrip s /\ forallb Py.int_space a = true.
Proof.
  induction s as [|c r [a [E Ha]]]; simpl.
  - exists []. split; reflexivity.
  - destruct (Py.int_space c) eqn:Hc.
    + exists (c :: a). simpl. rewrite Hc, Ha. split; [congruence|reflexivity].
    + exists []. split; reflexivity.
Qed.

Lemma int_trim_split (s : str) :
  exists a b,
    s = a ++ Py.int_trim s ++ b
    /\ forallb Py.int_space a = true /\ forallb Py.int_space b = true.
Proof.
  destruct (int_lstrip_split s) as [a [E Ha]].
  destruct (int_lstrip_split (rev (Py.int_lstrip s))) as [b [E' Hb]].
  exists a, (rev b). unfold Py.int_trim. split; [|split; [exact Ha|]].
  - rewrite <- rev_app_distr, <- E', rev_involutive. exact E.
  - rewrite forallb_forall in *. intros c Hc. apply Hb, in_rev, Hc.
Qed.

Lemma lstrip_clean (s : str) :
  forallb (fun c => negb (Py.is_space c)) s = true -> Py.lstrip s = s.
Proof.
  destruct s as [|c s]; simpl; [reflexivity|].
  intros H. apply andb_true_iff in H. destruct H as [H _].
  apply negb_true_iff in H. rewrite H. reflexivity.
Qed.

Lemma int_lstrip_clean (s : str) :
  forallb (fun c => negb (Py.is_space c)) s = true -> Py.int_lstrip s = s.
Proof.
  destruct s as [|c s]; simpl; [reflexivity|].
  intros H. apply andb_true_iff in H. destruct H as [H _].
  apply negb_true_iff in H.
  destruct (Py.int_space c) eqn:E; [|reflexivity].
  apply int_space_is_space in E. congruence.
Qed.

Lemma clean_rev (s : str) :
  forallb (fun c => negb (Py.is_space c)) s = true ->
  forallb (fun c => negb (Py.is_space c)) (rev s) = true.
Proof.
  intros H. rewrite forallb_forall in *. intros c Hc. apply H, in_rev, Hc.
Qed.

(** A text free of white space, between two runs of white space: both
    [str.strip] and the trimming of [int] give the text back. *)
Lemma strip_core (a core b : str) :
  forallb Py.is_space a = true -> forallb Py.is_space b = true ->
  forallb (fun c => negb (Py.is_space c)) core = true ->
  core <> [] ->
  Py.strip (a ++ core ++ b) = core.
Proof.
  intros Ha Hb Hcore Hne. unfold Py.strip.
  rewrite (lstrip_app_blank a _ (lstrip_blank a Ha)).
  assert (L : Py.lstrip (core ++ b) = core ++ b).
  { rewrite lstrip_app_keep; rewrite (lstrip_clean core Hcore);
      [reflexivity|exact Hne]. }
  rewrite L. unfold Py.rstrip. rewrite rev_app_distr.
  rewrite (lstrip_app_blank (rev b)).
  - rewrite (lstrip_clean _ (clean_rev core Hcore)). apply rev_involutive.
  - apply lstrip_blank. rewrite forallb_forall in *.
    intros c Hc. apply Hb, in_rev, Hc.
Qed.

Lemma int_trim_clean (core : str) :
  forallb (fun c => negb (Py.is_space c)) core = true ->
  Py.int_trim core = core.
Proof.
  intros H. unfold Py.int_trim.
  rewrite (int_lstrip_clean core H).
  rewrite (int_lstrip_clean _ (clean_rev core H)). apply rev_involutive.
Qed.

(** The characters of a text that [digits] reads are digits and
    underscores, no white space. *)
Lemma digits_clean (s : str) :
  forall acc after v,
    Py.digits acc after s = Some v ->
    forallb (fun c => negb (Py.is_space c)) s = true.
Proof.
  induction s as [|c s IH]; intros acc after v; simpl; [reflexivity|].
  destruct (Ascii.eqb_spec c "_") as [->|_].
  - destruct after; [|discriminate]. intros H. apply IH in H.
    rewrite H. reflexivity.
  - destruct (Py.digit_val c) as [d|] eqn:D; [|discriminate].
    intros H. apply IH in H. rewrite H, (digit_not_space c d D). reflexivity.
Qed.

Lemma literal_clean (body : str) (v : Z) :
  Py.literal body = Some v ->
  forallb (fun c => negb (Py.is_space c)) body = true.
Proof.
  unfold Py.literal. destruct (_ <=? _)%nat; [|discriminate].
  apply digits_clean.
Qed.

(** A text that [int] reads is, between white space, a literal free of
    white space. *)
Lemma int_core (t : str) (z : Z) :
  Py.int t = Some z ->
  Py.int_trim t <> []
  /\ forallb (fun c => negb (Py.is_space c)) (Py.int_trim t) = true.
Proof.
  unfold Py.int. destruct (Py.int_trim t) as [|c r]; [discriminate|].
  intros H. split; [discriminate|].
  destruct (Ascii.eqb_spec c "-") as [->|_].
  - destruct (Py.literal r) as [v|] eqn:L; [|discriminate].
    simpl. exact (literal_clean r v L).
  - destruct (Ascii.eqb_spec c "+") as [->|_].
    + simpl. exact (literal_clean r z H).
    + exact (literal_clean (c :: r) z H).
Qed.

Lemma strip_of_int (t : str) (z : Z) :
  Py.int t = Some z -> Py.strip t = Py.int_trim t.
Proof.
  intros H. destruct (int_core t z H) as [Hne Hclean].
  destruct (int_trim_split t) as [a [b [E [Ha Hb]]]].
  rewrite E at 1. apply strip_core; try assumption.
  - eapply forallb_weaken; [|exact Ha]. exact int_space_is_space.
  - eapply forallb_weaken; [|exact Hb]. exact int_space_is_space.
Qed.

(** What [int] reads, it reads the same once the text is stripped, as
    the script does. *)
Lemma int_of_stripped (t : str) (z : Z) :
  Py.int t = Some z -> Py.int (Py.strip t) = Some z.
Proof.
  intros H. rewrite (strip_of_int t z H).
  destruct (int_core t z H) as [_ Hclean].
  unfold Py.int in *. rewrite (int_trim_clean _ Hclean). exact H.
Qed.

Lemma int_truthy (t : str) (z : Z) :
  Py.int t = Some z -> Py.truthy (Py.strip t) = true.
Proof.
  intros H. rewrite (strip_of_int t z H).
  destruct (int_core t z H) as [Hne _].
  destruct (Py.int_trim t); [congruence|reflexivity].
Qed.

(** The characters of the lines of a text are those of the text, and
    the line feed. *)
Lemma readlines_chars (P : ascii -> Prop) (s : str) :
  P Py.LF -> Forall P s -> Forall (Forall P) (Py.readlines s).
Proof.
  intros HLF.
  assert (G : forall n (s : str), List.length s <= n -> Forall P s ->
              Forall (Forall P) (Py.readlines s)).
  { clear s. induction n as [|n IH]; intros s Hlen Hs.
    - destruct s; [constructor|simpl in Hlen; lia].
    - destruct s as [|c r]; [constructor|].
      simpl in Hlen. inversion Hs as [|? ? Hc Hr]; subst.
      simpl. destruct (Ascii.eqb c Py.LF).
      + constructor; [repeat constructor; assumption|apply IH; [lia|assumption]].
      + destruct (Ascii.eqb c Py.CR).
        * destruct r as [|c' r'].
          -- repeat constructor; assumption.
          -- inversion Hr; subst. simpl in Hlen.
             destruct (Ascii.eqb c' Py.LF);
               (constructor; [repeat constructor; assumption|]);
               apply IH; simpl; try lia; assumption.
        * assert (R : Forall (Forall P) (Py.readlines r))
            by (apply IH; [lia|assumption]).
          destruct (Py.readlines r) as [|l ls].
          -- repeat constructor; assumption.
          -- inversion R; subst. constructor; [constructor|]; assumption.
  }
  apply (G (List.length s)). lia.
Qed.

End StringFacts.

(** ** The deploy script: one file *)

Section OneFile.
Import MapDeploy Terms.
Local Open Scope deploy_scope.

Lemma map_filter_comm {A B} (f : A -> B) (p : B -> bool) (l : list A) :
  map f (filter (fun x => p (f x)) l) = filter p (map f l).
Proof.
  induction l as [|x l IH]; simpl; [reflexivity|].
  destruct (p (f x)); simpl; rewrite IH; reflexivity.
Qed.

(** The list [lines] of the script is the list of rows of the text. *)
Lemma lines_of_rows (content : str) : lines_of content = csv_rows content.
Proof. unfold lines_of, csv_rows. apply map_filter_comm. Qed.

Lemma blank_no_rows (content : str) : blank content -> csv_rows content = [].
Proof.
  unfold blank, csv_rows. intros H.
  assert (L : Forall (Forall (fun c => Py.is_space c = true))
                     (Py.readlines content)).
  { apply readlines_chars; [reflexivity|].
    apply Forall_forall. apply forallb_forall. exact H. }
  induction L as [|l ls Hl _ IH]; simpl; [reflexivity|].
  rewrite strip_blank; [exact IH|].
  apply forallb_forall. apply Forall_forall. exact Hl.
Qed.

(** Integer tokens all pass the filter on blank tokens and are read in
    order. *)
Lemma ints_of_tokens (tokens : list str) (row : list Z) :
  Forall2 (fun token z => Py.int token = Some z) tokens row ->
  ints (filter (fun t => Py.truthy (Py.strip t)) tokens) = ret row.
Proof.
  induction 1 as [|t z tokens row Ht _ IH]; simpl; [reflexivity|].
  rewrite (int_truthy t z Ht). simpl.
  rewrite (int_of_stripped t z Ht), IH. reflexivity.
Qed.

Lemma flatten_rows (lines : list str) (grid : list (list Z)) :
  Forall2 row_holds lines grid ->
  forall tile_data, flatten lines tile_data = ret (tile_data ++ concat grid).
Proof.
  induction 1 as [|line row lines grid Hrow _ IH]; intros tile_data; simpl.
  - rewrite app_nil_r. reflexivity.
  - unfold row_tiles. rewrite (ints_of_tokens _ _ Hrow). simpl.
    rewrite IH, <- app_assoc. reflexivity.
Qed.

(** Row-major indexing of the concatenation of rows of one length. *)
Lemma concat_length_uniform (C : nat) (grid : list (list Z)) :
  Forall (fun row => List.length row = C) grid ->
  List.length (concat grid) = List.length grid * C.
Proof.
  induction 1 as [|row grid Hrow _ IH]; simpl; [reflexivity|].
  rewrite length_app, IH, Hrow. reflexivity.
Qed.

Lemma concat_row_major (C : nat) (grid : list (list Z)) :
  Forall (fun row => List.length row = C) grid ->
  forall r c, r < List.length grid -> c < C ->
    nth_error (concat grid) (r * C + c) = nth_error (nth r grid []) c.
Proof.
  induction 1 as [|row grid Hrow _ IH]; intros r c Hr Hc; simpl in Hr; [lia|].
  destruct r as [|r]; simpl.
  - apply nth_error_app1. lia.
  - rewrite nth_error_app2 by lia.
    replace (C + r * C + c - List.length row) with (r * C + c) by lia.
    apply IH; lia.
Qed.

End OneFile.

Section RowMajor.
Import MapDeploy Terms.
Local Open Scope deploy_scope.

(** C2.  A file named [*.csv] whose text consists of R >= 1 non-blank
    rows of exactly C comma-separated integer tokens each gives, in its
    turn of the loop, one new template; its width is C, its height R,
    its tile sequence has R * C elements and the element at index
    r * C + c is the integer of row r, column c. *)
Theorem csv_template_row_major
    (all_templates : list template) (filename content : str)
    (grid : list (list Z)) (R C : nat) :
  Py.endswith filename (lit ".csv") = true ->
  csv_holds content grid ->
  List.length grid = R ->
  Forall (fun row => List.length row = C) grid ->
  0 < R ->
  exists t,
    visit all_templates (filename, Text content) = ret (all_templates ++ [t])
    /\ width t = C
    /\ height t = R
    /\ List.length (tile_data t) = R * C
    /\ forall r c, r < R -> c < C ->
         nth_error (tile_data t) (r * C + c) = nth_error (nth r grid []) c.
Proof.
  intros Hcsv Hholds HR HC Hpos.
  unfold visit. rewrite Hcsv.
  unfold build. rewrite lines_of_rows.
  unfold csv_holds in Hholds.
  pose proof (Forall2_length Hholds) as Hlen.
  pose proof (flatten_rows _ _ Hholds []) as Hflat.
  destruct (csv_rows content) as [|line lines];
    [simpl in Hlen; lia|].
  rewrite Hflat. simpl.
  eexists. split; [reflexivity|]. simpl.
  repeat split.
  - inversion Hholds as [|? row ? grid' Hrow _]; subst.
    inversion HC; subst.
    apply (Forall2_length Hrow).
  - simpl in Hlen. congruence.
  - rewrite (concat_length_uniform C) by exact HC. rewrite HR. reflexivity.
  - intros r c Hr Hc.
    apply concat_row_major; [exact HC | lia | exact Hc].
Qed.

(** C2 on the text of two rows [1,2,3] and [4,5,6]. *)
Lemma csv_template_row_major_witness :
  exists t,
    visit [] (lit "cave.csv",
              Text (lit "1,2,3" ++ [Py.LF] ++ lit "4,5,6" ++ [Py.LF]))
    = ret ([] ++ [t])
    /\ width t = 3 /\ height t = 2 /\ List.length (tile_data t) = 2 * 3
    /\ forall r c, r < 2 -> c < 3 ->
         nth_error (tile_data t) (r * 3 + c)
         = nth_error (nth r [[1; 2; 3]; [4; 5; 6]]%Z []) c.
Proof.
  apply (csv_template_row_major [] (lit "cave.csv")
           (lit "1,2,3" ++ [Py.LF] ++ lit "4,5,6" ++ [Py.LF])
           [[1; 2; 3]; [4; 5; 6]]%Z 2 3).
  - reflexivity.
  - repeat constructor.
  - reflexivity.
  - repeat constructor.
  - lia.
Defined.

End RowMajor.

(** ** The deploy script: the scan of the directory *)

Section Scan.
Import MapDeploy Terms.
Local Open Scope deploy_scope.

Lemma scan_app (before after : listing) (all_templates : list template) :
  scan (before ++ after) all_templates
  = bind (scan before all_templates) (scan after).
Proof.
  revert all_templates.
  induction before as [|entry before IH]; intros all_templates; simpl.
  - reflexivity.
  - destruct (visit all_templates entry); simpl; [reflexivity|apply IH].
Qed.

Lemma visit_passed_over (entry : str * node) (all_templates : list template) :
  passed_over entry -> visit all_templates entry = ret all_templates.
Proof.
  destruct entry as [filename file]. unfold passed_over, visit; cbn [fst snd].
  intros [H|[content [-> H]]].
  - rewrite H. reflexivity.
  - destruct (Py.endswith filename (lit ".csv")); [|reflexivity].
    unfold build. rewrite lines_of_rows, H. reflexivity.
Qed.

Lemma scan_passed_over (entries : listing) (all_templates : list template) :
  Forall passed_over entries -> scan entries all_templates = ret all_templates.
Proof.
  induction 1 as [|entry entries H _ IH]; simpl; [reflexivity|].
  rewrite (visit_passed_over entry all_templates H). exact IH.
Qed.

(** A turn of the loop either fails, or keeps the list, or adds one
    template at its end. *)
Lemma visit_grows (entry : str * node) (all_templates : list template) :
  match visit all_templates entry with
  | inl _ => True
  | inr l => l = all_templates \/ exists t, l = all_templates ++ [t]
  end.
Proof.
  destruct entry as [filename file]. unfold visit.
  destruct (Py.endswith filename (lit ".csv")); [|left; reflexivity].
  destruct file as [content| |]; [|exact I|exact I].
  destruct (build (Py.remove_csv filename) content) as [e|[t|]]; simpl.
  - exact I.
  - right. exists t. reflexivity.
  - left. reflexivity.
Qed.

(** [passed_over] says exactly that the turn of the entry ends without
    error and without new template. *)
Lemma passed_over_iff (entry : str * node) :
  passed_over entry
  <-> forall all_templates, visit all_templates entry = ret all_templates.
Proof.
  split; [intros H a; apply visit_passed_over; exact H|].
  intros H. specialize (H []). destruct entry as [filename file].
  unfold passed_over, visit in *. cbn [fst snd].
  destruct (Py.endswith filename (lit ".csv")); [|left; reflexivity].
  right. destruct file as [content| |]; [|discriminate|discriminate].
  exists content. split; [reflexivity|].
  rewrite <- lines_of_rows. unfold build in H.
  destruct (lines_of content) as [|first rest]; [reflexivity|].
  destruct (flatten (first :: rest) []); simpl in H; discriminate.
Qed.

End Scan.

Section BlankFile.
Import MapDeploy Terms.
Local Open Scope deploy_scope.

(** C9.  A file whose name ends in [.csv] and whose text has no line
    with a character other than white space is skipped: its turn of the
    loop leaves the list of templates as it is, and the scan and the
    whole run are those of the directory without the file. *)
Theorem blank_csv_is_skipped
    (before after : listing) (filename content : str) :
  Py.endswith filename (lit ".csv") = true ->
  blank content ->
  (forall all_templates,
     visit all_templates (filename, Text content) = ret all_templates)
  /\ (forall all_templates,
        scan (before ++ (filename, Text content) :: after) all_templates
        = scan (before ++ after) all_templates)
  /\ (forall cl,
        run (before ++ (filename, Text content) :: after) cl
        = run (before ++ after) cl).
Proof.
  intros Hcsv Hblank.
  assert (V : forall all_templates,
             visit all_templates (filename, Text content) = ret all_templates).
  { intros. apply visit_passed_over. right.
    exists content. split; [reflexivity|apply blank_no_rows; exact Hblank]. }
  assert (S : forall all_templates,
             scan (before ++ (filename, Text content) :: after) all_templates
             = scan (before ++ after) all_templates).
  { intros. rewrite !scan_app.
    destruct (scan before all_templates) as [e|l]; cbn [bind scan];
      [reflexivity|].
    rewrite V. reflexivity. }
  repeat split; [exact V | exact S |].
  intros cl. unfold run, run_deploy. simpl. rewrite S. reflexivity.
Qed.

(** C9 on a directory of two maps and a file of blank lines between
    them. *)
Lemma blank_csv_is_skipped_witness :
  let first := (lit "a.csv", Text (lit "1,2")) in
  let last := (lit "b.csv", Text (lit "3")) in
  let spaces := lit "  " ++ [Py.CR; Py.LF] ++ lit " " ++ [Py.LF] in
  let cl := fun _ : list str => Some (Completed 0 [] []) in
  run ([first] ++ (lit "empty.csv", Text spaces) :: [last]) cl
  = run ([first] ++ [last]) cl.
Proof.
  intros first last spaces cl.
  apply (blank_csv_is_skipped [first] [last] (lit "empty.csv") spaces);
    reflexivity.
Defined.

End BlankFile.

(** ** The deploy script: the external client *)

Section Client.
Import MapDeploy Terms.
Local Open Scope deploy_scope.

(** The run, once the scan has given at least one template. *)
Lemma run_with_templates
    (entries : listing) (cl : list str -> option completed)
    (t : template) (rest : list template) :
  scan entries [] = ret (t :: rest) ->
  run entries cl
  = let cmd := command (t :: rest) in
    let before := [Print (Sending (List.length (t :: rest))); Spawn cmd] in
    match cl cmd with
    | None => (before, raise OSError)
    | Some result =>
        (before ++ [Print (if (returncode result =? 0)%Z then DeployDone
                           else DeployFailed (stderr result))],
         ret tt)
    end.
Proof.
  intros H. unfold run, run_deploy. cbn [maps_dir client]. rewrite H.
  unfold ret at 1. cbv beta iota zeta. destruct (cl (command (t :: rest))) as [result|]; [|reflexivity].
  destruct (returncode result =? 0)%Z; reflexivity.
Qed.

(** Without template there is no call; with one, there is exactly one,
    with the command of [command]. *)
Lemma run_calls (w : world) :
  calls (fst (run_deploy w))
  = match maps_dir w with
    | Some entries =>
        match scan entries [] with
        | inr (t :: rest) => [command (t :: rest)]
        | _ => []
        end
    | None => []
    end.
Proof.
  unfold run_deploy.
  destruct (maps_dir w) as [entries|]; [|reflexivity].
  destruct (scan entries []) as [e|[|t rest]]; try reflexivity.
  cbv zeta. destruct (client w (command (t :: rest))) as [result|];
    [|reflexivity].
  destruct (returncode result =? 0)%Z; reflexivity.
Qed.

Lemma in_calls (cmd : list str) (trace : list event) :
  In (Spawn cmd) trace -> In cmd (calls trace).
Proof.
  intros H. unfold calls. apply in_flat_map.
  exists (Spawn cmd). split; [exact H|left; reflexivity].
Qed.

End Client.

Section NoMap.
Import MapDeploy Terms.
Local Open Scope deploy_scope.

(** C5, as stated, fails: in a directory whose only file is a [.csv]
    with a token that is not an integer, no file yields a template, yet
    no warning is printed and the run does not return: it ends with the
    [ValueError] of [int]. *)
Lemma malformed_map_gives_no_warning :
  let entry := (lit "bad.csv", Text (lit "x")) in
  let cl := fun _ : list str => Some (Completed 0 [] []) in
  (forall t, ~ yields entry t)
  /\ run [entry] cl = ([], raise ValueError).
Proof.
  intros entry cl. split; [|reflexivity].
  intros t H. specialize (H []). discriminate H.
Qed.

(** C5, amended.  When every entry of the directory is passed over (a
    name that does not end in [.csv], or a text without any non-blank
    row; an empty directory in particular), the scan gives no template,
    the run prints the warning and nothing else, returns, and does not
    start the external client. *)
Theorem no_map_warns_without_call
    (entries : listing) (cl : list str -> option completed) :
  Forall passed_over entries ->
  scan entries [] = ret []
  /\ run entries cl = ([Print NoMapFound], ret tt)
  /\ calls (fst (run entries cl)) = [].
Proof.
  intros H. pose proof (scan_passed_over entries [] H) as S.
  assert (R : run entries cl = ([Print NoMapFound], ret tt)).
  { unfold run, run_deploy. cbn [maps_dir]. rewrite S. reflexivity. }
  repeat split; [exact S | exact R | rewrite R; reflexivity].
Qed.

(** C5 amended, on a directory with a note and a file of blank lines. *)
Lemma no_map_warns_without_call_witness :
  let entries := [ (lit "notes.txt", Text (lit "1,2"));
                   (lit "empty.csv", Text (lit " " ++ [Py.LF])) ] in
  let cl := fun _ : list str => Some (Completed 0 [] []) in
  scan entries [] = ret []
  /\ run entries cl = ([Print NoMapFound], ret tt)
  /\ calls (fst (run entries cl)) = [].
Proof.
  intros entries cl.
  apply (no_map_warns_without_call entries cl).
  constructor; [left; reflexivity|].
  constructor; [|constructor].
  right. eexists. split; reflexivity.
Defined.

(** The empty directory. *)
Example empty_directory (cl : list str -> option completed) :
  run [] cl = ([Print NoMapFound], ret tt).
Proof. reflexivity. Qed.

End NoMap.

Section OneCall.
Import MapDeploy Terms.
Local Open Scope deploy_scope.

(** C7.  In every run in which the external client is started, it is
    started exactly once, whatever its exit code; and when it exits
    with a code other than 0, the run announces the maps, starts the
    client, prints the failure line with the client's standard error
    text, and returns. *)
Theorem client_started_once_and_failure_reported
    (w : world) (cmd : list str) :
  In (Spawn cmd) (fst (run_deploy w)) ->
  spawns (fst (run_deploy w)) = 1
  /\ calls (fst (run_deploy w)) = [cmd]
  /\ forall result,
       client w cmd = Some result ->
       returncode result <> 0%Z ->
       exists count,
         run_deploy w
         = ([Print (Sending count); Spawn cmd;
             Print (DeployFailed (stderr result))], ret tt).
Proof.
  intros HIn.
  pose proof (in_calls _ _ HIn) as HC.
  unfold spawns. rewrite run_calls in *.
  destruct w as [dir cl]. cbn [maps_dir client] in *.
  destruct dir as [entries|]; [|contradiction].
  destruct (scan entries []) as [e|[|t rest]] eqn:S; try contradiction.
  destruct HC as [<-|[]].
  repeat split.
  intros result Hcl Hrc.
  exists (List.length (t :: rest)).
  change (run_deploy {| maps_dir := Some entries; client := cl |})
    with (run entries cl).
  rewrite (run_with_templates entries cl t rest S). cbv zeta.
  rewrite Hcl.
  destruct (Z.eqb_spec (returncode result) 0); [contradiction|reflexivity].
Qed.

(** C7 on one map and a client that exits with code 2. *)
Lemma client_started_once_and_failure_reported_witness :
  let cl := fun _ : list str => Some (Completed 2 [] (lit "refused")) in
  let w := {| maps_dir := Some [(lit "a.csv", Text (lit "7"))]; client := cl |} in
  let cmd := command [Template (lit "a") 1 1 [7%Z]] in
  spawns (fst (run_deploy w)) = 1
  /\ exists count,
       run_deploy w
       = ([Print (Sending count); Spawn cmd;
           Print (DeployFailed (lit "refused"))], ret tt).
Proof.
  intros cl w cmd.
  destruct (client_started_once_and_failure_reported w cmd) as [H1 [_ H3]].
  - right. left. reflexivity.
  - split; [exact H1|].
    apply (H3 (Completed 2 [] (lit "refused"))); [reflexivity|discriminate].
Defined.

(** The payload of that call, as text. *)
Example payload_text :
  Json.dumps (args_json [Template (lit "a") 2 1 [1; 2]%Z])
  = lit "[[{" ++ quoted "name" ++ lit ": " ++ quoted "a" ++ lit ", "
    ++ quoted "width" ++ lit ": 2, " ++ quoted "height" ++ lit ": 1, "
    ++ quoted "tile_data" ++ lit ": [1, 2]}]]".
Proof. reflexivity. Qed.

End OneCall.

(** ** The deploy script: malformed files *)

Section Malformed.
Import MapDeploy Terms.
Local Open Scope deploy_scope.

Lemma ints_raises (tokens : list str) (token : str) :
  In token tokens -> Py.int (Py.strip token) = None ->
  ints tokens = raise ValueError.
Proof.
  induction tokens as [|t tokens IH]; intros HIn Hbad; [contradiction|].
  simpl. destruct (Py.int (Py.strip t)) as [z|] eqn:E; [|reflexivity].
  destruct HIn as [->|HIn]; [congruence|].
  rewrite (IH HIn Hbad). reflexivity.
Qed.

Lemma ints_only_value_error (tokens : list str) (e : exn) :
  ints tokens = inl e -> e = ValueError.
Proof.
  induction tokens as [|t tokens IH]; simpl; [discriminate|].
  destruct (Py.int (Py.strip t)); [|unfold raise; congruence].
  destruct (ints tokens); simpl; [intros H; apply IH; congruence|discriminate].
Qed.

Lemma truthy_nonempty (s : str) : s <> [] -> Py.truthy s = true.
Proof. destruct s; [congruence|reflexivity]. Qed.

Lemma row_tiles_raises (line token : str) :
  In token (Py.split "," line) ->
  Py.strip token <> [] -> Py.int (Py.strip token) = None ->
  row_tiles line = raise ValueError.
Proof.
  intros HIn Hne Hbad. unfold row_tiles.
  apply (ints_raises _ token).
  - apply filter_In. split; [exact HIn|apply truthy_nonempty; exact Hne].
  - exact Hbad.
Qed.

Lemma flatten_raises (lines : list str) (line : str) :
  In line lines -> row_tiles line = raise ValueError ->
  forall tile_data, flatten lines tile_data = raise ValueError.
Proof.
  induction lines as [|l lines IH]; intros HIn Hbad tile_data; [contradiction|].
  simpl. destruct (row_tiles l) as [e|row] eqn:E.
  - apply ints_only_value_error in E. subst e. reflexivity.
  - destruct HIn as [->|HIn]; [unfold raise in Hbad; congruence|].
    simpl. apply IH; assumption.
Qed.

Lemma build_raises (template_name content : str) :
  bad_token content -> build template_name content = raise ValueError.
Proof.
  intros [line [token [Hline [Htoken [Hne Hbad]]]]].
  unfold build. rewrite lines_of_rows.
  destruct (csv_rows content) as [|first rest] eqn:E; [contradiction|].
  rewrite (flatten_raises (first :: rest) line Hline).
  - reflexivity.
  - apply (row_tiles_raises line token); assumption.
Qed.

Lemma scan_raises (entries : listing) (entry : str * node) :
  In entry entries ->
  (forall all_templates, exists e, visit all_templates entry = inl e) ->
  forall all_templates, exists e, scan entries all_templates = inl e.
Proof.
  induction entries as [|first entries IH]; intros HIn Hbad all_templates;
    [contradiction|].
  simpl. destruct (visit all_templates first) as [e|l] eqn:E.
  - exists e. reflexivity.
  - destruct HIn as [->|HIn].
    + destruct (Hbad all_templates) as [e He]. congruence.
    + simpl. apply IH; assumption.
Qed.

End Malformed.

Section WellFormed.
Import MapDeploy Terms.
Local Open Scope deploy_scope.

Lemma ints_fails (tokens : list str) (e : exn) :
  ints tokens = inl e ->
  exists token, In token tokens /\ Py.int (Py.strip token) = None.
Proof.
  induction tokens as [|t tokens IH]; simpl; [discriminate|].
  destruct (Py.int (Py.strip t)) as [z|] eqn:E.
  - destruct (ints tokens) as [e'|row]; simpl; [|discriminate].
    intros H. destruct (IH H) as [token [HIn Hnone]].
    exists token. split; [right; exact HIn|exact Hnone].
  - intros _. exists t. split; [left; reflexivity|exact E].
Qed.

Lemma row_tiles_fails (line : str) (e : exn) :
  row_tiles line = inl e ->
  exists token,
    In token (Py.split "," line)
    /\ Py.strip token <> [] /\ Py.int (Py.strip token) = None.
Proof.
  unfold row_tiles. intros H. apply ints_fails in H.
  destruct H as [token [HIn Hnone]]. apply filter_In in HIn.
  destruct HIn as [HIn Ht]. exists token. repeat split; try assumption.
  intros E. rewrite E in Ht. discriminate Ht.
Qed.

Lemma flatten_fails (lines : list str) (e : exn) :
  forall tile_data,
    flatten lines tile_data = inl e ->
    exists line e', In line lines /\ row_tiles line = inl e'.
Proof.
  induction lines as [|line lines IH]; intros tile_data; simpl;
    [discriminate|].
  destruct (row_tiles line) as [e'|row] eqn:E; simpl.
  - intros _. exists line, e'. split; [left; reflexivity|exact E].
  - intros H. destruct (IH _ H) as [l [e' [Hl He']]].
    exists l, e'. split; [right; exact Hl|exact He'].
Qed.

(** The reading of a text fails only on a bad token: rows of different
    lengths and blank tokens make no failure. *)
Lemma build_fails (template_name content : str) (e : exn) :
  build template_name content = inl e -> bad_token content.
Proof.
  unfold build. rewrite lines_of_rows.
  destruct (csv_rows content) as [|first rest] eqn:E; [discriminate|].
  destruct (flatten (first :: rest) []) as [e'|tiles] eqn:F; simpl;
    [|discriminate].
  intros _. apply flatten_fails in F. destruct F as [line [e2 [Hline Hrow]]].
  apply row_tiles_fails in Hrow. destruct Hrow as [token [Ht [Hne Hnone]]].
  exists line, token. rewrite E. repeat split; assumption.
Qed.

End WellFormed.

Section MalformedClaim.
Import MapDeploy Terms.
Local Open Scope deploy_scope.

(** C3, as stated, fails: rows of different lengths raise nothing.  The
    text of the rows [1,2,3] and [4,5] gives a template of five tiles,
    and the run goes on to start the client; likewise the empty token of
    the row [1,,3] is left out without any failure. *)
Lemma ragged_rows_raise_nothing :
  let content := lit "1,2,3" ++ [Py.LF] ++ lit "4,5" ++ [Py.LF] in
  let cl := fun _ : list str => Some (Completed 0 [] []) in
  let t := Template (lit "ragged") 3 2 [1; 2; 3; 4; 5]%Z in
  map (fun line => List.length (Py.split "," line)) (csv_rows content) = [3; 2]
  /\ run [(lit "ragged.csv", Text content)] cl
     = ([Print (Sending 1); Spawn (command [t]); Print DeployDone], ret tt)
  /\ Py.int [] = None
  /\ visit [] (lit "gap.csv", Text (lit "1,,3"))
     = ret [Template (lit "gap") 3 1 [1; 3]%Z].
Proof. repeat split. Qed.

(** C3, amended.  A [.csv] file of the directory with, in some row, a
    token that is not blank and that [int] does not read once it is
    stripped makes its turn of the loop raise [ValueError]; the run then
    ends with an exception that nothing handles, having printed nothing
    and started no client.  The turn of a file fails only for such a
    token: a file without one raises nothing, whatever the lengths of
    its rows and however many blank tokens it has. *)
Theorem non_integer_token_raises
    (entries : listing) (cl : list str -> option completed)
    (filename content : str) :
  In (filename, Text content) entries ->
  Py.endswith filename (lit ".csv") = true ->
  (bad_token content ->
     (forall all_templates,
        visit all_templates (filename, Text content) = raise ValueError)
     /\ exists e, run entries cl = ([], raise e))
  /\ (forall all_templates e,
        visit all_templates (filename, Text content) = inl e ->
        bad_token content)
  /\ (~ bad_token content ->
      forall all_templates,
        exists made, visit all_templates (filename, Text content) = ret made).
Proof.
  intros HIn Hcsv.
  assert (F : forall all_templates e,
             visit all_templates (filename, Text content) = inl e ->
             bad_token content).
  { intros acc e. unfold visit. rewrite Hcsv.
    destruct (build (Py.remove_csv filename) content) as [e'|made] eqn:B.
    - intros _. exact (build_fails _ _ _ B).
    - destruct made; discriminate. }
  split; [|split; [exact F|]].
  - intros Hbad.
    assert (V : forall all_templates,
               visit all_templates (filename, Text content) = raise ValueError).
    { intros. unfold visit. rewrite Hcsv, (build_raises _ _ Hbad).
      reflexivity. }
    split; [exact V|].
    destruct (scan_raises entries _ HIn
                (fun a => ex_intro _ ValueError (V a)) []) as [e He].
    exists e. unfold run, run_deploy. cbn [maps_dir]. rewrite He. reflexivity.
  - intros Hgood acc.
    destruct (visit acc (filename, Text content)) as [e|made] eqn:V.
    + exfalso. exact (Hgood (F acc e V)).
    + exists made. reflexivity.
Qed.

(** C3 amended, on a good map followed by one with the token [x]. *)
Lemma non_integer_token_raises_witness :
  let entries := [ (lit "a.csv", Text (lit "1,2"));
                   (lit "b.csv", Text (lit "3,x")) ] in
  let cl := fun _ : list str => Some (Completed 0 [] []) in
  (forall all_templates,
     visit all_templates (lit "b.csv", Text (lit "3,x")) = raise ValueError)
  /\ exists e, run entries cl = ([], raise e).
Proof.
  intros entries cl.
  apply (non_integer_token_raises entries cl (lit "b.csv") (lit "3,x")).
  - right. left. reflexivity.
  - reflexivity.
  - exists (lit "3,x"), (lit "x").
    split; [left; reflexivity|].
    split; [right; left; reflexivity|].
    split; [discriminate|reflexivity].
Defined.

End MalformedClaim.

(** ** The deploy script: width, height and the number of tiles *)

Section Sizes.
Import MapDeploy Terms.
Local Open Scope deploy_scope.

Lemma ints_length (tokens : list str) (row : list Z) :
  ints tokens = ret row -> List.length row = List.length tokens.
Proof.
  revert row. induction tokens as [|t tokens IH]; intros row; simpl.
  - intros H. injection H as <-. reflexivity.
  - destruct (Py.int (Py.strip t)); [|discriminate].
    destruct (ints tokens) as [e|zs]; simpl; [discriminate|].
    intros H. injection H as <-. simpl. rewrite (IH zs eq_refl). reflexivity.
Qed.

Lemma filter_all {A} (p : A -> bool) (l : list A) :
  Forall (fun x => p x = true) l -> filter p l = l.
Proof.
  induction 1 as [|x l Hx _ IH]; simpl; [reflexivity|].
  rewrite Hx, IH. reflexivity.
Qed.

Lemma row_tiles_length (line : str) (row : list Z) :
  Forall (fun token => Py.strip token <> []) (Py.split "," line) ->
  row_tiles line = ret row ->
  List.length row = List.length (Py.split "," line).
Proof.
  intros Hne. unfold row_tiles. rewrite filter_all.
  - apply ints_length.
  - eapply Forall_impl; [|exact Hne].
    intros token. apply truthy_nonempty.
Qed.

Lemma flatten_length (W : nat) (lines : list str) :
  Forall (fun line =>
            List.length (Py.split "," line) = W
            /\ Forall (fun token => Py.strip token <> []) (Py.split "," line))
         lines ->
  forall tile_data tiles,
    flatten lines tile_data = ret tiles ->
    List.length tiles = List.length tile_data + W * List.length lines.
Proof.
  induction 1 as [|line lines [HW Hne] _ IH]; intros tile_data tiles; simpl.
  - intros H. injection H as <-. lia.
  - destruct (row_tiles line) as [e|row] eqn:E; simpl; [discriminate|].
    intros H. apply IH in H. rewrite H, length_app.
    rewrite (row_tiles_length line row Hne E), HW. lia.
Qed.

Lemma build_well_sized (template_name content : str) (t : template) :
  rectangular content ->
  build template_name content = ret (Some t) ->
  well_sized t.
Proof.
  intros [W HW]. unfold build. rewrite lines_of_rows.
  destruct (csv_rows content) as [|first rest] eqn:E; [discriminate|].
  destruct (flatten (first :: rest) []) as [e|tiles] eqn:F; simpl;
    [discriminate|].
  intros H. injection H as <-. unfold well_sized; simpl.
  apply (flatten_length W) in F; [|exact HW].
  inversion HW as [|? ? [HW0 _] _]; subst.
  rewrite F. simpl. lia.
Qed.

End Sizes.

Section SizeClaim.
Import MapDeploy Terms Notions.
Local Open Scope deploy_scope.

(** C4, as stated, fails: the text of the rows [1,2] and [3] is taken
    without any error, and its template has width 2, height 2 and three
    tiles. *)
Lemma ragged_template_is_not_well_sized :
  let content := lit "1,2" ++ [Py.LF] ++ lit "3" in
  exists t,
    scan [(lit "m.csv", Text content)] [] = ret [t]
    /\ width t * height t = 4
    /\ List.length (tile_data t) = 3
    /\ ~ well_sized t.
Proof.
  intros content. exists (Template (lit "m") 2 2 [1; 2; 3]%Z).
  repeat split. unfold well_sized. simpl. discriminate.
Qed.

(** A turn of the loop that does not fail adds, for a map, the template
    that [build] makes of its text, and nothing for any other entry. *)
Lemma visit_template (entry : str * node) (all_templates made : list template) :
  visit all_templates entry = ret made ->
  if is_map entry
  then exists t content,
         made = all_templates ++ [t]
         /\ snd entry = Text content
         /\ build (Py.remove_csv (fst entry)) content = ret (Some t)
  else made = all_templates.
Proof.
  destruct entry as [filename file]. unfold visit, is_map. cbn [fst snd].
  destruct (Py.endswith filename (lit ".csv")); simpl.
  - destruct file as [content| |]; [|discriminate|discriminate].
    destruct (build (Py.remove_csv filename) content) as [e|made'] eqn:B;
      simpl; [discriminate|].
    pose proof B as R. unfold build in R. rewrite lines_of_rows in R.
    destruct (csv_rows content) as [|first rest].
    + injection R as <-. intros H. injection H as <-. reflexivity.
    + destruct (flatten (first :: rest) []) as [e|tiles]; simpl in R;
        [discriminate|].
      injection R as <-. intros H. injection H as <-.
      eexists. exists content. repeat split. exact B.
  - intros H. injection H as <-. reflexivity.
Qed.

Lemma scan_templates (entries : listing) :
  forall all_templates made,
    scan entries all_templates = ret made ->
    exists new,
      made = all_templates ++ new
      /\ Forall2 (fun entry t =>
                    exists content,
                      snd entry = Text content
                      /\ build (Py.remove_csv (fst entry)) content
                         = ret (Some t))
                 (filter is_map entries) new.
Proof.
  induction entries as [|entry entries IH]; intros all_templates made; simpl.
  - intros H. injection H as <-. exists []. rewrite app_nil_r.
    split; [reflexivity|constructor].
  - destruct (visit all_templates entry) as [e|l] eqn:V; simpl;
      [discriminate|].
    intros H. apply IH in H. destruct H as [new [-> Hnew]].
    apply visit_template in V.
    destruct (is_map entry).
    + destruct V as [t [content [-> [Hc Hb]]]].
      exists (t :: new). rewrite <- app_assoc. split; [reflexivity|].
      constructor; [|exact Hnew]. exists content. split; assumption.
    + subst l. exists new. split; [reflexivity|exact Hnew].
Qed.

(** C4, amended.  When the scan of the directory ends without error,
    the templates made are, in order, those that [build] makes of the
    maps of the directory (the [.csv] texts with at least one non-blank
    row), one for each; and the template of every map whose text is
    rectangular (all its rows split into the same number of tokens,
    none of them blank) satisfies width * height = number of tiles,
    whatever the other files of the directory hold. *)
Theorem rectangular_maps_are_well_sized
    (entries : listing) (all_templates : list template) :
  scan entries [] = ret all_templates ->
  Forall2 (fun entry t =>
             exists content,
               snd entry = Text content
               /\ build (Py.remove_csv (fst entry)) content = ret (Some t)
               /\ (rectangular content -> well_sized t))
          (filter is_map entries) all_templates.
Proof.
  intros H. apply scan_templates in H. destruct H as [new [-> Hnew]].
  simpl. induction Hnew as [|entry t maps new [content [Hc Hb]] _ IH];
    constructor; [|exact IH].
  exists content. repeat split; try assumption.
  intros Hrect.
  exact (build_well_sized (Py.remove_csv (fst entry)) content t Hrect Hb).
Qed.

(** C4 amended, on a directory of a map of two rows of two tiles and a
    map whose second row is shorter: the template of the first is well
    sized. *)
Lemma rectangular_maps_are_well_sized_witness :
  let good := lit "1,2" ++ [Py.LF] ++ lit "3,4" in
  let ragged := lit "1,2" ++ [Py.LF] ++ lit "3" in
  let entries := [(lit "a.csv", Text good); (lit "b.csv", Text ragged)] in
  scan entries []
  = ret [Template (lit "a") 2 2 [1; 2; 3; 4]%Z; Template (lit "b") 2 2 [1; 2; 3]%Z]
  /\ well_sized (Template (lit "a") 2 2 [1; 2; 3; 4]%Z).
Proof.
  intros good ragged entries. split; [reflexivity|].
  pose proof (rectangular_maps_are_well_sized entries
                [Template (lit "a") 2 2 [1; 2; 3; 4]%Z;
                 Template (lit "b") 2 2 [1; 2; 3]%Z] eq_refl) as H.
  change (filter is_map entries) with entries in H.
  inversion H as [|entry t maps ts [content [Hc [_ Hw]]] _]; subst.
  apply Hw. injection Hc as <-.
  exists 2. repeat constructor; discriminate.
Defined.

End SizeClaim.

(** ** The matcher and the language of a pattern *)

Section Matcher.
Import Regex.

Lemma strip_prefix_spec (p s t : str) :
  strip_prefix p s = Some t <-> s = p ++ t.
Proof.
  revert s. induction p as [|a p IH]; intros s; simpl.
  - split; congruence.
  - destruct s as [|b s].
    + split; discriminate.
    + destruct (Ascii.eqb_spec a b) as [->|Hne].
      * rewrite IH. split; congruence.
      * split; [discriminate|congruence].
Qed.

Lemma star_rests_spec (k : cls) (s t : str) :
  In t (star_rests k s)
  <-> exists w, forallb (in_cls k) w = true /\ s = w ++ t.
Proof.
  revert t. induction s as [|c s IH]; intros t; simpl.
  - split.
    + intros [<-|[]]. exists []. split; reflexivity.
    + intros [w [_ H]]. left. symmetry in H.
      apply app_eq_nil in H. symmetry. apply H.
  - split.
    + intros [<-|H].
      * exists []. split; reflexivity.
      * destruct (in_cls k c) eqn:Hc; [|contradiction].
        apply IH in H. destruct H as [w [Hw ->]].
        exists (c :: w). simpl. rewrite Hc, Hw. split; reflexivity.
    + intros [[|a w] [Hw H]].
      * left. exact H.
      * right. simpl in Hw, H. apply andb_true_iff in Hw.
        destruct Hw as [Ha Hw]. injection H as -> ->.
        rewrite Ha. apply IH. exists w. split; [exact Hw|reflexivity].
Qed.

(** The matcher computes the language: [t] is among the rests of [r]
    on [s] exactly when [s] is a text of [r] followed by [t]. *)
Lemma rests_spec (r : regex) :
  forall s t, In t (rests r s) <-> exists u, matches r u /\ s = u ++ t.
Proof.
  induction r as [p|k|k|a IHa b IHb|a IHa b IHb|a IHa]; intros s t; simpl.
  - destruct (strip_prefix p s) as [t'|] eqn:E.
    + apply strip_prefix_spec in E. subst s. split.
      * intros [<-|[]]. exists p. split; [constructor|reflexivity].
      * intros [u [Hu H]]. inversion Hu; subst.
        apply app_inv_head in H. left. exact H.
    + split; [contradiction|].
      intros [u [Hu H]]. inversion Hu; subst.
      assert (E' : strip_prefix u (u ++ t) = Some t)
        by (apply strip_prefix_spec; reflexivity).
      congruence.
  - destruct s as [|c s].
    + split; [contradiction|].
      intros [u [Hu H]]. inversion Hu; subst. discriminate.
    + destruct (in_cls k c) eqn:Hc.
      * rewrite star_rests_spec. split.
        -- intros [w [Hw ->]]. exists (c :: w).
           split; [constructor; assumption|reflexivity].
        -- intros [u [Hu H]]. inversion Hu; subst.
           injection H as -> ->. exists w. split; [assumption|reflexivity].
      * split; [contradiction|].
        intros [u [Hu H]]. inversion Hu; subst.
        injection H as -> ->. congruence.
  - rewrite star_rests_spec. split.
    + intros [w [Hw ->]]. exists w. split; [constructor; assumption|reflexivity].
    + intros [u [Hu ->]]. inversion Hu; subst.
      exists u. split; [assumption|reflexivity].
  - rewrite in_flat_map. split.
    + intros [m [Hm Ht]]. apply IHa in Hm. apply IHb in Ht.
      destruct Hm as [u [Hu ->]]. destruct Ht as [v [Hv ->]].
      exists (u ++ v). split; [constructor; assumption|].
      rewrite app_assoc. reflexivity.
    + intros [w [Hw ->]]. inversion Hw; subst.
      exists (v ++ t). split.
      * apply IHa. exists u. split; [assumption|].
        rewrite app_assoc. reflexivity.
      * apply IHb. exists v. split; [assumption|reflexivity].
  - rewrite in_app_iff, IHa, IHb. split.
    + intros [[u [Hu ->]]|[u [Hu ->]]]; exists u;
        (split; [|reflexivity]); [apply MAltL|apply MAltR]; assumption.
    + intros [u [Hu ->]]. inversion Hu; subst; [left|right];
        exists u; (split; [assumption|reflexivity]).
  - rewrite in_app_iff, IHa. simpl. split.
    + intros [[u [Hu ->]]|[<-|[]]].
      * exists u. split; [apply MOptSome; assumption|reflexivity].
      * exists []. split; [apply MOptNone|reflexivity].
    + intros [u [Hu ->]]. inversion Hu; subst.
      * left. exists u. split; [assumption|reflexivity].
      * right. left. reflexivity.
Qed.

Lemma match_at_spec (r : regex) (s : str) :
  match_at r s = true <-> exists u t, matches r u /\ s = u ++ t.
Proof.
  unfold match_at. split.
  - destruct (rests r s) as [|t l] eqn:E; [discriminate|]. intros _.
    assert (H : In t (rests r s)) by (rewrite E; left; reflexivity).
    apply rests_spec in H. destruct H as [u [Hu ->]].
    exists u, t. split; [assumption|reflexivity].
  - intros [u [t [Hu ->]]].
    assert (H : In t (rests r (u ++ t)))
      by (apply rests_spec; exists u; split; [assumption|reflexivity]).
    destruct (rests r (u ++ t)); [contradiction|reflexivity].
Qed.

(** [search] finds a text of the pattern anywhere in [s]. *)
Lemma search_spec (r : regex) (s : str) :
  search r s = true
  <-> exists before u after, matches r u /\ s = before ++ u ++ after.
Proof.
  induction s as [|c s IH]; simpl.
  - rewrite orb_false_r, match_at_spec. split.
    + intros [u [t [Hu H]]]. exists [], u, t. split; assumption.
    + intros [before [u [after [Hu H]]]].
      destruct before; [|discriminate]. exists u, after. split; assumption.
  - rewrite orb_true_iff, match_at_spec, IH. split.
    + intros [[u [t [Hu H]]]|[before [u [after [Hu ->]]]]].
      * exists [], u, t. split; assumption.
      * exists (c :: before), u, after. split; [assumption|reflexivity].
    + intros [[|b before] [u [after [Hu H]]]].
      * left. exists u, after. split; assumption.
      * right. injection H as -> ->. exists before, u, after.
        split; [assumption|reflexivity].
Qed.

End Matcher.

(** ** The validator: the symbol check *)

Section SymbolCheck.
Import Regex Validator Terms.
Local Open Scope io_scope.

Lemma matches_lit (p s : str) : matches (Lit p) s <-> s = p.
Proof.
  split; [intros H; inversion H; reflexivity|intros ->; constructor].
Qed.

Lemma matches_seq (a b : regex) (s : str) :
  matches (Seq a b) s <-> exists u v, matches a u /\ matches b v /\ s = u ++ v.
Proof.
  split.
  - intros H. inversion H; subst. exists u, v. repeat split; assumption.
  - intros [u [v [Hu [Hv ->]]]]. constructor; assumption.
Qed.

Lemma matches_spaces (w : str) : matches (Plus Space) w <-> white w.
Proof.
  unfold white. split.
  - intros H. inversion H; subst. split; [discriminate|].
    simpl in *. apply andb_true_iff. split; assumption.
  - intros [Hne Hw]. destruct w as [|c w]; [congruence|].
    simpl in Hw. apply andb_true_iff in Hw. constructor; apply Hw.
Qed.

Lemma matches_opt (a : regex) (s : str) :
  matches (Opt a) s <-> s = [] \/ matches a s.
Proof.
  split.
  - intros H. inversion H; subst; [right; assumption|left; reflexivity].
  - intros [->|H]; [apply MOptNone|apply MOptSome; exact H].
Qed.

(** The texts of the three patterns are the four declarations. *)
Lemma patterns_language (class_name d : str) :
  matches (class_pattern class_name) d
  \/ matches (interface_pattern class_name) d
  \/ matches (struct_pattern class_name) d
  <-> public_declaration class_name d.
Proof.
  unfold class_pattern, interface_pattern, struct_pattern.
  repeat setoid_rewrite matches_seq.
  repeat setoid_rewrite matches_opt.
  repeat setoid_rewrite matches_seq.
  repeat setoid_rewrite matches_lit.
  repeat setoid_rewrite matches_spaces.
  split.
  - intros [H|[H|H]].
    + destruct H as [u [v [-> [[w1 [v1 [Hw1 [[o [v2 [Ho [[u3 [v3 [-> [[w3 [v4 [Hw3 [-> ->]]]] ->]]]] ->]]]] ->]]]] ->]]]].
      destruct Ho as [->|[u5 [w2 [-> [Hw2 ->]]]]].
      * apply PublicClass; assumption.
      * rewrite <- !app_assoc. apply PublicPartialClass; assumption.
    + destruct H as [u [v [-> [[w1 [v1 [Hw1 [[u3 [v3 [-> [[w3 [v4 [Hw3 [-> ->]]]] ->]]]] ->]]]] ->]]]].
      apply PublicInterface; assumption.
    + destruct H as [u [v [-> [[w1 [v1 [Hw1 [[u3 [v3 [-> [[w3 [v4 [Hw3 [-> ->]]]] ->]]]] ->]]]] ->]]]].
      apply PublicStruct; assumption.
  - intros [w1 w2 H1 H2|w1 w2 w3 H1 H2 H3|w1 w2 H1 H2|w1 w2 H1 H2].
    + left. do 2 eexists. split; [reflexivity|]. split; [|reflexivity].
      do 2 eexists. split; [exact H1|]. split; [|reflexivity].
      exists [], (lit "class" ++ w2 ++ class_name).
      split; [left; reflexivity|]. split; [|reflexivity].
      do 2 eexists. split; [reflexivity|]. split; [|reflexivity].
      do 2 eexists. split; [exact H2|]. split; reflexivity.
    + left. do 2 eexists. split; [reflexivity|]. split; [|reflexivity].
      do 2 eexists. split; [exact H1|]. split; [|reflexivity].
      exists (lit "partial" ++ w2), (lit "class" ++ w3 ++ class_name).
      split; [right; do 2 eexists; split; [reflexivity|split; [exact H2|reflexivity]]|].
      split; [|rewrite <- !app_assoc; reflexivity].
      do 2 eexists. split; [reflexivity|]. split; [|reflexivity].
      do 2 eexists. split; [exact H3|]. split; reflexivity.
    + right. left. do 2 eexists. split; [reflexivity|]. split; [|reflexivity].
      do 2 eexists. split; [exact H1|]. split; [|reflexivity].
      do 2 eexists. split; [reflexivity|]. split; [|reflexivity].
      do 2 eexists. split; [exact H2|]. split; reflexivity.
    + right. right. do 2 eexists. split; [reflexivity|]. split; [|reflexivity].
      do 2 eexists. split; [exact H1|]. split; [|reflexivity].
      do 2 eexists. split; [reflexivity|]. split; [|reflexivity].
      do 2 eexists. split; [exact H2|]. split; reflexivity.
Qed.

End SymbolCheck.

Section SymbolCheckClaim.
Import Regex Validator Terms.
Local Open Scope io_scope.

(** The answer of the symbol check on a text that can be read. *)
Lemma check_class_definition_readable
    (fs : filesystem) (filepath class_name content : str) :
  fs filepath = Readable content ->
  snd (check_class_definition fs filepath class_name)
  = search (class_pattern class_name) content
    || search (interface_pattern class_name) content
    || search (struct_pattern class_name) content.
Proof.
  intros H. unfold check_class_definition, path_exists. rewrite H. simpl.
  destruct (search (class_pattern class_name) content); [reflexivity|].
  destruct (search (interface_pattern class_name) content); [reflexivity|].
  destruct (search (struct_pattern class_name) content); reflexivity.
Qed.

Lemma found_iff_declared (class_name content : str) :
  search (class_pattern class_name) content
  || search (interface_pattern class_name) content
  || search (struct_pattern class_name) content = true
  <-> exists declaration,
        public_declaration class_name declaration
        /\ occurs declaration content.
Proof.
  rewrite !orb_true_iff, !search_spec. unfold occurs. split.
  - intros [[H|H]|H]; destruct H as [before [d [after [Hd ->]]]];
      exists d; (split; [apply patterns_language; tauto|]);
      exists before, after; reflexivity.
  - intros [d [Hd [before [after ->]]]].
    apply patterns_language in Hd. destruct Hd as [Hd|[Hd|Hd]];
      [left; left|left; right|right]; exists before, d, after;
      (split; [exact Hd|reflexivity]).
Qed.

Lemma declaration_starts_public (class_name d : str) :
  public_declaration class_name d -> exists rest, d = lit "public" ++ rest.
Proof.
  intros [w1 w2 _ _|w1 w2 w3 _ _ _|w1 w2 _ _|w1 w2 _ _]; eexists; reflexivity.
Qed.

(** C10.  For a name that is an identifier, the symbol check answers
    true only if (and in fact exactly when) the file can be read and its
    text contains a declaration of the name with the [public] modifier,
    of one of the shapes [public class], [public partial class],
    [public interface], [public struct]; on a text in which the word
    [public] does not occur, whatever it declares, the check answers
    false. *)
Theorem symbol_check_requires_public
    (fs : filesystem) (filepath class_name : str) :
  identifier class_name ->
  (snd (check_class_definition fs filepath class_name) = true
   <-> exists content declaration,
         fs filepath = Readable content
         /\ public_declaration class_name declaration
         /\ occurs declaration content)
  /\ (forall content,
        fs filepath = Readable content ->
        ~ occurs (lit "public") content ->
        snd (check_class_definition fs filepath class_name) = false).
Proof.
  intros _.
  assert (I : snd (check_class_definition fs filepath class_name) = true
              <-> exists content declaration,
                    fs filepath = Readable content
                    /\ public_declaration class_name declaration
                    /\ occurs declaration content).
  { destruct (fs filepath) as [| |content] eqn:E.
    - unfold check_class_definition, path_exists. rewrite E. simpl.
      split; [discriminate|]. intros [c [d [H _]]]. discriminate.
    - unfold check_class_definition, path_exists. rewrite E. simpl.
      split; [discriminate|]. intros [c [d [H _]]]. discriminate.
    - rewrite (check_class_definition_readable fs filepath class_name content E).
      rewrite found_iff_declared. split.
      + intros [d [Hd Ho]]. exists content, d. repeat split; assumption.
      + intros [c [d [Hc [Hd Ho]]]]. injection Hc as <-.
        exists d. split; assumption. }
  split; [exact I|].
  intros content Hc Hno.
  apply not_true_is_false. intros B. apply Hno.
  apply I in B. destruct B as [c [d [Hc' [Hd [before [after ->]]]]]].
  rewrite Hc in Hc'. injection Hc' as ->.
  destruct (declaration_starts_public class_name d Hd) as [rest ->].
  exists before, (rest ++ after). rewrite <- app_assoc. reflexivity.
Qed.

(** C10 on a file that declares [internal class MapSystem]. *)
Lemma symbol_check_requires_public_witness :
  let fs : filesystem := fun _ => Readable (lit "internal class MapSystem { }") in
  snd (check_class_definition fs (lit "Scripts/Core/MapSystem.cs") (lit "MapSystem"))
  = false.
Proof.
  intros fs.
  refine (proj2 (symbol_check_requires_public fs (lit "Scripts/Core/MapSystem.cs")
                   (lit "MapSystem") _) (lit "internal class MapSystem { }") eq_refl _).
  - split; [discriminate|reflexivity].
  - intros [before [after H]].
    assert (F : search (Lit (lit "public")) (lit "internal class MapSystem { }")
                = true).
    { apply search_spec. exists before, (lit "public"), after.
      split; [constructor|exact H]. }
    vm_compute in F. discriminate F.
Defined.

(** Declarations without the modifier, or with another one, do not pass
    the check; neither does a public static class. *)
Example symbol_check_examples :
  let check text :=
    snd (check_class_definition (fun _ => Readable (lit text))
           (lit "MapSystem.cs") (lit "MapSystem")) in
  (check "class MapSystem { }" = false
   /\ check "internal class MapSystem { }" = false
   /\ check "public static class MapSystem { }" = false
   /\ check "public class MapSystem { }" = true
   /\ check "public  partial class MapSystem { }" = true
   /\ check "public interface MapSystem { }" = true
   /\ check "public struct MapSystem { }" = true)%string.
Proof. vm_compute. repeat split. Qed.

End SymbolCheckClaim.

Section ExactName.
Import Regex Validator Terms Notions.
Local Open Scope io_scope.

Lemma exact_at_found (class_name s : str) :
  exact_at class_name s = true -> exact_search class_name s = true.
Proof. intros H. destruct s; cbn [exact_search]; rewrite H; reflexivity. Qed.

(** A public declaration of exactly the name is found by the search
    that looks at what follows the match. *)
Lemma declares_public_found (class_name content : str) :
  declares_public class_name content -> exact_search class_name content = true.
Proof.
  intros [before [d [after [-> [Hd Hafter]]]]].
  induction before as [|c before IH].
  - apply exact_at_found. unfold exact_at. apply existsb_exists.
    exists after. split.
    + apply patterns_language in Hd. rewrite !in_app_iff, !rests_spec.
      destruct Hd as [H|[H|H]]; [left|right; left|right; right];
        exists d; (split; [exact H|reflexivity]).
    + destruct after as [|a after]; [reflexivity|].
      simpl. rewrite Hafter. reflexivity.
  - cbn [app exact_search]. cbn [app] in IH. rewrite IH. apply orb_true_r.
Qed.

(** C10, as stated, fails.  The check for [MapSystem] answers true on a
    text whose only declaration is that of [MapSystemTest]; and on a
    text that declares [MapSystem] itself without the [public]
    modifier, beside the public [MapSystemTest], it answers true too.
    Neither text holds a public declaration of [MapSystem]. *)
Lemma longer_name_passes_for_shorter :
  let alone := lit "public class MapSystemTest { }" in
  let beside :=
    lit "internal class MapSystem { } public class MapSystemTest { }" in
  let check content :=
    snd (check_class_definition (fun _ => Readable content)
           (lit "Scripts/Core/MapSystem.cs") (lit "MapSystem")) in
  (check alone = true /\ ~ declares_public (lit "MapSystem") alone)
  /\ (check beside = true
      /\ occurs (lit "internal class MapSystem {") beside
      /\ ~ declares_public (lit "MapSystem") beside).
Proof.
  intros alone beside check. repeat split.
  - intros H. apply declares_public_found in H. vm_compute in H.
    discriminate H.
  - exists [], (lit " } public class MapSystemTest { }"). reflexivity.
  - intros H. apply declares_public_found in H. vm_compute in H.
    discriminate H.
Qed.

End ExactName.

(** ** The validator: bounds, frame and output *)

Section ValidatorCounts.
Import Validator Terms Notions.
Local Open Scope io_scope.

Variable fs : filesystem.

Lemma check_class_definition_needs_file (filepath class_name : str) :
  snd (check_class_definition fs filepath class_name) = true ->
  path_exists fs filepath = true.
Proof.
  unfold check_class_definition.
  destruct (path_exists fs filepath); [reflexivity|discriminate].
Qed.

Lemma check_files_step (filepath class_name : str) (rest : list (str * str))
    (passed : nat) :
  snd (check_files fs ((filepath, class_name) :: rest) passed)
  = snd (check_files fs rest
           (if path_exists fs filepath
               && snd (check_class_definition fs filepath class_name)
            then passed + 1 else passed)).
Proof.
  simpl check_files. rewrite !snd_bind. unfold check_file_exists.
  destruct (path_exists fs filepath); reflexivity.
Qed.

Lemma check_files_bounds (files : list (str * str)) :
  forall passed,
    passed <= snd (check_files fs files passed)
    /\ snd (check_files fs files passed) <= passed + existing fs files.
Proof.
  induction files as [|[filepath class_name] rest IH]; intros passed.
  - simpl. lia.
  - rewrite check_files_step. unfold existing in *. simpl filter.
    destruct (path_exists fs filepath); simpl andb.
    + destruct (snd (check_class_definition fs filepath class_name));
        [specialize (IH (passed + 1))|specialize (IH passed)];
        simpl List.length; lia.
    + specialize (IH passed). lia.
Qed.

Lemma existing_le (files : list (str * str)) :
  existing fs files <= List.length files.
Proof. unfold existing. apply filter_length_le. Qed.

Lemma check_methods_step (filepath method_name : str) (rest : list str)
    (passed : nat) :
  snd (check_methods fs filepath (method_name :: rest) passed)
  = snd (check_methods fs filepath rest
           (if snd (check_method_exists fs filepath method_name)
            then passed + 1 else passed)).
Proof. simpl check_methods. rewrite !snd_bind. reflexivity. Qed.

Lemma check_method_exists_needs_file (filepath method_name : str) :
  snd (check_method_exists fs filepath method_name) = true ->
  path_exists fs filepath = true.
Proof.
  unfold check_method_exists.
  destruct (path_exists fs filepath); [reflexivity|discriminate].
Qed.

Lemma check_methods_bounds (filepath : str) (methods : list str) :
  forall passed,
    passed <= snd (check_methods fs filepath methods passed)
    /\ snd (check_methods fs filepath methods passed)
       <= passed + (if path_exists fs filepath then List.length methods else 0).
Proof.
  induction methods as [|method_name rest IH]; intros passed.
  - simpl. destruct (path_exists fs filepath); lia.
  - rewrite check_methods_step.
    pose proof (check_method_exists_needs_file filepath method_name) as N.
    destruct (snd (check_method_exists fs filepath method_name)).
    + rewrite (N eq_refl) in *. specialize (IH (passed + 1)).
      simpl List.length. lia.
    + specialize (IH passed). simpl List.length.
      destruct (path_exists fs filepath); lia.
Qed.

End ValidatorCounts.

Section ValidatorBounds.
Import Validator Terms Notions.
Local Open Scope io_scope.

(** X1.  In every run each tally is at most the number of entries of its
    list whose file exists, hence at most the length of the list, and
    the number of passed checks is at most the number of checks. *)
Theorem passed_at_most_total (fs : filesystem) :
  (forall files passed,
     passed <= snd (check_files fs files passed)
     /\ snd (check_files fs files passed) <= passed + existing fs files
     /\ existing fs files <= List.length files)
  /\ (forall filepath methods passed,
        passed <= snd (check_methods fs filepath methods passed)
        /\ snd (check_methods fs filepath methods passed)
           <= passed + List.length methods)
  /\ total_passed fs <= total_checks.
Proof.
  split; [|split].
  - intros files passed.
    pose proof (check_files_bounds fs files passed).
    pose proof (existing_le fs files). lia.
  - intros filepath methods passed.
    pose proof (check_methods_bounds fs filepath methods passed).
    destruct (path_exists fs filepath); lia.
  - unfold total_passed, total_checks.
    pose proof (check_files_bounds fs core_files 0).
    pose proof (check_files_bounds fs test_files 0).
    pose proof (check_files_bounds fs data_files 0).
    pose proof (check_files_bounds fs network_files 0).
    pose proof (existing_le fs core_files).
    pose proof (existing_le fs test_files).
    pose proof (existing_le fs data_files).
    pose proof (existing_le fs network_files).
    pose proof (check_methods_bounds fs combat_system_path combat_methods 0).
    pose proof (check_methods_bounds fs projectile_manager_path projectile_methods 0).
    destruct (path_exists fs combat_system_path);
      destruct (path_exists fs projectile_manager_path); lia.
Qed.

End ValidatorBounds.

Section ValidatorFrame.
Import Validator Terms Notions.
Local Open Scope io_scope.

Lemma checks_of_equal_files (fs1 fs2 : filesystem) (filepath : str) :
  fs1 filepath = fs2 filepath ->
  check_file_exists fs1 filepath = check_file_exists fs2 filepath
  /\ (forall class_name,
        check_class_definition fs1 filepath class_name
        = check_class_definition fs2 filepath class_name)
  /\ (forall method_name,
        check_method_exists fs1 filepath method_name
        = check_method_exists fs2 filepath method_name).
Proof.
  intros H.
  unfold check_file_exists, check_class_definition, check_method_exists,
    path_exists.
  rewrite H. repeat split.
Qed.

Lemma check_files_agree (fs1 fs2 : filesystem) (files : list (str * str)) :
  agree_on (map fst files) fs1 fs2 ->
  forall passed, check_files fs1 files passed = check_files fs2 files passed.
Proof.
  induction files as [|[filepath class_name] rest IH]; intros H passed.
  - reflexivity.
  - simpl check_files.
    destruct (checks_of_equal_files fs1 fs2 filepath) as [E [C _]].
    { apply H. left. reflexivity. }
    rewrite E, C.
    assert (R : forall p, check_files fs1 rest p = check_files fs2 rest p).
    { apply IH. intros p Hp. apply H. right. exact Hp. }
    unfold bind.
    destruct (check_file_exists fs2 filepath) as [o1 there].
    destruct (if there then check_class_definition fs2 filepath class_name
              else ret false) as [o2 ok].
    rewrite R. reflexivity.
Qed.

Lemma check_methods_agree (fs1 fs2 : filesystem) (filepath : str)
    (methods : list str) :
  fs1 filepath = fs2 filepath ->
  forall passed,
    check_methods fs1 filepath methods passed
    = check_methods fs2 filepath methods passed.
Proof.
  intros H. induction methods as [|method_name rest IH]; intros passed.
  - reflexivity.
  - simpl check_methods.
    destruct (checks_of_equal_files fs1 fs2 filepath H) as [_ [_ M]].
    rewrite M. unfold bind.
    destruct (check_method_exists fs2 filepath method_name) as [o ok].
    rewrite IH. reflexivity.
Qed.

(** X2.  The validator looks at nothing but the paths of its checklist:
    two states of the files that agree on them give the same output,
    the same result and the same exit code. *)
Theorem main_reads_only_the_checklist (fs1 fs2 : filesystem) :
  agree_on checklist_paths fs1 fs2 ->
  main fs1 = main fs2 /\ exit_code fs1 = exit_code fs2.
Proof.
  intros H.
  assert (M : main fs1 = main fs2).
  { unfold main.
    assert (A : forall files,
               incl (map fst files) checklist_paths ->
               forall p, check_files fs1 files p = check_files fs2 files p).
    { intros files Hincl. apply check_files_agree.
      intros p Hp. apply H, Hincl, Hp. }
    rewrite (A core_files), (A test_files), (A data_files), (A network_files).
    - rewrite (check_methods_agree fs1 fs2 combat_system_path),
        (check_methods_agree fs1 fs2 projectile_manager_path).
      + reflexivity.
      + apply H. unfold checklist_paths. apply in_or_app. right.
        right. left. reflexivity.
      + apply H. unfold checklist_paths. apply in_or_app. right.
        left. reflexivity.
    - intros p Hp. unfold checklist_paths. apply in_or_app. left.
      rewrite !map_app, !in_app_iff. tauto.
    - intros p Hp. unfold checklist_paths. apply in_or_app. left.
      rewrite !map_app, !in_app_iff. tauto.
    - intros p Hp. unfold checklist_paths. apply in_or_app. left.
      rewrite !map_app, !in_app_iff. tauto.
    - intros p Hp. unfold checklist_paths. apply in_or_app. left.
      rewrite !map_app, !in_app_iff. tauto. }
  split; [exact M|]. unfold exit_code. rewrite M. reflexivity.
Qed.

(** X2 on two trees that differ only in a file outside the checklist. *)
Lemma main_reads_only_the_checklist_witness :
  let fs1 : filesystem := fun _ => Missing in
  let fs2 : filesystem :=
    fun filepath =>
      if same_path filepath (lit "README.md") then Readable (lit "notes")
      else Missing in
  main fs1 = main fs2 /\ exit_code fs1 = exit_code fs2.
Proof.
  intros fs1 fs2.
  apply (main_reads_only_the_checklist fs1 fs2).
  intros filepath HIn. unfold fs1, fs2.
  unfold checklist_paths in HIn. simpl in HIn.
  repeat (destruct HIn as [<-|HIn]; [reflexivity|]).
  contradiction.
Defined.

End ValidatorFrame.

Section ValidatorUnreadable.
Import Validator Terms Notions.
Local Open Scope io_scope.

(** X3.  A file that exists but cannot be read passes the existence
    check and fails the symbol check and the method check with the
    error line; its entry adds the two lines, counts as failed, and the
    loop goes on with the remaining entries. *)
Theorem unreadable_file_fails_without_abort (fs : filesystem) (filepath : str) :
  fs filepath = Unreadable ->
  check_file_exists fs filepath = ([FileExists filepath], true)
  /\ (forall class_name,
        check_class_definition fs filepath class_name
        = ([ErrorReading filepath], false))
  /\ (forall method_name,
        check_method_exists fs filepath method_name
        = ([ErrorReading filepath], false))
  /\ (forall class_name rest passed,
        check_files fs ((filepath, class_name) :: rest) passed
        = (FileExists filepath :: ErrorReading filepath
             :: fst (check_files fs rest passed),
           snd (check_files fs rest passed)))
  /\ (forall method_name rest passed,
        check_methods fs filepath (method_name :: rest) passed
        = (ErrorReading filepath :: fst (check_methods fs filepath rest passed),
           snd (check_methods fs filepath rest passed))).
Proof.
  intros H.
  assert (E : path_exists fs filepath = true)
    by (unfold path_exists; rewrite H; reflexivity).
  assert (F : check_file_exists fs filepath = ([FileExists filepath], true))
    by (unfold check_file_exists; rewrite E; reflexivity).
  assert (C : forall class_name,
             check_class_definition fs filepath class_name
             = ([ErrorReading filepath], false))
    by (intros; unfold check_class_definition; rewrite E, H; reflexivity).
  assert (M : forall method_name,
             check_method_exists fs filepath method_name
             = ([ErrorReading filepath], false))
    by (intros; unfold check_method_exists; rewrite E, H; reflexivity).
  repeat split; try assumption.
  - intros. simpl check_files. rewrite F. unfold bind at 1. rewrite C.
    unfold bind. destruct (check_files fs rest passed). reflexivity.
  - intros. simpl check_methods. rewrite M. unfold bind.
    destruct (check_methods fs filepath rest passed). reflexivity.
Qed.

(** X3 on a tree whose every path is a directory. *)
Lemma unreadable_file_fails_without_abort_witness :
  let fs : filesystem := fun _ => Unreadable in
  check_file_exists fs combat_system_path = ([FileExists combat_system_path], true)
  /\ forall method_name,
       check_method_exists fs combat_system_path method_name
       = ([ErrorReading combat_system_path], false).
Proof.
  intros fs.
  destruct (unreadable_file_fails_without_abort fs combat_system_path eq_refl)
    as [H1 [_ [H3 _]]].
  split; [exact H1|exact H3].
Defined.

End ValidatorUnreadable.

Section ValidatorOutput.
Import Validator Terms Notions.
Local Open Scope io_scope.

Lemma check_class_definition_lines (fs : filesystem) (filepath class_name : str) :
  path_exists fs filepath = true ->
  List.length (fst (check_class_definition fs filepath class_name)) = 1.
Proof.
  intros E. unfold check_class_definition. rewrite E. simpl.
  destruct (fs filepath) as [| |content]; try reflexivity.
  destruct (Regex.search (class_pattern class_name) content); [reflexivity|].
  destruct (Regex.search (interface_pattern class_name) content); [reflexivity|].
  destruct (Regex.search (struct_pattern class_name) content); reflexivity.
Qed.

(** X4.  The loop over a list of files prints one line for every entry,
    the line of the existence check, and one more, the line of the
    symbol check, for every entry whose file exists: nothing is printed
    about the symbol of a missing file. *)
Theorem check_files_prints_per_entry
    (fs : filesystem) (files : list (str * str)) (passed : nat) :
  List.length (fst (check_files fs files passed))
  = List.length files + existing fs files.
Proof.
  revert passed.
  induction files as [|[filepath class_name] rest IH]; intros passed.
  - reflexivity.
  - simpl check_files. rewrite fst_bind, fst_bind, !length_app, IH.
    unfold existing. simpl filter. unfold check_file_exists.
    destruct (path_exists fs filepath) eqn:E; simpl.
    + rewrite check_class_definition_lines by exact E. lia.
    + lia.
Qed.

End ValidatorOutput.

Section ValidatorPercentage.
Import Validator Terms Notions.
Local Open Scope io_scope.

Lemma total_passed_le (fs : filesystem) : total_passed fs <= total_checks.
Proof.
  unfold total_passed, total_checks.
  pose proof (check_files_bounds fs core_files 0).
  pose proof (check_files_bounds fs test_files 0).
  pose proof (check_files_bounds fs data_files 0).
  pose proof (check_files_bounds fs network_files 0).
  pose proof (existing_le fs core_files).
  pose proof (existing_le fs test_files).
  pose proof (existing_le fs data_files).
  pose proof (existing_le fs network_files).
  pose proof (check_methods_bounds fs combat_system_path combat_methods 0).
  pose proof (check_methods_bounds fs projectile_manager_path projectile_methods 0).
  destruct (path_exists fs combat_system_path);
    destruct (path_exists fs projectile_manager_path); lia.
Qed.

Lemma verdict_of_count (n : nat) :
  n <= total_checks ->
  int_ge_float (Z.of_nat n)
    (PrimFloat.mul (float_of_count total_checks) point_eight)
  = PrimFloat.leb (float_of_count 80) (percentage n total_checks).
Proof.
  change total_checks with 30. intros H.
  do 31 (destruct n as [|n]; [vm_compute; reflexivity|]).
  lia.
Qed.

(** X5.  The verdict agrees with the percentage of the overall line:
    the validator passes exactly when [total_passed/total_checks*100],
    computed in floating point as that line does, is at least 80. *)
Theorem verdict_agrees_with_percentage (fs : filesystem) :
  snd (main fs)
  = PrimFloat.leb (float_of_count 80)
      (percentage (total_passed fs) total_checks).
Proof.
  rewrite main_returns. apply verdict_of_count.
  apply total_passed_le.
Qed.

End ValidatorPercentage.

Section ValidatorWeights.
Import Validator Terms Notions.
Local Open Scope io_scope.

Lemma existing_cons (fs : filesystem) (entry : str * str)
    (rest : list (str * str)) :
  existing fs (entry :: rest)
  = (if path_exists fs (fst entry) then 1 else 0) + existing fs rest.
Proof.
  unfold existing. simpl filter.
  destruct (path_exists fs (fst entry)); reflexivity.
Qed.

Lemma missing_path (fs : filesystem) (filepath : str) :
  fs filepath = Missing -> path_exists fs filepath = false.
Proof. intros H. unfold path_exists. rewrite H. reflexivity. Qed.

(** X6.  The file of the combat system stands for six checks, its own
    and those of its five methods: when it is missing at most 24 checks
    pass.  When the file of the projectile manager is missing too, ten
    checks fail and the exit code is 1 whatever the other files hold. *)
Theorem core_files_weigh_more (fs : filesystem) :
  fs combat_system_path = Missing ->
  total_passed fs <= 24
  /\ (fs projectile_manager_path = Missing ->
      total_passed fs <= 20 /\ exit_code fs = 1%Z).
Proof.
  intros Hc. apply missing_path in Hc.
  pose proof (check_files_bounds fs core_files 0) as B1.
  pose proof (check_files_bounds fs test_files 0) as B2.
  pose proof (check_files_bounds fs data_files 0) as B3.
  pose proof (check_files_bounds fs network_files 0) as B4.
  pose proof (existing_le fs test_files) as E2.
  pose proof (existing_le fs data_files) as E3.
  pose proof (existing_le fs network_files) as E4.
  pose proof (check_methods_bounds fs combat_system_path combat_methods 0) as M1.
  pose proof (check_methods_bounds fs projectile_manager_path projectile_methods 0)
    as M2.
  rewrite Hc in M1.
  assert (Ex : existing fs core_files
               = (if path_exists fs combat_system_path then 1 else 0)
                 + ((if path_exists fs (lit "Scripts/Core/ICombatSystem.cs")
                     then 1 else 0)
                    + ((if path_exists fs projectile_manager_path then 1 else 0)
                       + existing fs (skipn 3 core_files)))).
  { change core_files
      with ((combat_system_path, lit "CombatSystem")
              :: (lit "Scripts/Core/ICombatSystem.cs", lit "ICombatSystem")
              :: (projectile_manager_path, lit "ProjectileManager")
              :: skipn 3 core_files) at 1.
    rewrite !existing_cons. reflexivity. }
  rewrite Hc in Ex.
  pose proof (existing_le fs (skipn 3 core_files)) as E1.
  change (List.length (skipn 3 core_files)) with 8 in E1.
  change (List.length test_files) with 5 in E2.
  change (List.length data_files) with 4 in E3.
  change (List.length network_files) with 2 in E4.
  change (List.length combat_methods) with 5 in M1.
  change (List.length projectile_methods) with 3 in M2.
  split.
  - unfold total_passed.
    destruct (path_exists fs (lit "Scripts/Core/ICombatSystem.cs"));
      destruct (path_exists fs projectile_manager_path); lia.
  - intros Hp. apply missing_path in Hp. rewrite Hp in Ex, M2.
    assert (T : total_passed fs <= 20).
    { unfold total_passed.
      destruct (path_exists fs (lit "Scripts/Core/ICombatSystem.cs")); lia. }
    split; [exact T|].
    unfold exit_code. rewrite main_returns.
    pose proof (threshold_test (total_passed fs)) as Th.
    destruct (int_ge_float _ _); [|reflexivity].
    assert (24 <= total_passed fs) by (apply Th; reflexivity). lia.
Qed.

(** X6 on a tree in which only those two files are missing. *)
Lemma core_files_weigh_more_witness :
  let fs := all_but [combat_system_path; projectile_manager_path] in
  total_passed fs <= 20 /\ exit_code fs = 1%Z.
Proof.
  intros fs.
  destruct (core_files_weigh_more fs eq_refl) as [_ H].
  apply H. reflexivity.
Defined.

End ValidatorWeights.

Section MethodCheck.
Import Regex Validator Terms Notions.
Local Open Scope io_scope.

Lemma matches_alt (a b : regex) (s : str) :
  matches (Alt a b) s <-> matches a s \/ matches b s.
Proof.
  split.
  - intros H. inversion H; subst; [left|right]; assumption.
  - intros [H|H]; [apply MAltL|apply MAltR]; exact H.
Qed.

Lemma matches_star (k : cls) (w : str) :
  matches (Star k) w <-> forallb (in_cls k) w = true.
Proof.
  split; [intros H; inversion H; assumption|intros H; constructor; exact H].
Qed.

(** The texts of the method pattern are the method definitions. *)
Lemma method_pattern_language (method_name d : str) :
  matches (method_pattern method_name) d <-> method_definition method_name d.
Proof.
  unfold method_pattern.
  repeat setoid_rewrite matches_seq.
  repeat setoid_rewrite matches_alt.
  repeat setoid_rewrite matches_lit.
  repeat setoid_rewrite matches_star.
  repeat setoid_rewrite matches_spaces.
  split.
  - intros [modifier [v1 [Hm [H1 ->]]]].
    destruct H1 as [w1 [v2 [Hw1 [H2 ->]]]].
    destruct H2 as [middle [v3 [Hmid [H3 ->]]]].
    destruct H3 as [w2 [v4 [Hw2 [H4 ->]]]].
    destruct H4 as [nm [v5 [-> [H5 ->]]]].
    destruct H5 as [w3 [par [Hw3 [-> ->]]]].
    apply MethodDefinition; try assumption.
    simpl. destruct Hm as [-> | [-> | ->]]; auto.
  - intros [modifier w1 middle w2 w3 Hm Hw1 Hmid Hw2 Hw3].
    exists modifier. eexists. split.
    { simpl in Hm. destruct Hm as [<- | [<- | [<- | []]]]; auto. }
    split; [|reflexivity].
    exists w1. eexists. split; [exact Hw1|]. split; [|reflexivity].
    exists middle. eexists. split; [exact Hmid|]. split; [|reflexivity].
    exists w2. eexists. split; [exact Hw2|]. split; [|reflexivity].
    do 2 eexists. split; [reflexivity|]. split; [|reflexivity].
    exists w3. eexists. split; [exact Hw3|]. split; reflexivity.
Qed.

(** X7.  For a name that is an identifier, the method check answers
    true exactly when the file can be read and its text contains an
    access modifier ([public], [private] or [protected]), white space,
    any characters of the same line, white space, the name, optional
    white space and an opening parenthesis. *)
Theorem method_check_characterised
    (fs : filesystem) (filepath method_name : str) :
  identifier method_name ->
  (snd (check_method_exists fs filepath method_name) = true
   <-> exists content definition,
         fs filepath = Readable content
         /\ method_definition method_name definition
         /\ occurs definition content).
Proof.
  intros _. unfold check_method_exists, path_exists.
  destruct (fs filepath) as [| |content] eqn:E; simpl.
  - split; [discriminate|]. intros [c [d [H _]]]. discriminate.
  - split; [discriminate|]. intros [c [d [H _]]]. discriminate.
  - destruct (search (method_pattern method_name) content) eqn:S; simpl.
    + split; [|reflexivity]. intros _.
      apply search_spec in S. destruct S as [before [d [after [Hd ->]]]].
      exists (before ++ d ++ after), d. split; [reflexivity|].
      split; [apply method_pattern_language; exact Hd|].
      exists before, after. reflexivity.
    + split; [discriminate|].
      intros [c [d [Hc [Hd [before [after ->]]]]]]. injection Hc as ->.
      assert (T : search (method_pattern method_name) (before ++ d ++ after)
                  = true).
      { apply search_spec. exists before, d, after.
        split; [apply method_pattern_language; exact Hd|reflexivity]. }
      congruence.
Qed.

(** X7 on a method definition that takes two lines. *)
Lemma method_check_characterised_witness :
  let content := lit "private  static void" ++ [Py.LF] ++ lit "  ProcessHit (int x)" in
  let fs : filesystem := fun _ => Readable content in
  snd (check_method_exists fs combat_system_path (lit "ProcessHit")) = true.
Proof.
  intros content fs.
  apply (method_check_characterised fs combat_system_path (lit "ProcessHit")).
  - split; [discriminate|reflexivity].
  - exists content,
      (lit "private" ++ lit " " ++ lit " static void" ++ (Py.LF :: lit "  ")
       ++ lit "ProcessHit" ++ lit " " ++ lit "(").
    split; [reflexivity|]. split.
    + apply MethodDefinition.
      * right. left. reflexivity.
      * split; [discriminate|reflexivity].
      * reflexivity.
      * split; [discriminate|reflexivity].
      * reflexivity.
    + exists [], (lit "int x)"). reflexivity.
Defined.

(** X8.  The name is not closed by a word boundary: whenever the symbol
    check passes for a name followed by more characters, it passes for
    the name itself, on the same file. *)
Theorem symbol_check_accepts_longer_names
    (fs : filesystem) (filepath class_name suffix : str) :
  identifier class_name ->
  identifier (class_name ++ suffix) ->
  snd (check_class_definition fs filepath (class_name ++ suffix)) = true ->
  snd (check_class_definition fs filepath class_name) = true.
Proof.
  intros _ _ H.
  pose proof (check_class_definition_needs_file fs _ _ H) as E.
  unfold path_exists in E.
  destruct (fs filepath) as [| |content] eqn:F; try discriminate.
  - unfold check_class_definition, path_exists in H. rewrite F in H.
    discriminate.
  - rewrite (check_class_definition_readable fs filepath
               (class_name ++ suffix) content F) in H.
    rewrite (check_class_definition_readable fs filepath class_name content F).
    apply found_iff_declared in H. apply found_iff_declared.
    destruct H as [d [Hd [before [after ->]]]].
    destruct Hd as [w1 w2 H1 H2|w1 w2 w3 H1 H2 H3|w1 w2 H1 H2|w1 w2 H1 H2].
    + exists (lit "public" ++ w1 ++ lit "class" ++ w2 ++ class_name).
      split; [apply PublicClass; assumption|].
      exists before, (suffix ++ after).
      rewrite <- !app_assoc. reflexivity.
    + exists (lit "public" ++ w1 ++ lit "partial" ++ w2 ++ lit "class" ++ w3
              ++ class_name).
      split; [apply PublicPartialClass; assumption|].
      exists before, (suffix ++ after).
      rewrite <- !app_assoc. reflexivity.
    + exists (lit "public" ++ w1 ++ lit "interface" ++ w2 ++ class_name).
      split; [apply PublicInterface; assumption|].
      exists before, (suffix ++ after).
      rewrite <- !app_assoc. reflexivity.
    + exists (lit "public" ++ w1 ++ lit "struct" ++ w2 ++ class_name).
      split; [apply PublicStruct; assumption|].
      exists before, (suffix ++ after).
      rewrite <- !app_assoc. reflexivity.
Qed.

(** X8 on a file that declares the test class only. *)
Lemma symbol_check_accepts_longer_names_witness :
  let fs : filesystem := fun _ => Readable (lit "public class CombatSystemTest { }") in
  snd (check_class_definition fs combat_system_path (lit "CombatSystem")) = true.
Proof.
  intros fs.
  apply (symbol_check_accepts_longer_names fs combat_system_path
           (lit "CombatSystem") (lit "Test")).
  - split; [discriminate|reflexivity].
  - split; [discriminate|reflexivity].
  - reflexivity.
Defined.

End MethodCheck.

(** ** The deploy script: which entries count, and in which order *)

Section ScanOrder.
Import MapDeploy Terms Notions.
Local Open Scope deploy_scope.

(** What [build] returns when it does not fail: nothing for a text
    without rows, and otherwise a template with the name given. *)
Lemma build_result (template_name content : str) (made : option template) :
  build template_name content = ret made ->
  match made with
  | None => csv_rows content = []
  | Some t =>
      csv_rows content <> []
      /\ name t = template_name
      /\ height t = List.length (csv_rows content)
      /\ width t = List.length (Py.split "," (hd [] (csv_rows content)))
  end.
Proof.
  unfold build. rewrite lines_of_rows.
  destruct (csv_rows content) as [|first rest].
  - intros H. injection H as <-. reflexivity.
  - destruct (flatten (first :: rest) []) as [e|tiles]; simpl;
      [discriminate|].
    intros H. injection H as <-. simpl.
    repeat split. discriminate.
Qed.

(** A turn of the loop that does not fail adds the template of a map,
    named after its file, and adds nothing for any other entry. *)
Lemma visit_result (entry : str * node) (all_templates made : list template) :
  visit all_templates entry = ret made ->
  if is_map entry
  then exists t, made = all_templates ++ [t]
                 /\ name t = Py.remove_csv (fst entry)
  else made = all_templates.
Proof.
  destruct entry as [filename file]. unfold visit, is_map. cbn [fst snd].
  destruct (Py.endswith filename (lit ".csv")); simpl.
  - destruct file as [content| |]; [|discriminate|discriminate].
    destruct (build (Py.remove_csv filename) content) as [e|made'] eqn:B;
      simpl; [discriminate|].
    apply build_result in B.
    destruct made' as [t|].
    + destruct B as [Hne [Hname _]].
      intros H. injection H as <-.
      destruct (csv_rows content); [congruence|].
      exists t. split; [reflexivity|exact Hname].
    + rewrite B. intros H. injection H as <-. reflexivity.
  - intros H. injection H as <-. reflexivity.
Qed.

Lemma scan_names (entries : listing) :
  forall all_templates made,
    scan entries all_templates = ret made ->
    map name made
    = map name all_templates
      ++ map (fun entry => Py.remove_csv (fst entry)) (filter is_map entries).
Proof.
  induction entries as [|entry entries IH]; intros all_templates made; simpl.
  - intros H. injection H as <-. rewrite app_nil_r. reflexivity.
  - destruct (visit all_templates entry) as [e|l] eqn:V; simpl;
      [discriminate|].
    intros H. apply IH in H. rewrite H.
    apply visit_result in V.
    destruct (is_map entry).
    + destruct V as [t [-> Hname]]. rewrite map_app. simpl.
      rewrite Hname, <- app_assoc. reflexivity.
    + subst l. reflexivity.
Qed.

End ScanOrder.

Section ScanOrderClaim.
Import MapDeploy Terms Notions.
Local Open Scope deploy_scope.

(** X9.  When the scan of the directory ends without error, it has made
    one template for every [.csv] entry with a non-blank row and none
    for the others; the templates come in the order of the listing and
    each is named after its file, every [.csv] taken out of the name. *)
Theorem templates_follow_the_listing
    (entries : listing) (all_templates : list template) :
  scan entries [] = ret all_templates ->
  map name all_templates
  = map (fun entry => Py.remove_csv (fst entry)) (filter is_map entries)
  /\ List.length all_templates = List.length (filter is_map entries).
Proof.
  intros H. apply scan_names in H. simpl in H. split; [exact H|].
  rewrite <- (length_map name), H, length_map. reflexivity.
Qed.

(** X9 on a directory of two maps around a note and a blank file. *)
Lemma templates_follow_the_listing_witness :
  let entries := [ (lit "b.csv", Text (lit "1"));
                   (lit "notes.txt", Unopenable);
                   (lit "blank.csv", Text (lit "  "));
                   (lit "a.csv", Text (lit "2,3")) ] in
  map name [Template (lit "b") 1 1 [1%Z]; Template (lit "a") 2 1 [2; 3]%Z]
  = map (fun entry => Py.remove_csv (fst entry)) (filter is_map entries)
  /\ List.length [Template (lit "b") 1 1 [1%Z]; Template (lit "a") 2 1 [2; 3]%Z]
     = List.length (filter is_map entries).
Proof.
  intros entries.
  apply (templates_follow_the_listing entries). reflexivity.
Defined.

(** X10.  An entry whose name does not end in [.csv] is never opened:
    whatever it holds, the scan and the whole run are those of the
    directory without it. *)
Theorem other_files_are_ignored
    (before after : listing) (filename : str) (file : node)
    (cl : list str -> option completed) :
  Py.endswith filename (lit ".csv") = false ->
  (forall all_templates,
     scan (before ++ (filename, file) :: after) all_templates
     = scan (before ++ after) all_templates)
  /\ run (before ++ (filename, file) :: after) cl = run (before ++ after) cl.
Proof.
  intros Hother.
  assert (S : forall all_templates,
             scan (before ++ (filename, file) :: after) all_templates
             = scan (before ++ after) all_templates).
  { intros. rewrite !scan_app.
    destruct (scan before all_templates) as [e|l]; cbn [bind scan];
      [reflexivity|].
    rewrite (visit_passed_over (filename, file) l); [reflexivity|].
    left. exact Hother. }
  split; [exact S|].
  unfold run, run_deploy. cbn [maps_dir]. rewrite S. reflexivity.
Qed.

(** X10 on a directory with a sub-directory and a backup of a map. *)
Lemma other_files_are_ignored_witness :
  let cl := fun _ : list str => Some (Completed 0 [] []) in
  run ([(lit "a.csv", Text (lit "1"))]
         ++ (lit "a.csv.bak", Text (lit "x,y")) :: [(lit "old", Unopenable)]) cl
  = run ([(lit "a.csv", Text (lit "1"))] ++ [(lit "old", Unopenable)]) cl.
Proof.
  intros cl.
  apply (other_files_are_ignored [(lit "a.csv", Text (lit "1"))]
           [(lit "old", Unopenable)] (lit "a.csv.bak") (Text (lit "x,y")) cl).
  reflexivity.
Defined.

End ScanOrderClaim.

Section AllOrNothing.
Import MapDeploy Terms Notions.
Local Open Scope deploy_scope.

(** X11.  Nothing is sent in part: when the client is started, every
    entry of the directory has been scanned without error and the
    command carries all the templates made; and when the scan fails,
    whatever the entry and the reason, nothing has been printed and the
    client is not started. *)
Theorem deploy_is_all_or_nothing
    (entries : listing) (cl : list str -> option completed) :
  (forall cmd,
     In (Spawn cmd) (fst (run entries cl)) ->
     exists all_templates,
       scan entries [] = ret all_templates
       /\ all_templates <> []
       /\ cmd = command all_templates)
  /\ (forall e,
        scan entries [] = inl e -> run entries cl = ([], raise e)).
Proof.
  split.
  - intros cmd HIn. apply in_calls in HIn.
    unfold run in HIn. rewrite run_calls in HIn. cbn [maps_dir] in HIn.
    destruct (scan entries []) as [e|[|t rest]]; try contradiction.
    destruct HIn as [<-|[]].
    exists (t :: rest). repeat split. discriminate.
  - intros e H. unfold run, run_deploy. cbn [maps_dir]. rewrite H.
    reflexivity.
Qed.

(** X12.  A [.csv] entry that cannot be opened, or whose bytes are not
    text, ends the run with an exception wherever it stands in the
    directory: the maps before it are not sent, nothing is printed. *)
Theorem unreadable_map_stops_the_run
    (entries : listing) (cl : list str -> option completed)
    (filename : str) (file : node) :
  In (filename, file) entries ->
  Py.endswith filename (lit ".csv") = true ->
  file = Unopenable \/ file = Undecodable ->
  exists e, run entries cl = ([], raise e).
Proof.
  intros HIn Hcsv Hfile.
  destruct (scan_raises entries (filename, file) HIn) with (all_templates := @nil template)
    as [e He].
  - intros acc. unfold visit. rewrite Hcsv.
    destruct Hfile as [->| ->]; eexists; reflexivity.
  - exists e. unfold run, run_deploy. cbn [maps_dir]. rewrite He. reflexivity.
Qed.

(** X12 on a good map followed by a directory named like a map. *)
Lemma unreadable_map_stops_the_run_witness :
  let cl := fun _ : list str => Some (Completed 0 [] []) in
  exists e,
    run [(lit "a.csv", Text (lit "1")); (lit "dir.csv", Unopenable)] cl
    = ([], raise e).
Proof.
  intros cl.
  apply (unreadable_map_stops_the_run _ cl (lit "dir.csv") Unopenable).
  - right. left. reflexivity.
  - reflexivity.
  - left. reflexivity.
Defined.

(** X13.  The outcome of the client is reported and nothing more: when
    the client completes, the run returns normally whatever the exit
    code; the success line is printed exactly when the code is 0; and
    the standard output of the client plays no part. *)
Theorem client_outcome_is_only_reported
    (entries : listing) (cl : list str -> option completed)
    (all_templates : list template) (result : completed) :
  scan entries [] = ret all_templates ->
  all_templates <> [] ->
  cl (command all_templates) = Some result ->
  snd (run entries cl) = ret tt
  /\ (In (Print DeployDone) (fst (run entries cl)) <-> returncode result = 0%Z)
  /\ (forall cl' text,
        cl' (command all_templates)
        = Some (Completed (returncode result) text (stderr result)) ->
        run entries cl' = run entries cl).
Proof.
  intros S Hne Hcl.
  destruct all_templates as [|t rest]; [congruence|].
  rewrite (run_with_templates entries cl t rest S). cbv zeta. rewrite Hcl.
  split; [reflexivity|]. split.
  - cbn [fst]. destruct (Z.eqb_spec (returncode result) 0) as [E|E].
    + split; [intros _; exact E|]. intros _. simpl. tauto.
    + split; [|contradiction]. simpl.
      intros [H|[H|[H|[]]]]; discriminate.
  - intros cl' text Hcl'.
    rewrite (run_with_templates entries cl' t rest S). cbv zeta.
    rewrite Hcl'. reflexivity.
Qed.

(** X13 on one map and a client that fails with code 1. *)
Lemma client_outcome_is_only_reported_witness :
  let entries := [(lit "a.csv", Text (lit "7"))] in
  let cl := fun _ : list str => Some (Completed 1 (lit "out") (lit "err")) in
  snd (run entries cl) = ret tt
  /\ (In (Print DeployDone) (fst (run entries cl)) <-> 1%Z = 0%Z).
Proof.
  intros entries cl.
  destruct (client_outcome_is_only_reported entries cl
              [Template (lit "a") 1 1 [7%Z]]
              (Completed 1 (lit "out") (lit "err")))
    as [H1 [H2 _]].
  - reflexivity.
  - discriminate.
  - reflexivity.
  - split; [exact H1|exact H2].
Defined.

End AllOrNothing.

(** ** The deploy script: the sizes of a template *)

Section TemplateSizes.
Import MapDeploy Terms Notions.
Local Open Scope deploy_scope.

Lemma split_nonempty (sep : ascii) (s : str) : Py.split sep s <> [].
Proof.
  destruct s as [|c r]; simpl; [discriminate|].
  destruct (Ascii.eqb c sep); [discriminate|].
  destruct (Py.split sep r); discriminate.
Qed.

(** A line splits into one field more than it has separators. *)
Lemma split_length (sep : ascii) (s : str) :
  List.length (Py.split sep s) = S (count_occ ascii_dec s sep).
Proof.
  induction s as [|c r IH]; simpl; [reflexivity|].
  destruct (Ascii.eqb_spec c sep) as [->|Hne].
  - destruct (ascii_dec sep sep); [|congruence]. simpl. rewrite IH. reflexivity.
  - destruct (ascii_dec c sep); [congruence|].
    pose proof (split_nonempty sep r) as N.
    destruct (Py.split sep r); [congruence|]. exact IH.
Qed.

Lemma split_app_sep (sep : ascii) (s : str) :
  Py.split sep (s ++ [sep]) = Py.split sep s ++ [[]].
Proof.
  induction s as [|c r IH]; simpl.
  - rewrite Ascii.eqb_refl. reflexivity.
  - destruct (Ascii.eqb c sep); [rewrite IH; reflexivity|].
    rewrite IH.
    pose proof (split_nonempty sep r) as N.
    destruct (Py.split sep r); [congruence|reflexivity].
Qed.

Lemma row_tiles_count (line : str) (row : list Z) :
  row_tiles line = ret row -> List.length row = nonblank_tokens line.
Proof. unfold row_tiles, nonblank_tokens. apply ints_length. Qed.

Lemma flatten_count (lines : list str) :
  forall tile_data tiles,
    flatten lines tile_data = ret tiles ->
    List.length tiles
    = List.length tile_data + list_sum (map nonblank_tokens lines).
Proof.
  induction lines as [|line lines IH]; intros tile_data tiles; simpl.
  - intros H. injection H as <-. lia.
  - destruct (row_tiles line) as [e|row] eqn:E; simpl; [discriminate|].
    intros H. apply IH in H. rewrite H, length_app.
    rewrite (row_tiles_count line row E). lia.
Qed.

End TemplateSizes.

Section TemplateSizesClaim.
Import MapDeploy Terms Notions.
Local Open Scope deploy_scope.

(** X14.  Of a template made from a text: the height is the number of
    non-blank rows and is at least 1; the width is one more than the
    number of commas of the first row; and the number of tiles is the
    number of non-blank tokens of all the rows together. *)
Theorem template_sizes (template_name content : str) (t : template) :
  build template_name content = ret (Some t) ->
  height t = List.length (csv_rows content)
  /\ 1 <= height t
  /\ width t = S (commas (hd [] (csv_rows content)))
  /\ List.length (tile_data t)
     = list_sum (map nonblank_tokens (csv_rows content)).
Proof.
  unfold build. rewrite lines_of_rows.
  destruct (csv_rows content) as [|first rest]; [discriminate|].
  destruct (flatten (first :: rest) []) as [e|tiles] eqn:F; simpl bind;
    [discriminate|].
  intros H. injection H as <-. cbn [height width tile_data hd].
  repeat split.
  - simpl. lia.
  - apply split_length.
  - apply flatten_count in F. exact F.
Qed.

(** X14 on the text of the rows [1,2,3] and [4,,6]. *)
Lemma template_sizes_witness :
  let content := lit "1,2,3" ++ [Py.LF] ++ lit "4,,6" in
  let t := Template (lit "m") 3 2 [1; 2; 3; 4; 6]%Z in
  height t = List.length (csv_rows content)
  /\ 1 <= height t
  /\ width t = S (commas (hd [] (csv_rows content)))
  /\ List.length (tile_data t)
     = list_sum (map nonblank_tokens (csv_rows content)).
Proof.
  intros content t.
  apply (template_sizes (lit "m") content t). reflexivity.
Defined.

(** X15.  A comma at the end of a row adds a field to the row, and so
    one to the width when the row is the first, but no tile: the blank
    field is left out of the tiles. *)
Theorem trailing_comma_widens_only (line : str) :
  List.length (Py.split "," (line ++ [","]))
  = S (List.length (Py.split "," line))
  /\ row_tiles (line ++ [","]) = row_tiles line.
Proof.
  rewrite split_app_sep. split.
  - rewrite length_app. simpl. lia.
  - unfold row_tiles. rewrite split_app_sep, filter_app. simpl.
    rewrite app_nil_r. reflexivity.
Qed.

End TemplateSizesClaim.

(** ** The deploy script: the name of a template *)

Section TemplateName.
Import MapDeploy Terms Notions.
Local Open Scope deploy_scope.

Lemma remove_csv_app_csv (s : str) :
  Py.remove_csv (s ++ lit ".csv") = Py.remove_csv s.
Proof.
  assert (G : forall n (s : str), List.length s <= n ->
              Py.remove_csv (s ++ lit ".csv") = Py.remove_csv s).
  { clear s. induction n as [|n IH]; intros s Hlen.
    - destruct s; [reflexivity|simpl in Hlen; lia].
    - destruct s as [|c1 [|c2 [|c3 [|c4 r4]]]].
      + reflexivity.
      + simpl. destruct (Ascii.eqb c1 "."); reflexivity.
      + simpl. destruct (Ascii.eqb c1 "."); destruct (Ascii.eqb c2 "c");
          simpl; destruct (Ascii.eqb c2 "."); reflexivity.
      + assert (T : Py.remove_csv ([c2; c3] ++ lit ".csv")
                    = Py.remove_csv [c2; c3])
          by (apply IH; simpl in *; lia).
        change (Py.remove_csv ([c1; c2; c3] ++ lit ".csv"))
          with (if Ascii.eqb c1 "." && Ascii.eqb c2 "c" && Ascii.eqb c3 "s"
                   && Ascii.eqb "." "v"
                then Py.remove_csv (lit "csv")
                else c1 :: Py.remove_csv ([c2; c3] ++ lit ".csv")).
        replace (Ascii.eqb "." "v") with false by reflexivity.
        rewrite andb_false_r, T. reflexivity.
      + change (Py.remove_csv ((c1 :: c2 :: c3 :: c4 :: r4) ++ lit ".csv"))
          with (if Ascii.eqb c1 "." && Ascii.eqb c2 "c" && Ascii.eqb c3 "s"
                   && Ascii.eqb c4 "v"
                then Py.remove_csv (r4 ++ lit ".csv")
                else c1 :: Py.remove_csv ((c2 :: c3 :: c4 :: r4) ++ lit ".csv")).
        change (Py.remove_csv (c1 :: c2 :: c3 :: c4 :: r4))
          with (if Ascii.eqb c1 "." && Ascii.eqb c2 "c" && Ascii.eqb c3 "s"
                   && Ascii.eqb c4 "v"
                then Py.remove_csv r4
                else c1 :: Py.remove_csv (c2 :: c3 :: c4 :: r4)).
        rewrite (IH r4) by (simpl in Hlen; lia).
        rewrite (IH (c2 :: c3 :: c4 :: r4)) by (simpl in *; lia).
        reflexivity. }
  apply (G (List.length s)). lia.
Qed.

Lemma remove_csv_without_csv (s : str) :
  ~ occurs (lit ".csv") s -> Py.remove_csv s = s.
Proof.
  induction s as [|c1 r1 IH]; intros Hno; [reflexivity|].
  assert (R : Py.remove_csv r1 = r1).
  { apply IH. intros [before [after ->]]. apply Hno.
    exists (c1 :: before), after. reflexivity. }
  destruct r1 as [|c2 [|c3 [|c4 r4]]];
    try (simpl in *; rewrite ?R; reflexivity).
  change (Py.remove_csv (c1 :: c2 :: c3 :: c4 :: r4))
    with (if Ascii.eqb c1 "." && Ascii.eqb c2 "c" && Ascii.eqb c3 "s"
             && Ascii.eqb c4 "v"
          then Py.remove_csv r4
          else c1 :: Py.remove_csv (c2 :: c3 :: c4 :: r4)).
  destruct (Ascii.eqb c1 "." && Ascii.eqb c2 "c" && Ascii.eqb c3 "s"
            && Ascii.eqb c4 "v") eqn:E; [|rewrite R; reflexivity].
  apply andb_true_iff in E. destruct E as [E E4].
  apply andb_true_iff in E. destruct E as [E E3].
  apply andb_true_iff in E. destruct E as [E1 E2].
  apply Ascii.eqb_eq in E1, E2, E3, E4. subst.
  exfalso. apply Hno. exists [], r4. reflexivity.
Qed.

Lemma endswith_app (s suffix : str) : Py.endswith (s ++ suffix) suffix = true.
Proof.
  unfold Py.endswith. rewrite rev_app_distr.
  generalize (rev suffix) as p. generalize (rev s) as t.
  intros t p. induction p as [|a p IH]; simpl.
  - destruct t; reflexivity.
  - rewrite Ascii.eqb_refl. exact IH.
Qed.

(** X16.  The template of the file [base.csv] is named [base] with
    every [.csv] taken out, which is [base] itself when [.csv] does not
    occur in it; so the files [base.csv] and [base.csv.csv] give
    templates of the same name. *)
Theorem template_name_of_file
    (base content : str) (all_templates made : list template) :
  visit all_templates (base ++ lit ".csv", Text content) = ret made ->
  (made = all_templates
   \/ exists t,
        made = all_templates ++ [t]
        /\ name t = Py.remove_csv base
        /\ (~ occurs (lit ".csv") base -> name t = base))
  /\ Py.remove_csv ((base ++ lit ".csv") ++ lit ".csv")
     = Py.remove_csv (base ++ lit ".csv").
Proof.
  intros V. split; [|apply remove_csv_app_csv].
  unfold visit in V. rewrite endswith_app in V.
  rewrite remove_csv_app_csv in V.
  destruct (build (Py.remove_csv base) content) as [e|[t|]] eqn:B;
    simpl in V; try discriminate; injection V as <-.
  - right. exists t. split; [reflexivity|].
    apply build_result in B. destruct B as [_ [Hname _]].
    split; [exact Hname|].
    intros Hno. rewrite Hname. apply remove_csv_without_csv. exact Hno.
  - left. reflexivity.
Qed.

(** X16 on the file [cave.csv]. *)
Lemma template_name_of_file_witness :
  ([Template (lit "cave") 1 1 [5%Z]] = []
   \/ exists t,
        [Template (lit "cave") 1 1 [5%Z]] = [] ++ [t]
        /\ name t = Py.remove_csv (lit "cave")
        /\ (~ occurs (lit ".csv") (lit "cave") -> name t = lit "cave"))
  /\ Py.remove_csv ((lit "cave" ++ lit ".csv") ++ lit ".csv")
     = Py.remove_csv (lit "cave" ++ lit ".csv").
Proof.
  apply (template_name_of_file (lit "cave") (lit "5") []). reflexivity.
Defined.

End TemplateName.

(** ** The payload: the text of [json.dumps] *)

Section JsonText.
Import MapDeploy Terms Notions.
Local Open Scope deploy_scope.

Lemma uint_chars (d : Decimal.uint) :
  forallb decimal_digit (lit (NilEmpty.string_of_uint d)) = true.
Proof. induction d; simpl; auto. Qed.

Lemma str_of_int_numeric (z : Z) :
  forallb numeric (Py.str_of_int z) = true.
Proof.
  assert (U : forall d, forallb numeric (lit (NilZero.string_of_uint d)) = true).
  { intros d. unfold NilZero.string_of_uint.
    assert (N : forallb numeric (lit (NilEmpty.string_of_uint d)) = true).
    { pose proof (uint_chars d) as H.
      apply forallb_forall. intros c Hc.
      unfold numeric. rewrite (proj1 (forallb_forall _ _) H c Hc). reflexivity. }
    destruct d; exact N. }
  unfold Py.str_of_int, NilZero.string_of_int.
  destruct (Z.to_int z) as [d|d].
  - apply U.
  - change (lit (String "-" (NilZero.string_of_uint d)))
      with ("-" :: lit (NilZero.string_of_uint d)).
    simpl. apply U.
Qed.

Lemma numeric_printable (c : ascii) : numeric c = true -> printable c = true.
Proof.
  destruct c as [[] [] [] [] [] [] [] []]; vm_compute; intros H;
    try reflexivity; discriminate H.
Qed.

Lemma forallb_impl {A} (p q : A -> bool) (l : list A) :
  (forall x, p x = true -> q x = true) ->
  forallb p l = true -> forallb q l = true.
Proof.
  intros H. induction l as [|x l IH]; simpl; [reflexivity|].
  intros E. apply andb_true_iff in E. destruct E as [Ex El].
  rewrite (H x Ex), (IH El). reflexivity.
Qed.

Lemma escape_char_printable (c : ascii) :
  forallb printable (Json.escape_char c) = true.
Proof.
  destruct c as [[] [] [] [] [] [] [] []]; vm_compute; reflexivity.
Qed.

Lemma encode_string_printable (s : str) :
  forallb printable (Json.encode_string s) = true.
Proof.
  unfold Json.encode_string. simpl. rewrite forallb_app. simpl.
  rewrite andb_true_r.
  induction s as [|c s IH]; simpl; [reflexivity|].
  rewrite forallb_app, escape_char_printable, IH. reflexivity.
Qed.

Lemma join_printable (sep : str) (parts : list str) :
  forallb printable sep = true ->
  Forall (fun part => forallb printable part = true) parts ->
  forallb printable (join sep parts) = true.
Proof.
  intros Hsep. induction 1 as [|part parts Hp _ IH]; [reflexivity|].
  simpl. destruct parts as [|q rest]; [exact Hp|].
  rewrite !forallb_app, Hp, Hsep, IH. reflexivity.
Qed.

(** [json.dumps] of a list and of a dictionary: the items between
    brackets, or the members between braces, separated by [", "]. *)
Lemma join_cons2 (sep a b : str) (l : list str) :
  join sep (a :: b :: l) = a ++ sep ++ join sep (b :: l).
Proof. reflexivity. Qed.

Lemma dumps_arr (items : list Json.value) :
  Json.dumps (Json.Arr items)
  = "[" :: join (lit ", ") (map Json.dumps items) ++ ["]"].
Proof.
  simpl. do 2 f_equal.
  match goal with |- ?g items = _ => set (go := g) end.
  induction items as [|x r IH]; [reflexivity|].
  destruct r as [|y rest]; [reflexivity|].
  change (go (x :: y :: rest))
    with (Json.dumps x ++ lit ", " ++ go (y :: rest)).
  rewrite IH. reflexivity.
Qed.

Lemma dumps_obj (members : list (str * Json.value)) :
  Json.dumps (Json.Obj members)
  = "{" :: join (lit ", ")
             (map (fun member => Json.encode_string (fst member) ++ lit ": "
                                 ++ Json.dumps (snd member)) members)
        ++ ["}"].
Proof.
  pose (go := fix go (l : list (str * Json.value)) : str :=
          match l with
          | [] => []
          | (k, x) :: r =>
              match r with
              | [] => Json.encode_string k ++ lit ": " ++ Json.dumps x
              | _ :: _ =>
                  Json.encode_string k ++ lit ": " ++ Json.dumps x ++ lit ", "
                  ++ go r
              end
          end).
  change (Json.dumps (Json.Obj members)) with ("{" :: go members ++ ["}"]).
  do 2 f_equal.
  induction members as [|[k x] r IH]; [reflexivity|].
  destruct r as [|y rest]; [reflexivity|].
  change (go ((k, x) :: y :: rest))
    with (Json.encode_string k ++ lit ": " ++ Json.dumps x ++ lit ", "
          ++ go (y :: rest)).
  rewrite IH. cbn [map]. rewrite join_cons2. cbn [fst snd].
  rewrite <- !app_assoc. reflexivity.
Qed.

Lemma dumps_int_printable (z : Z) :
  forallb printable (Json.dumps (Json.Int z)) = true.
Proof.
  simpl. apply (forallb_impl numeric); [exact numeric_printable|].
  apply str_of_int_numeric.
Qed.

Lemma wrapped_printable (a b : ascii) (body : str) :
  printable a = true -> printable b = true ->
  forallb printable body = true ->
  forallb printable (a :: body ++ [b]) = true.
Proof.
  intros Ha Hb Hbody. cbn [forallb]. rewrite Ha, forallb_app, Hbody.
  cbn [forallb]. rewrite Hb. reflexivity.
Qed.

Lemma dumps_ints_printable (tiles : list Z) :
  forallb printable (Json.dumps (Json.Arr (map Json.Int tiles))) = true.
Proof.
  rewrite dumps_arr.
  apply wrapped_printable; [reflexivity|reflexivity|].
  apply join_printable; [reflexivity|].
  apply Forall_forall. intros part Hpart.
  apply in_map_iff in Hpart. destruct Hpart as [v [<- Hv]].
  apply in_map_iff in Hv. destruct Hv as [z [<- _]].
  apply dumps_int_printable.
Qed.

Lemma member_printable (k : str) (v : Json.value) :
  forallb printable (Json.dumps v) = true ->
  forallb printable (Json.encode_string k ++ lit ": " ++ Json.dumps v) = true.
Proof.
  intros H. rewrite !forallb_app, encode_string_printable, H. reflexivity.
Qed.

Lemma dumps_template_printable (t : template) :
  forallb printable (Json.dumps (template_json t)) = true.
Proof.
  unfold template_json. rewrite dumps_obj.
  apply wrapped_printable; [reflexivity|reflexivity|].
  apply join_printable; [reflexivity|].
  cbn [map fst snd].
  repeat constructor; apply member_printable.
  - apply encode_string_printable.
  - apply dumps_int_printable.
  - apply dumps_int_printable.
  - apply dumps_ints_printable.
Qed.

(** X17.  The payload handed to the client is written in printable
    ASCII only, whatever the names of the files and the tiles are:
    every other character of a name is escaped. *)
Theorem payload_is_printable_ascii (all_templates : list template) :
  forallb printable (Json.dumps (args_json all_templates)) = true
  /\ Forall (fun arg => forallb printable arg = true) (command all_templates).
Proof.
  assert (P : forallb printable (Json.dumps (args_json all_templates)) = true).
  { unfold args_json. rewrite dumps_arr.
    apply wrapped_printable; [reflexivity|reflexivity|].
    cbn [map join]. rewrite dumps_arr.
    apply wrapped_printable; [reflexivity|reflexivity|].
    apply join_printable; [reflexivity|].
    apply Forall_forall. intros part Hpart.
    apply in_map_iff in Hpart. destruct Hpart as [v [<- Hv]].
    apply in_map_iff in Hv. destruct Hv as [t [<- _]].
    apply dumps_template_printable. }
  split; [exact P|].
  unfold command. repeat constructor. exact P.
Qed.

End JsonText.

Section PayloadText.
Import MapDeploy Terms Notions.
Local Open Scope deploy_scope.

(** A name of printable characters without quote or backslash is
    written as it is, between quotes. *)
Lemma encode_plain (s : str) :
  plain s = true -> Json.encode_string s = Json.QUOTE :: s ++ [Json.QUOTE].
Proof.
  intros H. unfold Json.encode_string. do 2 f_equal.
  induction s as [|c s IH]; [reflexivity|].
  cbn [plain forallb] in H. apply andb_true_iff in H. destruct H as [Hc Hs].
  apply andb_true_iff in Hc. destruct Hc as [Hc Hb].
  apply andb_true_iff in Hc. destruct Hc as [Hp Hq].
  apply negb_true_iff in Hb, Hq.
  cbn [flat_map]. rewrite (IH Hs). unfold Json.escape_char.
  rewrite Hq, Hb. unfold printable in Hp. rewrite Hp. reflexivity.
Qed.

Lemma dumps_ints (tiles : list Z) :
  map Json.dumps (map Json.Int tiles) = map Py.str_of_int tiles.
Proof. rewrite map_map. apply map_ext. reflexivity. Qed.

Lemma dumps_template (t : template) :
  Json.dumps (template_json t) = template_text t.
Proof.
  unfold template_json, template_text. rewrite dumps_obj.
  cbn [map fst snd]. rewrite !join_cons2. cbn [join].
  rewrite dumps_arr, dumps_ints.
  change (Json.dumps (Json.Str (name t))) with (Json.encode_string (name t)).
  change (Json.dumps (Json.Int (Z.of_nat (width t))))
    with (Py.str_of_int (Z.of_nat (width t))).
  change (Json.dumps (Json.Int (Z.of_nat (height t))))
    with (Py.str_of_int (Z.of_nat (height t))).
  change (Json.encode_string (lit "name")) with (quoted "name").
  change (Json.encode_string (lit "width")) with (quoted "width").
  change (Json.encode_string (lit "height")) with (quoted "height").
  change (Json.encode_string (lit "tile_data")) with (quoted "tile_data").
  change (lit "{") with ["{"]. change (lit "]}") with ["]"; "}"].
  change (lit ": [") with (lit ": " ++ ["["]).
  repeat (progress (cbn [app]; rewrite <- ?app_assoc)). reflexivity.
Qed.

(** The text [json.dumps] makes of the arguments is the payload written
    out. *)
Lemma dumps_args (all_templates : list template) :
  Json.dumps (args_json all_templates) = payload_of all_templates.
Proof.
  unfold args_json, payload_of. rewrite dumps_arr. cbn [map join].
  rewrite dumps_arr, map_map.
  rewrite (map_ext _ _ dumps_template).
  change (lit "[[") with ["["; "["]. change (lit "]]") with ["]"; "]"].
  repeat (progress (cbn [app]; rewrite <- ?app_assoc)). reflexivity.
Qed.

End PayloadText.

(** ** Writing a grid and deploying it *)

Section Decimal.
Import MapDeploy Terms Notions.
Local Open Scope deploy_scope.

(** Reading the digits of a decimal number. *)
Lemma digits_of_uint (d : Decimal.uint) :
  forall acc after,
    Py.digits acc after (lit (NilEmpty.string_of_uint d))
    = match d with
      | Decimal.Nil => if after then Some acc else None
      | _ => Some (uint_value acc d)
      end.
Proof.
  unfold lit.
  induction d; intros acc after; try reflexivity;
    (simpl; rewrite IHd; destruct d; reflexivity).
Qed.

Lemma of_uint_acc_value (d : Decimal.uint) :
  forall acc, Z.pos (Pos.of_uint_acc d acc) = uint_value (Z.pos acc) d.
Proof.
  induction d; intros acc; cbn [Pos.of_uint_acc uint_value];
    try reflexivity;
    rewrite IHd; f_equal;
    rewrite ?Pos2Z.inj_add, ?Pos2Z.inj_mul; lia.
Qed.

Lemma of_uint_value (d : Decimal.uint) :
  Z.of_N (Pos.of_uint d) = uint_value 0 d.
Proof.
  induction d; simpl; try reflexivity; try exact IHd;
    rewrite of_uint_acc_value; reflexivity.
Qed.

Lemma numeric_not_space (c : ascii) :
  numeric c = true -> negb (Py.is_space c) = true.
Proof.
  destruct c as [[] [] [] [] [] [] [] []]; vm_compute; intros H;
    try reflexivity; discriminate H.
Qed.

Lemma decimal_digit_facts (c : ascii) :
  decimal_digit c = true ->
  negb (Py.is_space c) = true
  /\ Ascii.eqb c "-" = false /\ Ascii.eqb c "+" = false.
Proof.
  destruct c as [[] [] [] [] [] [] [] []]; vm_compute; intros H;
    try discriminate H; repeat split.
Qed.

(** [int] on a run of digits and on the same run after a minus sign. *)
Lemma int_of_digits (s : str) (v : Z) :
  forallb decimal_digit s = true -> s <> [] ->
  Py.digits 0 false s = Some v ->
  (Py.digit_count s <= Py.MAX_STR_DIGITS -> Py.int s = Some v)
  /\ (Py.digit_count ("-" :: s) <= Py.MAX_STR_DIGITS ->
      Py.int ("-" :: s) = Some (- v)%Z).
Proof.
  intros Hd Hne Hv.
  assert (Hclean : forallb (fun c => negb (Py.is_space c)) s = true).
  { apply (forallb_impl decimal_digit); [|exact Hd].
    intros c Hc. apply (decimal_digit_facts c Hc). }
  split; intros Hsize; apply Nat.leb_le in Hsize; unfold Py.int.
  - rewrite (int_trim_clean s Hclean).
    destruct s as [|c r]; [congruence|].
    cbn [forallb] in Hd. apply andb_true_iff in Hd. destruct Hd as [Hc _].
    destruct (decimal_digit_facts c Hc) as [_ [E1 E2]].
    rewrite E1, E2. unfold Py.literal. rewrite Hsize. exact Hv.
  - rewrite (int_trim_clean ("-" :: s))
      by (cbn [forallb]; rewrite Hclean; reflexivity).
    change (Ascii.eqb "-" "-") with true. cbv iota.
    unfold Py.literal.
    change (Py.digit_count ("-" :: s)) with (Py.digit_count s) in Hsize.
    rewrite Hsize, Hv. reflexivity.
Qed.

Lemma str_of_positive (p : positive) :
  Py.str_of_int (Z.pos p) = lit (NilEmpty.string_of_uint (Pos.to_uint p))
  /\ Py.str_of_int (Z.neg p)
     = "-" :: lit (NilEmpty.string_of_uint (Pos.to_uint p)).
Proof.
  unfold Py.str_of_int, Z.to_int, NilZero.string_of_int,
    NilZero.string_of_uint.
  pose proof (DecimalPos.Unsigned.to_uint_nonnil p) as N.
  destruct (Pos.to_uint p); [congruence|..]; split; reflexivity.
Qed.

(** [int] reads the decimal writing of an integer back, as long as the
    writing does not have more digits than [int] takes. *)
Lemma int_reads_decimal (z : Z) :
  decimal_size z <= Py.MAX_STR_DIGITS -> Py.int (Py.str_of_int z) = Some z.
Proof.
  unfold decimal_size.
  destruct z as [|p|p]; [reflexivity| |];
    destruct (str_of_positive p) as [Epos Eneg];
    pose proof (DecimalPos.Unsigned.to_uint_nonnil p) as N;
    pose proof (DecimalPos.Unsigned.of_to p) as R;
    pose proof (digits_of_uint (Pos.to_uint p) 0 false) as D;
    pose proof (uint_chars (Pos.to_uint p)) as C;
    assert (Hv : Py.digits 0 false
                   (lit (NilEmpty.string_of_uint (Pos.to_uint p)))
                 = Some (Z.pos p))
      by (rewrite D, <- of_uint_value, R;
          destruct (Pos.to_uint p); [congruence|..]; reflexivity);
    assert (Hne : lit (NilEmpty.string_of_uint (Pos.to_uint p)) <> [])
      by (destruct (Pos.to_uint p); [congruence|..]; discriminate);
    destruct (int_of_digits _ _ C Hne Hv) as [I1 I2].
  - rewrite Epos. exact I1.
  - rewrite Eneg. exact I2.
Qed.

Lemma str_of_int_nonempty (z : Z) : Py.str_of_int z <> [].
Proof.
  destruct z as [|p|p]; [discriminate| |];
    destruct (str_of_positive p) as [Epos Eneg].
  - rewrite Epos.
    pose proof (DecimalPos.Unsigned.to_uint_nonnil p) as N.
    destruct (Pos.to_uint p); [congruence|..]; discriminate.
  - rewrite Eneg. discriminate.
Qed.

End Decimal.

Section DigitBound.
Import MapDeploy Terms Notions.
Local Open Scope deploy_scope.

Lemma digit_val_range (c : ascii) (d : Z) :
  Py.digit_val c = Some d -> (0 <= d <= 9)%Z.
Proof.
  destruct c as [[] [] [] [] [] [] [] []]; vm_compute; intros H;
    try discriminate H; injection H as <-; split; discriminate.
Qed.

(** The value of a literal of k digits, read after [acc]. *)
Lemma digits_bound (s : str) :
  forall acc after z,
    (0 <= acc)%Z ->
    Py.digits acc after s = Some z ->
    (acc * 10 ^ Z.of_nat (Py.digit_count s) <= z
     < (acc + 1) * 10 ^ Z.of_nat (Py.digit_count s))%Z.
Proof.
  unfold Py.digit_count.
  induction s as [|c s IH]; intros acc after z Hacc; cbn [Py.digits].
  - destruct after; [|discriminate]. intros H. injection H as <-.
    cbn [filter List.length]. change (10 ^ Z.of_nat 0)%Z with 1%Z. lia.
  - destruct (Ascii.eqb_spec c "_") as [->|_].
    + destruct after; [|discriminate]. intros H.
      apply IH in H; [|exact Hacc]. exact H.
    + destruct (Py.digit_val c) as [d|] eqn:D; [|discriminate].
      intros H. pose proof (digit_val_range c d D) as R.
      apply IH in H; [|lia].
      cbn [filter]. rewrite D. cbn [List.length].
      rewrite Nat2Z.inj_succ, Z.pow_succ_r by lia.
      set (P := (10 ^ Z.of_nat
                        (List.length
                           (filter (fun c0 => match Py.digit_val c0 with
                                              | Some _ => true
                                              | None => false
                                              end) s)))%Z) in *.
      assert (0 < P)%Z by (apply Z.pow_pos_nonneg; lia).
      nia.
Qed.

Lemma uint_value_lower (u : Decimal.uint) :
  forall acc,
    (0 <= acc)%Z ->
    (acc * 10 ^ Z.of_nat (Decimal.nb_digits u) <= uint_value acc u)%Z.
Proof.
  induction u; intros acc Hacc; cbn [uint_value Decimal.nb_digits];
    [change (10 ^ Z.of_nat 0)%Z with 1%Z; lia|..];
    (rewrite Nat2Z.inj_succ, Z.pow_succ_r by lia;
     match goal with
     | |- (_ <= uint_value ?a _)%Z =>
         specialize (IHu a ltac:(lia));
         assert (0 < 10 ^ Z.of_nat (Decimal.nb_digits u))%Z
           by (apply Z.pow_pos_nonneg; lia);
         nia
     end).
Qed.

Lemma uint_length (u : Decimal.uint) :
  Py.digit_count (lit (NilEmpty.string_of_uint u)) = Decimal.nb_digits u.
Proof.
  unfold Py.digit_count.
  induction u; cbn [NilEmpty.string_of_uint lit list_ascii_of_string filter
                    Decimal.nb_digits];
    [reflexivity|..];
    (match goal with
     | |- context [Py.digit_val ?c] =>
         change (Py.digit_val c)
           with (Some (Z.of_nat (Py.code c - 48)))
     end; cbn [List.length]; unfold lit in IHu; rewrite IHu; reflexivity).
Qed.

Lemma decimal_size_positive (p : positive) :
  decimal_size (Z.pos p) = Decimal.nb_digits (Pos.to_uint p)
  /\ decimal_size (Z.neg p) = Decimal.nb_digits (Pos.to_uint p).
Proof.
  unfold decimal_size. destruct (str_of_positive p) as [-> ->].
  change (Py.digit_count ("-" :: ?s)) with (Py.digit_count s).
  rewrite uint_length. split; reflexivity.
Qed.

(** A positive number below [10 ^ k] is written with at most [k]
    digits. *)
Lemma positive_size (p : positive) (k : nat) :
  (Z.pos p < 10 ^ Z.of_nat k)%Z -> Decimal.nb_digits (Pos.to_uint p) <= k.
Proof.
  intros Hlt.
  pose proof (DecimalPos.Unsigned.to_of (Pos.to_uint p)) as N.
  rewrite DecimalPos.Unsigned.of_to in N.
  change (N.to_uint (N.pos p)) with (Pos.to_uint p) in N.
  pose proof (of_uint_value (Pos.to_uint p)) as V.
  rewrite DecimalPos.Unsigned.of_to in V.
  change (Z.of_N (N.pos p)) with (Z.pos p) in V.
  pose proof (DecimalFacts.nzhead_nonzero (Pos.to_uint p)) as Z0.
  unfold Decimal.unorm in N.
  assert (L : forall u acc, (1 <= acc)%Z ->
              (10 ^ Z.of_nat (Decimal.nb_digits u) <= uint_value acc u)%Z).
  { intros u acc Hacc. pose proof (uint_value_lower u acc ltac:(lia)) as B.
    assert (0 < 10 ^ Z.of_nat (Decimal.nb_digits u))%Z
      by (apply Z.pow_pos_nonneg; lia).
    nia. }
  assert (G : forall u, (10 ^ Z.of_nat (Decimal.nb_digits u) <= Z.pos p)%Z ->
              S (Decimal.nb_digits u) <= k).
  { intros u Hu.
    assert (Z.of_nat (Decimal.nb_digits u) < Z.of_nat k)%Z; [|lia].
    apply (Z.pow_lt_mono_r_iff 10); lia. }
  destruct (Decimal.nzhead (Pos.to_uint p)) as [|u|u|u|u|u|u|u|u|u|u] eqn:E;
    rewrite N in V |- *; cbn [uint_value Decimal.nb_digits] in V |- *;
    try (apply G; rewrite V; apply L; lia).
  - discriminate V.
  - exfalso. exact (Z0 u eq_refl).
Qed.

(** What [int] reads is written in decimal with no more digits than
    [int] takes. *)
Lemma int_size (t : str) (z : Z) :
  Py.int t = Some z -> decimal_size z <= Py.MAX_STR_DIGITS.
Proof.
  assert (L : forall body v, Py.literal body = Some v ->
              decimal_size v <= Py.MAX_STR_DIGITS
              /\ decimal_size (- v) <= Py.MAX_STR_DIGITS).
  { intros body v. unfold Py.literal.
    destruct (Nat.leb_spec (Py.digit_count body) Py.MAX_STR_DIGITS) as [Hk|];
      [|discriminate].
    intros H. apply digits_bound in H; [|lia].
    destruct v as [|p|p]; [| |lia].
    - split; apply Nat.leb_le; reflexivity.
    - destruct (decimal_size_positive p) as [E1 E2].
      cbn [Z.opp]. rewrite E1, E2.
      assert (Decimal.nb_digits (Pos.to_uint p) <= Py.digit_count body)
        by (apply positive_size; lia).
      lia. }
  unfold Py.int. destruct (Py.int_trim t) as [|c r]; [discriminate|].
  destruct (Ascii.eqb c "-").
  - destruct (Py.literal r) as [v|] eqn:E; [|discriminate].
    intros H. injection H as <-. apply (L r v E).
  - destruct (Ascii.eqb c "+"); intros H; eapply L; exact H.
Qed.

Lemma ints_sizes (tokens : list str) (row : list Z) :
  ints tokens = ret row ->
  Forall (fun z => decimal_size z <= Py.MAX_STR_DIGITS) row.
Proof.
  revert row. induction tokens as [|t tokens IH]; intros row; simpl.
  - intros H. injection H as <-. constructor.
  - destruct (Py.int (Py.strip t)) as [z|] eqn:E; [|discriminate].
    destruct (ints tokens) as [e|zs]; simpl; [discriminate|].
    intros H. injection H as <-.
    constructor; [exact (int_size _ _ E)|apply IH; reflexivity].
Qed.

Lemma flatten_sizes (lines : list str) :
  forall tile_data tiles,
    Forall (fun z => decimal_size z <= Py.MAX_STR_DIGITS) tile_data ->
    flatten lines tile_data = ret tiles ->
    Forall (fun z => decimal_size z <= Py.MAX_STR_DIGITS) tiles.
Proof.
  induction lines as [|line lines IH]; intros tile_data tiles Hacc; simpl.
  - intros H. injection H as <-. exact Hacc.
  - destruct (row_tiles line) as [e|row] eqn:E; simpl; [discriminate|].
    apply IH. apply Forall_app. split; [exact Hacc|].
    exact (ints_sizes _ _ E).
Qed.

(** The tiles of a template are integers of at most 4300 digits: each
    was read by [int]. *)
Lemma build_sizes (template_name content : str) (t : template) :
  build template_name content = ret (Some t) ->
  Forall (fun z => decimal_size z <= Py.MAX_STR_DIGITS) (tile_data t).
Proof.
  unfold build.
  destruct (lines_of content) as [|first rest]; [discriminate|].
  destruct (flatten (first :: rest) []) as [e|tiles] eqn:F; simpl;
    [discriminate|].
  intros H. injection H as <-. simpl.
  exact (flatten_sizes _ _ _ (Forall_nil _) F).
Qed.

End DigitBound.

Section OneCallClaim.
Import MapDeploy Terms Notions.
Local Open Scope deploy_scope.

(** C8, as stated, fails.  In the directory of [a.csv], with the row
    [1,2], and [b.csv], with the row [3,x], the turn of [a.csv]
    produces a template; the turn of [b.csv] then raises [ValueError],
    and the run ends without having started the client. *)
Lemma template_made_but_not_sent :
  let a := (lit "a.csv", Text (lit "1,2")) in
  let b := (lit "b.csv", Text (lit "3,x")) in
  let cl := fun _ : list str => Some (Completed 0 [] []) in
  yields a (Template (lit "a") 2 1 [1; 2]%Z)
  /\ run [a; b] cl = ([], raise ValueError)
  /\ calls (fst (run [a; b] cl)) = [].
Proof.
  intros a b cl. split; [|split; reflexivity].
  intros all_templates. reflexivity.
Qed.

(** C8, amended.  When the scan of the whole directory ends without
    error and has produced at least one template, the external client
    is started exactly once, with the seven arguments [spacetime],
    [call], [-s], [http://localhost:7734], [guildmaster],
    [replace_all_templates] and the payload.  The payload is the text
    of a list in a list: two opening brackets, the templates in the
    order of their production, separated by a comma and a space, two
    closing brackets; each template is written as an object of the
    members [name], [width], [height] and [tile_data], in this order,
    the tiles as a list of decimal numbers; a name of printable ASCII
    characters without quote or backslash is written as it is, between
    quotes.  Every tile, having been read by [int], has at most 4300
    decimal digits, which is also the most that the writing of an
    integer takes. *)
Theorem templates_sent_in_one_call
    (entries : listing) (cl : list str -> option completed)
    (all_templates : list template) :
  scan entries [] = ret all_templates ->
  all_templates <> [] ->
  calls (fst (run entries cl))
  = [ [ lit "spacetime"; lit "call"; lit "-s"; lit "http://localhost:7734";
        lit "guildmaster"; lit "replace_all_templates";
        payload_of all_templates ] ]
  /\ spawns (fst (run entries cl)) = 1
  /\ Forall (fun t =>
               plain (name t) = true ->
               template_text t
               = lit "{" ++ quoted "name" ++ lit ": "
                 ++ (Json.QUOTE :: name t ++ [Json.QUOTE])
                 ++ lit ", " ++ quoted "width" ++ lit ": "
                 ++ Py.str_of_int (Z.of_nat (width t))
                 ++ lit ", " ++ quoted "height" ++ lit ": "
                 ++ Py.str_of_int (Z.of_nat (height t))
                 ++ lit ", " ++ quoted "tile_data" ++ lit ": ["
                 ++ join (lit ", ") (map Py.str_of_int (tile_data t))
                 ++ lit "]}")
            all_templates
  /\ Forall (fun t =>
               Forall (fun z => decimal_size z <= Py.MAX_STR_DIGITS)
                      (tile_data t))
            all_templates.
Proof.
  intros S Hne.
  assert (C : calls (fst (run entries cl))
              = [ [ lit "spacetime"; lit "call"; lit "-s";
                    lit "http://localhost:7734"; lit "guildmaster";
                    lit "replace_all_templates"; payload_of all_templates ] ]).
  { unfold run. rewrite run_calls. cbn [maps_dir]. rewrite S.
    destruct all_templates as [|t rest]; [congruence|].
    rewrite <- dumps_args. reflexivity. }
  split; [exact C|]. split; [unfold spawns; rewrite C; reflexivity|].
  split.
  - apply Forall_forall. intros t _ Hplain.
    unfold template_text. rewrite (encode_plain _ Hplain). reflexivity.
  - apply scan_templates in S. destruct S as [new [-> Hnew]]. simpl.
    clear Hne C. induction Hnew as [|entry t maps new [content [_ Hb]] _ IH];
      constructor; [exact (build_sizes _ _ _ Hb)|exact IH].
Qed.

(** C8 amended, on a directory of two maps: [a.csv] with the row [1,2]
    and [b.csv] with the rows [3] and [-4]. *)
Lemma templates_sent_in_one_call_witness :
  let entries := [ (lit "a.csv", Text (lit "1,2"));
                   (lit "b.csv", Text (lit "3" ++ [Py.LF] ++ lit "-4")) ] in
  let cl := fun _ : list str => Some (Completed 0 [] []) in
  calls (fst (run entries cl))
  = [ [ lit "spacetime"; lit "call"; lit "-s"; lit "http://localhost:7734";
        lit "guildmaster"; lit "replace_all_templates";
        lit "[[{" ++ quoted "name" ++ lit ": " ++ quoted "a" ++ lit ", "
        ++ quoted "width" ++ lit ": 2, " ++ quoted "height" ++ lit ": 1, "
        ++ quoted "tile_data" ++ lit ": [1, 2]}, {"
        ++ quoted "name" ++ lit ": " ++ quoted "b" ++ lit ", "
        ++ quoted "width" ++ lit ": 1, " ++ quoted "height" ++ lit ": 2, "
        ++ quoted "tile_data" ++ lit ": [3, -4]}]]" ] ].
Proof.
  intros entries cl.
  refine (proj1 (templates_sent_in_one_call entries cl
                   [Template (lit "a") 2 1 [1; 2]%Z;
                    Template (lit "b") 1 2 [3; -4]%Z] _ _)).
  - reflexivity.
  - discriminate.
Defined.

End OneCallClaim.

Section WrittenGrid.
Import MapDeploy Terms Notions.
Local Open Scope deploy_scope.

Lemma split_one_field (sep : ascii) (a : str) :
  forallb (fun c => negb (Ascii.eqb c sep)) a = true ->
  Py.split sep a = [a].
Proof.
  induction a as [|c a IH]; simpl; [reflexivity|].
  intros H. apply andb_true_iff in H. destruct H as [Hc Ha].
  apply negb_true_iff in Hc. rewrite Hc, (IH Ha). reflexivity.
Qed.

Lemma split_first_field (sep : ascii) (a b : str) :
  forallb (fun c => negb (Ascii.eqb c sep)) a = true ->
  Py.split sep (a ++ sep :: b) = a :: Py.split sep b.
Proof.
  induction a as [|c a IH]; simpl.
  - intros _. rewrite Ascii.eqb_refl. reflexivity.
  - intros H. apply andb_true_iff in H. destruct H as [Hc Ha].
    apply negb_true_iff in Hc. rewrite Hc, (IH Ha). reflexivity.
Qed.

(** Splitting what was joined gives the fields back. *)
Lemma split_join (sep : ascii) (fields : list str) :
  fields <> [] ->
  Forall (fun a => forallb (fun c => negb (Ascii.eqb c sep)) a = true) fields ->
  Py.split sep (join [sep] fields) = fields.
Proof.
  intros Hne H. revert Hne.
  induction H as [|a fields Ha _ IH]; intros Hne;
    [exfalso; apply Hne; reflexivity|].
  destruct fields as [|b rest].
  - simpl. apply split_one_field. exact Ha.
  - rewrite join_cons2.
    change (a ++ [sep] ++ join [sep] (b :: rest))
      with (a ++ sep :: join [sep] (b :: rest)).
    rewrite (split_first_field sep a _ Ha), IH by discriminate.
    reflexivity.
Qed.

Lemma readlines_first_line (row rest : str) :
  forallb (fun c => negb (Ascii.eqb c Py.LF) && negb (Ascii.eqb c Py.CR)) row
  = true ->
  Py.readlines (row ++ Py.LF :: rest) = (row ++ [Py.LF]) :: Py.readlines rest.
Proof.
  induction row as [|c row IH]; intros H.
  - reflexivity.
  - simpl in H. apply andb_true_iff in H. destruct H as [Hc Hrow].
    apply andb_true_iff in Hc. destruct Hc as [H1 H2].
    apply negb_true_iff in H1, H2.
    change (Py.readlines ((c :: row) ++ Py.LF :: rest))
      with (if Ascii.eqb c Py.LF then [Py.LF] :: Py.readlines (row ++ Py.LF :: rest)
            else if Ascii.eqb c Py.CR then
              match row ++ Py.LF :: rest with
              | c' :: r' =>
                  if Ascii.eqb c' Py.LF then [Py.LF] :: Py.readlines r'
                  else [Py.LF] :: Py.readlines (row ++ Py.LF :: rest)
              | [] => [[Py.LF]]
              end
            else match Py.readlines (row ++ Py.LF :: rest) with
                 | [] => [[c]]
                 | l :: ls => (c :: l) :: ls
                 end).
    rewrite H1, H2, (IH Hrow). reflexivity.
Qed.

Lemma strip_line (row : str) :
  forallb (fun c => negb (Py.is_space c)) row = true ->
  Py.strip (row ++ [Py.LF]) = row.
Proof.
  intros H. destruct row as [|c row]; [reflexivity|].
  assert (Hc : Py.is_space c = false).
  { simpl in H. apply andb_true_iff in H. destruct H as [H _].
    apply negb_true_iff in H. exact H. }
  assert (E1 : Py.lstrip ((c :: row) ++ [Py.LF]) = (c :: row) ++ [Py.LF])
    by (simpl; rewrite Hc; reflexivity).
  assert (L : Py.lstrip (rev (c :: row)) = rev (c :: row)).
  { assert (R : forallb (fun c => negb (Py.is_space c)) (rev (c :: row)) = true).
    { rewrite forallb_forall in *. intros x Hx. apply H, in_rev, Hx. }
    destruct (rev (c :: row)) as [|x t]; [reflexivity|].
    simpl in R. apply andb_true_iff in R. destruct R as [R _].
    apply negb_true_iff in R. simpl. rewrite R. reflexivity. }
  unfold Py.strip. rewrite E1. unfold Py.rstrip. rewrite rev_unit.
  change (Py.lstrip (Py.LF :: rev (c :: row))) with (Py.lstrip (rev (c :: row))).
  rewrite L. apply rev_involutive.
Qed.

(** The characters of a written row: digits, minus signs and commas. *)
Lemma render_row_chars (row : list Z) :
  forallb (fun c => numeric c || Ascii.eqb c ",") (render_row row) = true.
Proof.
  unfold render_row.
  induction row as [|z row IH]; [reflexivity|].
  assert (Z1 : forallb (fun c => numeric c || Ascii.eqb c ",") (Py.str_of_int z)
               = true).
  { apply (forallb_impl numeric); [|apply str_of_int_numeric].
    intros c Hc. rewrite Hc. reflexivity. }
  destruct row as [|y rest]; [exact Z1|].
  cbn [map]. rewrite join_cons2, !forallb_app, Z1.
  cbn [map] in IH. rewrite IH. reflexivity.
Qed.

Lemma render_row_nonempty (row : list Z) : row <> [] -> render_row row <> [].
Proof.
  destruct row as [|z row]; [congruence|]. intros _.
  pose proof (str_of_int_nonempty z) as N.
  unfold render_row. cbn [map].
  destruct (map Py.str_of_int row); [exact N|].
  rewrite join_cons2. destruct (Py.str_of_int z); [congruence|discriminate].
Qed.

Lemma row_char_facts (c : ascii) :
  numeric c || Ascii.eqb c "," = true ->
  negb (Py.is_space c) = true
  /\ negb (Ascii.eqb c Py.LF) && negb (Ascii.eqb c Py.CR) = true.
Proof.
  destruct c as [[] [] [] [] [] [] [] []]; vm_compute; intros H;
    try (split; reflexivity); discriminate H.
Qed.

Lemma numeric_not_comma (c : ascii) :
  numeric c = true -> negb (Ascii.eqb c ",") = true.
Proof.
  destruct c as [[] [] [] [] [] [] [] []]; vm_compute; intros H;
    try reflexivity; discriminate H.
Qed.

(** A written row holds its integers. *)
Lemma render_row_holds (row : list Z) :
  row <> [] ->
  Forall (fun z => decimal_size z <= Py.MAX_STR_DIGITS) row ->
  row_holds (render_row row) row.
Proof.
  intros Hne Hsize. unfold row_holds, render_row.
  rewrite split_join.
  - clear Hne. induction Hsize as [|z row Hz _ IH]; constructor;
      [apply int_reads_decimal; exact Hz|exact IH].
  - destruct row; [congruence|discriminate].
  - apply Forall_forall. intros a Ha.
    apply in_map_iff in Ha. destruct Ha as [z [<- _]].
    apply (forallb_impl numeric); [exact numeric_not_comma|].
    apply str_of_int_numeric.
Qed.

(** The rows of a written grid are its written rows. *)
Lemma csv_rows_render (grid : list (list Z)) :
  Forall (fun row => row <> []) grid ->
  csv_rows (render grid) = map render_row grid.
Proof.
  induction 1 as [|row grid Hrow _ IH]; [reflexivity|].
  unfold csv_rows in *. cbn [render flat_map].
  change (flat_map (fun row => render_row row ++ [Py.LF]) grid)
    with (render grid).
  rewrite <- app_assoc. simpl app.
  pose proof (render_row_chars row) as C.
  rewrite readlines_first_line.
  - cbn [map filter]. rewrite strip_line.
    + pose proof (render_row_nonempty row Hrow) as N.
      destruct (render_row row) eqn:E; [congruence|].
      cbn [Py.truthy]. rewrite IH. reflexivity.
    + eapply forallb_impl; [|exact C].
      intros c Hc. apply (row_char_facts c Hc).
  - eapply forallb_impl; [|exact C].
    intros c Hc. apply (row_char_facts c Hc).
Qed.

(** X18.  Writing and deploying is a round trip: the text of a grid
    whose rows are not empty and whose integers have at most 4300
    decimal digits each (each integer in decimal, commas between them,
    a line feed after each row) gives the template whose tiles are the
    integers of the grid in row-major order, whose height is the number
    of rows and whose width is the length of the first row. *)
Theorem written_grid_is_read_back
    (template_name : str) (grid : list (list Z)) :
  grid <> [] ->
  Forall (fun row => row <> []) grid ->
  Forall (Forall (fun z => decimal_size z <= Py.MAX_STR_DIGITS)) grid ->
  build template_name (render grid)
  = ret (Some {| name := template_name;
                 width := List.length (hd [] grid);
                 height := List.length grid;
                 tile_data := concat grid |}).
Proof.
  intros Hne Hrows Hsizes.
  assert (Hholds : Forall2 row_holds (map render_row grid) grid).
  { clear Hne. induction Hrows as [|row grid Hrow _ IH].
    - constructor.
    - inversion Hsizes as [|? ? Hsize Hrest]; subst.
      constructor; [apply render_row_holds; assumption|exact (IH Hrest)]. }
  unfold build. rewrite lines_of_rows, (csv_rows_render grid Hrows).
  pose proof (flatten_rows _ _ Hholds []) as F.
  destruct grid as [|row grid]; [congruence|].
  cbn [map] in *. rewrite F. cbn [bind ret app hd].
  assert (W : List.length (Py.split "," (render_row row)) = List.length row).
  { inversion Hholds as [|? ? ? ? Hrow _]; subst.
    apply (Forall2_length Hrow). }
  assert (Hh : List.length (render_row row :: map render_row grid)
               = List.length (row :: grid))
    by (cbn [List.length]; rewrite length_map; reflexivity).
  rewrite W, Hh. reflexivity.
Qed.

(** X18 on a grid of two rows of different lengths. *)
Lemma written_grid_is_read_back_witness :
  build (lit "m") (render [[1; -2; 30]; [0]]%Z)
  = ret (Some {| name := lit "m"; width := 3; height := 2;
                 tile_data := [1; -2; 30; 0]%Z |}).
Proof.
  apply (written_grid_is_read_back (lit "m") [[1; -2; 30]; [0]]%Z).
  - discriminate.
  - repeat constructor; discriminate.
  - repeat (apply Forall_cons || apply Forall_nil);
      apply Nat.leb_le; reflexivity.
Defined.

End WrittenGrid.

(** ** Line ends and blank lines *)

Section LineEnds.
Import MapDeploy Terms Notions.
Local Open Scope deploy_scope.

Lemma readlines_cons_inline (c : ascii) (s : str) :
  inline c = true ->
  Py.readlines (c :: s)
  = match Py.readlines s with
    | [] => [[c]]
    | l :: ls => (c :: l) :: ls
    end.
Proof.
  unfold inline. intros H. apply andb_true_iff in H. destruct H as [H1 H2].
  apply negb_true_iff in H1, H2.
  change (Py.readlines (c :: s))
    with (if Ascii.eqb c Py.LF then [Py.LF] :: Py.readlines s
          else if Ascii.eqb c Py.CR then
            match s with
            | c' :: r' =>
                if Ascii.eqb c' Py.LF then [Py.LF] :: Py.readlines r'
                else [Py.LF] :: Py.readlines s
            | [] => [[Py.LF]]
            end
          else match Py.readlines s with
               | [] => [[c]]
               | l :: ls => (c :: l) :: ls
               end).
  rewrite H1, H2. reflexivity.
Qed.

(** A line that ends in LF, in CR LF, or in CR before anything but LF. *)
Lemma readlines_lf (row rest : str) :
  forallb inline row = true ->
  Py.readlines (row ++ Py.LF :: rest) = (row ++ [Py.LF]) :: Py.readlines rest.
Proof.
  induction row as [|c row IH]; intros H; [reflexivity|].
  simpl in H. apply andb_true_iff in H. destruct H as [Hc Hrow].
  simpl app. rewrite (readlines_cons_inline c _ Hc), (IH Hrow). reflexivity.
Qed.

Lemma readlines_crlf (row rest : str) :
  forallb inline row = true ->
  Py.readlines (row ++ Py.CR :: Py.LF :: rest)
  = (row ++ [Py.LF]) :: Py.readlines rest.
Proof.
  induction row as [|c row IH]; intros H; [reflexivity|].
  simpl in H. apply andb_true_iff in H. destruct H as [Hc Hrow].
  simpl app. rewrite (readlines_cons_inline c _ Hc), (IH Hrow). reflexivity.
Qed.

Lemma readlines_cr (row rest : str) :
  forallb inline row = true ->
  match rest with c :: _ => Ascii.eqb c Py.LF = false | [] => True end ->
  Py.readlines (row ++ Py.CR :: rest) = (row ++ [Py.LF]) :: Py.readlines rest.
Proof.
  intros H Hrest. induction row as [|c row IH].
  - destruct rest as [|c rest]; [reflexivity|].
    change (Py.readlines ([] ++ Py.CR :: c :: rest))
      with (if Ascii.eqb c Py.LF then [Py.LF] :: Py.readlines rest
            else [Py.LF] :: Py.readlines (c :: rest)).
    rewrite Hrest. reflexivity.
  - simpl in H. apply andb_true_iff in H. destruct H as [Hc Hrow].
    simpl app. rewrite (readlines_cons_inline c _ Hc), (IH Hrow). reflexivity.
Qed.

Lemma text_of_head (eol : str) (rows : list str) :
  eol = [Py.CR] -> Forall (fun row => forallb inline row = true) rows ->
  match text_of eol rows with
  | c :: _ => Ascii.eqb c Py.LF = false
  | [] => True
  end.
Proof.
  intros -> H. destruct H as [|row rows Hrow _]; [exact I|].
  unfold text_of. cbn [flat_map].
  destruct row as [|c row]; [reflexivity|].
  simpl in Hrow. apply andb_true_iff in Hrow. destruct Hrow as [Hc _].
  unfold inline in Hc. apply andb_true_iff in Hc. destruct Hc as [Hc _].
  apply negb_true_iff in Hc. exact Hc.
Qed.

(** The lines read from a text are its lines, each with a line feed,
    whichever of the three line ends the text uses. *)
Lemma readlines_text_of (eol : str) (rows : list str) :
  eol = [Py.LF] \/ eol = [Py.CR; Py.LF] \/ eol = [Py.CR] ->
  Forall (fun row => forallb inline row = true) rows ->
  Py.readlines (text_of eol rows) = map (fun row => row ++ [Py.LF]) rows.
Proof.
  intros Heol H. induction H as [|row rows Hrow Hrows IH]; [reflexivity|].
  unfold text_of in *. cbn [flat_map map].
  rewrite <- app_assoc.
  destruct Heol as [->|[->| ->]].
  - simpl app at 2. rewrite (readlines_lf row _ Hrow), IH by auto.
    reflexivity.
  - simpl app at 2. rewrite (readlines_crlf row _ Hrow), IH by auto.
    reflexivity.
  - simpl app at 2. rewrite (readlines_cr row _ Hrow).
    + rewrite IH by auto. reflexivity.
    + apply (text_of_head [Py.CR] rows eq_refl Hrows).
Qed.

Lemma rstrip_app_space (s : str) (c : ascii) :
  Py.is_space c = true -> Py.rstrip (s ++ [c]) = Py.rstrip s.
Proof.
  intros H. unfold Py.rstrip. rewrite rev_unit. simpl. rewrite H. reflexivity.
Qed.

Lemma strip_app_space (s : str) (c : ascii) :
  Py.is_space c = true -> Py.strip (s ++ [c]) = Py.strip s.
Proof.
  intros H. unfold Py.strip.
  destruct (Py.lstrip s) as [|x t] eqn:E.
  - rewrite (lstrip_app_blank s [c] E). simpl. rewrite H. reflexivity.
  - rewrite lstrip_app_keep by congruence. rewrite E.
    apply rstrip_app_space. exact H.
Qed.

End LineEnds.

Section LineEndsClaim.
Import MapDeploy Terms Notions.
Local Open Scope deploy_scope.

(** X19.  The rows the script works on are the lines of the file
    without the white space around them, the blank ones left out,
    whether the lines end in LF, in CR LF or in CR; so the same lines
    give the same template with any of the three line ends, and blank
    lines between them change nothing. *)
Theorem rows_of_a_text (eol : str) (rows : list str) (template_name : str) :
  eol = [Py.LF] \/ eol = [Py.CR; Py.LF] \/ eol = [Py.CR] ->
  Forall (fun row => forallb inline row = true) rows ->
  lines_of (text_of eol rows) = filter Py.truthy (map Py.strip rows)
  /\ build template_name (text_of eol rows)
     = build template_name (text_of [Py.LF] rows)
  /\ build template_name (text_of eol rows)
     = build template_name
         (text_of [Py.LF] (filter (fun row => Py.truthy (Py.strip row)) rows)).
Proof.
  intros Heol H.
  assert (L : forall e l,
             e = [Py.LF] \/ e = [Py.CR; Py.LF] \/ e = [Py.CR] ->
             Forall (fun row => forallb inline row = true) l ->
             lines_of (text_of e l) = filter Py.truthy (map Py.strip l)).
  { intros e l He Hl. rewrite lines_of_rows. unfold csv_rows.
    rewrite (readlines_text_of e l He Hl), map_map. f_equal.
    apply map_ext. intros row. apply strip_app_space. reflexivity. }
  assert (F : Forall (fun row => forallb inline row = true)
                     (filter (fun row => Py.truthy (Py.strip row)) rows)).
  { apply Forall_forall. intros row Hrow. apply filter_In in Hrow.
    rewrite Forall_forall in H. apply H, Hrow. }
  split; [apply L; assumption|].
  unfold build.
  rewrite (L eol rows Heol H), (L [Py.LF] rows (or_introl eq_refl) H).
  rewrite (L [Py.LF] _ (or_introl eq_refl) F).
  split; [reflexivity|].
  rewrite <- map_filter_comm.
  rewrite <- (map_filter_comm Py.strip Py.truthy
                (filter (fun row => Py.truthy (Py.strip row)) rows)).
  assert (I : filter (fun x => Py.truthy (Py.strip x))
                (filter (fun row => Py.truthy (Py.strip row)) rows)
              = filter (fun row => Py.truthy (Py.strip row)) rows).
  { apply filter_all. apply Forall_forall. intros row Hrow.
    apply filter_In in Hrow. apply Hrow. }
  rewrite I. reflexivity.
Qed.

(** X19 on two rows with Windows line ends and a blank line between. *)
Lemma rows_of_a_text_witness :
  lines_of (text_of [Py.CR; Py.LF] [lit "1,2"; lit "  "; lit " 3,4 "])
  = filter Py.truthy (map Py.strip [lit "1,2"; lit "  "; lit " 3,4 "])
  /\ build (lit "m") (text_of [Py.CR; Py.LF] [lit "1,2"; lit "  "; lit " 3,4 "])
     = build (lit "m") (text_of [Py.LF] [lit "1,2"; lit "  "; lit " 3,4 "])
  /\ build (lit "m") (text_of [Py.CR; Py.LF] [lit "1,2"; lit "  "; lit " 3,4 "])
     = build (lit "m")
         (text_of [Py.LF]
            (filter (fun row => Py.truthy (Py.strip row))
               [lit "1,2"; lit "  "; lit " 3,4 "])).
Proof.
  apply (rows_of_a_text [Py.CR; Py.LF] [lit "1,2"; lit "  "; lit " 3,4 "] (lit "m")).
  - right. left. reflexivity.
  - repeat constructor.
Defined.

End LineEndsClaim.

Section VerdictLine.
Import Validator Terms Notions.
Local Open Scope io_scope.

Lemma main_last_line (fs : filesystem) :
  last (fst (main fs)) Banner
  = if snd (main fs) then ValidationPassed else ValidationFailed.
Proof.
  unfold main.
  repeat rewrite fst_bind. repeat rewrite snd_bind.
  destruct (int_ge_float _ _); cbv iota.
  - rewrite fst_bind.
    change (fst (ret true)) with (@nil line). rewrite app_nil_r.
    change (fst (print ValidationPassed)) with [ValidationPassed].
    repeat rewrite app_assoc. apply last_last.
  - rewrite fst_bind.
    change (fst (ret false)) with (@nil line). rewrite app_nil_r.
    change (fst (print ValidationFailed)) with [ValidationFailed].
    repeat rewrite app_assoc. apply last_last.
Qed.

(** X20.  The last line of the output is the verdict, and it says what
    the exit code says: the run ends with the line of success exactly
    when the exit code is 0, and with the line of failure exactly when
    it is 1. *)
Theorem verdict_line_matches_exit_code (fs : filesystem) :
  (exit_code fs = 0%Z <-> last (fst (main fs)) Banner = ValidationPassed)
  /\ (exit_code fs = 1%Z <-> last (fst (main fs)) Banner = ValidationFailed).
Proof.
  rewrite main_last_line. unfold exit_code.
  destruct (snd (main fs)); split; split; intros H;
    try reflexivity; discriminate H.
Qed.

End VerdictLine.
